(** * mlflow/utils/rest_utils.py: the REST client of the tracking service

    A shallow embedding of [mlflow.utils.rest_utils] and the properties of
    its credential handling, retrying transport and response verification.

    Conventions of the embedding:
    - a Python [str] is a Rocq [string] holding its UTF-8 bytes, a lone
      surrogate (which UTF-8 has no encoding for) as the three bytes
      [ED A0..BF 80..BF]; [s.encode("utf-8")] raises on such a string and is
      the identity on every other;
    - [None]-able arguments are [option]s, Python truthiness is written out
      ([truthy]);
    - a function that may raise returns [exn + A]; code that talks to the
      network threads a [Net] state that logs every request put on the wire
      and every pause taken between two attempts;
    - seconds ([backoff_factor], sleeps) are rationals [Q];
    - the libraries the module drives ([urllib3.util.Retry], the pool's
      [urlopen] loop, [requests.Session] with the redirects it follows,
      [json], [base64]) are embedded in modules of their own, named after the
      library; what they do with the text of a URL (parsing, joining,
      quoting) is left to the functions of [UrlHandling]. *)

From Stdlib Require Import ZArith QArith Lia List Bool Ascii String.
From stdpp Require Import strings gmap pretty.

Local Open Scope Z_scope.
Local Open Scope string_scope.

(** ** Python strings *)

Module Py.

(** [bool(s)] for a [str]. *)
Definition str_truthy (s : string) : bool :=
  match s with EmptyString => false | String _ _ => true end.

(** [bool(o)] for a value that is [None] or a [str]. *)
Definition truthy (o : option string) : bool :=
  match o with None => false | Some s => str_truthy s end.

Definition is_not_None {A} (o : option A) : bool :=
  match o with None => false | Some _ => true end.

Definition ascii_upper (c : ascii) : ascii :=
  let n := N_of_ascii c in
  if ((97 <=? n) && (n <=? 122))%N then ascii_of_N (n - 32) else c.

Definition ascii_lower (c : ascii) : ascii :=
  let n := N_of_ascii c in
  if ((65 <=? n) && (n <=? 90))%N then ascii_of_N (n + 32) else c.

Fixpoint str_map (f : ascii -> ascii) (s : string) : string :=
  match s with
  | EmptyString => EmptyString
  | String c r => String (f c) (str_map f r)
  end.

(** [s.upper()] and [s.lower()], on the ASCII letters. *)
Definition upper : string -> string := str_map ascii_upper.
Definition lower : string -> string := str_map ascii_lower.

(** [s.startswith(p)]. *)
Definition startswith (s p : string) : bool := String.prefix p s.

(** [s.endswith(p)]. *)
Definition endswith (s p : string) : bool :=
  String.prefix (String.rev p) (String.rev s).

(** [str(n)] for an [int]. *)
Definition str_of_int (n : Z) : string := pretty n.

(** The string holds a code point of U+D800..U+DFFF: a byte [ED] followed
    by a byte of [A0] or more. *)
Fixpoint has_surrogate (s : string) : bool :=
  match s with
  | String a (String b _ as r) =>
      ((N_of_ascii a =? 237) && (160 <=? N_of_ascii b))%N || has_surrogate r
  | _ => false
  end.

(** [s.encode("utf-8")]: [None] is the [UnicodeEncodeError]. *)
Definition encode_utf8 (s : string) : option string :=
  if has_surrogate s then None else Some s.

End Py.

(** ** base64 *)

Module base64.

Definition alphabet : string :=
  "ABCDEFGHIJKLMNOPQRSTUVWXYZabcdefghijklmnopqrstuvwxyz0123456789+/".

Definition sextet (n : N) : ascii :=
  match String.get (N.to_nat n) alphabet with
  | Some c => c
  | None => "="%char
  end.

Fixpoint encode_bytes (l : list N) : string :=
  match l with
  | [] => ""
  | [a] =>
      String (sextet (N.shiftr a 2))
     (String (sextet (N.shiftl (N.land a 3) 4)) "==")
  | [a; b] =>
      String (sextet (N.shiftr a 2))
     (String (sextet (N.lor (N.shiftl (N.land a 3) 4) (N.shiftr b 4)))
     (String (sextet (N.shiftl (N.land b 15) 2)) "="))
  | a :: b :: c :: rest =>
      String (sextet (N.shiftr a 2))
     (String (sextet (N.lor (N.shiftl (N.land a 3) 4) (N.shiftr b 4)))
     (String (sextet (N.lor (N.shiftl (N.land b 15) 2) (N.shiftr c 6)))
     (String (sextet (N.land c 63)) (encode_bytes rest))))
  end.

Definition bytes_of (s : string) : list N :=
  List.map N_of_ascii (list_ascii_of_string s).

(** [base64.standard_b64encode(b).decode("utf-8")] on the bytes of [b]. *)
Definition standard_b64encode (b : string) : string :=
  encode_bytes (bytes_of b).

End base64.

(** ** json *)

Module json.

(** A decoded document. A number keeps its lexeme; an object keeps its
    members in document order, [get] reads it as the [dict] Python builds
    (the last binding of a key wins). *)
#[warnings="-register-all"]
Inductive value :=
| Null
| Bool (b : bool)
| Number (lexeme : string)
| Str (s : string)
| Array (items : list value)
| Object (members : list (string * value)).

Fixpoint get (k : string) (members : list (string * value)) : option value :=
  match members with
  | [] => None
  | (k', v) :: rest =>
      match get k rest with
      | Some v' => Some v'
      | None => if String.eqb k k' then Some v else None
      end
  end.

Definition dquote : ascii := "034"%char.
Definition backslash : ascii := "\"%char.

Definition is_ws (c : ascii) : bool :=
  Ascii.eqb c " " || Ascii.eqb c "009" || Ascii.eqb c "010" || Ascii.eqb c "013".

Fixpoint skip_ws (s : string) : string :=
  match s with
  | String c r => if is_ws c then skip_ws r else s
  | EmptyString => s
  end.

Definition is_digit (c : ascii) : bool :=
  let n := N_of_ascii c in ((48 <=? n) && (n <=? 57))%N.

Definition hex_val (c : ascii) : option N :=
  let n := N_of_ascii c in
  if ((48 <=? n) && (n <=? 57))%N then Some (n - 48)%N
  else if ((97 <=? n) && (n <=? 102))%N then Some (n - 87)%N
  else if ((65 <=? n) && (n <=? 70))%N then Some (n - 55)%N
  else None.

(** The UTF-8 bytes of a code point (a lone surrogate is written with the
    three-byte pattern as well). *)
Definition utf8 (cp : N) : string :=
  let b (n : N) := ascii_of_N n in
  let cont (n : N) := b (128 + N.land n 63)%N in
  if (cp <? 128)%N then String (b cp) ""
  else if (cp <? 2048)%N then
    String (b (192 + N.shiftr cp 6)%N) (String (cont cp) "")
  else if (cp <? 65536)%N then
    String (b (224 + N.shiftr cp 12)%N)
      (String (cont (N.shiftr cp 6)) (String (cont cp) ""))
  else
    String (b (240 + N.shiftr cp 18)%N)
      (String (cont (N.shiftr cp 12))
         (String (cont (N.shiftr cp 6)) (String (cont cp) ""))).

Definition is_high (u : N) : bool := ((55296 <=? u) && (u <=? 56319))%N.
Definition is_low (u : N) : bool := ((56320 <=? u) && (u <=? 57343))%N.

Definition flush (pending : option N) (acc : string) : string :=
  match pending with
  | Some h => acc ++ utf8 h
  | None => acc
  end.

(** Where the string scanner stands: in plain text, just after a
    backslash, or [k] hex digits into a [\u] escape of value [v]. *)
Inductive mode := Plain | Escape | Hex (k : nat) (v : N).

(** [scanstring], strict: from just after the opening quote to just after
    the closing one. [pending] is a high surrogate read from a [\u]
    escape that still waits for its low half. *)
Fixpoint scanstring (s : string) (m : mode) (pending : option N)
    (acc : string) : option (string * string) :=
  match s with
  | EmptyString => None
  | String c r =>
      match m with
      | Plain =>
          if Ascii.eqb c dquote then Some (flush pending acc, r)
          else if Ascii.eqb c backslash then scanstring r Escape pending acc
          else if (N_of_ascii c <? 32)%N then None
          else scanstring r Plain None (flush pending acc ++ String c "")
      | Escape =>
          if Ascii.eqb c "u" then scanstring r (Hex 0 0) pending acc
          else
            let plain (d : ascii) :=
              scanstring r Plain None (flush pending acc ++ String d "") in
            if Ascii.eqb c dquote then plain dquote
            else if Ascii.eqb c backslash then plain backslash
            else if Ascii.eqb c "/" then plain "/"%char
            else if Ascii.eqb c "b" then plain "008"%char
            else if Ascii.eqb c "f" then plain "012"%char
            else if Ascii.eqb c "n" then plain "010"%char
            else if Ascii.eqb c "r" then plain "013"%char
            else if Ascii.eqb c "t" then plain "009"%char
            else None
      | Hex k v =>
          match hex_val c with
          | None => None
          | Some d =>
              let u := (16 * v + d)%N in
              match k with
              | 3%nat =>
                  match pending with
                  | Some h =>
                      if is_low u then
                        scanstring r Plain None
                          (acc ++ utf8 (65536 + N.lor (N.shiftl (h - 55296) 10) (u - 56320))%N)
                      else if is_high u then
                        scanstring r Plain (Some u) (acc ++ utf8 h)
                      else scanstring r Plain None (acc ++ utf8 h ++ utf8 u)
                  | None =>
                      if is_high u then scanstring r Plain (Some u) acc
                      else scanstring r Plain None (acc ++ utf8 u)
                  end
              | _ => scanstring r (Hex (S k) u) pending acc
              end
          end
      end
  end.

Fixpoint span_digits (s : string) : string * string :=
  match s with
  | String c r =>
      if is_digit c then let '(d, r') := span_digits r in (String c d, r')
      else ("", s)
  | EmptyString => ("", s)
  end.

(** The integer part: an optional minus sign, then [0] or a digit other
    than [0] followed by any digits. *)
Definition scan_int (s : string) : option (string * string) :=
  let '(sign, s1) :=
    match s with
    | String "-" r => ("-", r)
    | _ => ("", s)
    end in
  match s1 with
  | String c r =>
      if Ascii.eqb c "0" then Some (sign ++ "0", r)
      else if is_digit c then
        let '(d, r') := span_digits r in Some (sign ++ String c d, r')
      else None
  | EmptyString => None
  end.

(** The optional fraction: a dot and at least one digit. *)
Definition scan_frac (s : string) : string * string :=
  match s with
  | String "." r =>
      match span_digits r with
      | (String c d, r') => (String "." (String c d), r')
      | _ => ("", s)
      end
  | _ => ("", s)
  end.

(** The optional exponent: [e] or [E], an optional sign, at least one
    digit. *)
Definition scan_exp (s : string) : string * string :=
  match s with
  | String e r =>
      if Ascii.eqb e "e" || Ascii.eqb e "E" then
        let '(sign, r1) :=
          match r with
          | String c r' =>
              if Ascii.eqb c "-" || Ascii.eqb c "+" then (String c "", r')
              else ("", r)
          | EmptyString => ("", r)
          end in
        match span_digits r1 with
        | (String c d, r') => (String e (sign ++ String c d), r')
        | _ => ("", s)
        end
      else ("", s)
  | EmptyString => ("", s)
  end.

Definition scan_number (s : string) : option (value * string) :=
  match scan_int s with
  | Some (i, r) =>
      let '(f, r1) := scan_frac r in
      let '(e, r2) := scan_exp r1 in
      Some (Number (i ++ f ++ e), r2)
  | None => None
  end.

Definition drop (n : nat) (s : string) : string :=
  String.substring n (String.length s - n) s.

Definition literal (lit : string) (v : value) (s : string)
    : option (value * string) :=
  if String.prefix lit s then Some (v, drop (String.length lit) s) else None.

Definition first_of {A} (a b : option A) : option A :=
  match a with Some _ => a | None => b end.

(** [scan_once]: one value at the head of [s]. *)
Fixpoint scan_once (fuel : nat) (s : string) : option (value * string) :=
  match fuel with
  | O => None
  | S fuel =>
      match s with
      | EmptyString => None
      | String c r =>
          if Ascii.eqb c dquote then
            match scanstring r Plain None "" with
            | Some (str, r') => Some (Str str, r')
            | None => None
            end
          else if Ascii.eqb c "{" then
            match skip_ws r with
            | String "}" r' => Some (Object [], r')
            | r' => parse_members fuel r' []
            end
          else if Ascii.eqb c "[" then
            match skip_ws r with
            | String "]" r' => Some (Array [], r')
            | r' => parse_items fuel r' []
            end
          else
            first_of (literal "null" Null s)
           (first_of (literal "true" (Bool true) s)
           (first_of (literal "false" (Bool false) s)
           (first_of (scan_number s)
           (first_of (literal "NaN" (Number "NaN") s)
           (first_of (literal "Infinity" (Number "Infinity") s)
                     (literal "-Infinity" (Number "-Infinity") s))))))
      end
  end
with parse_items (fuel : nat) (s : string) (acc : list value)
    : option (value * string) :=
  match fuel with
  | O => None
  | S fuel =>
      match scan_once fuel s with
      | Some (v, r) =>
          match skip_ws r with
          | String "]" r' => Some (Array (acc ++ [v]), r')
          | String "," r' => parse_items fuel (skip_ws r') (acc ++ [v])
          | _ => None
          end
      | None => None
      end
  end
with parse_members (fuel : nat) (s : string) (acc : list (string * value))
    : option (value * string) :=
  match fuel with
  | O => None
  | S fuel =>
      match s with
      | String c r =>
          if Ascii.eqb c dquote then
            match scanstring r Plain None "" with
            | Some (k, r1) =>
                match skip_ws r1 with
                | String ":" r2 =>
                    match scan_once fuel (skip_ws r2) with
                    | Some (v, r3) =>
                        match skip_ws r3 with
                        | String "}" r' => Some (Object (acc ++ [(k, v)]), r')
                        | String "," r' =>
                            parse_members fuel (skip_ws r') (acc ++ [(k, v)])
                        | _ => None
                        end
                    | None => None
                    end
                | _ => None
                end
            | None => None
            end
          else None
      | EmptyString => None
      end
  end.

(** [json.loads(s)]; [None] stands for the [JSONDecodeError]. Every
    recursive call of the scanner has consumed a character or sits one
    call below one that has, so twice the length is fuel enough. *)
Definition loads (s : string) : option value :=
  match scan_once (2 * String.length s + 2) (skip_ws s) with
  | Some (v, r) =>
      match skip_ws r with
      | EmptyString => Some v
      | _ => None
      end
  | None => None
  end.

End json.

(** ** The wire *)

(** What [requests.Session.request] is asked to send. [params] and
    [json] hold the keyword argument as given: [None] when it was not
    passed. *)
Inductive payload :=
| Raw (s : string)
| Parsed (j : json.value).

Inductive verify_mode :=
| VerifyFlag (b : bool)
| VerifyBundle (path : string).

Record Request := {
  req_method : string;
  req_url : string;
  req_headers : gmap string string;
  req_params : option payload;
  req_data : option string;
  req_json : option payload;
  req_verify : option verify_mode;
  req_cert : option string;
  req_timeout : option Q;
}.

(** A response as the client reads it: [retry_after] is the value of the
    [Retry-After] header in seconds and [location] the [Location] header,
    when the server sent them. *)
Record Response := {
  status_code : Z;
  text : string;
  retry_after : option Q;
  location : option string;
}.

(** The ways one exchange with the server can break. *)
Inductive wire_error :=
| NewConnectionError
| ConnectTimeoutError
| ReadTimeoutError
| ProtocolError
| SSLError.

Inductive outcome :=
| Fails (e : wire_error)
| Replies (r : Response).

(** The remote side: the outcome of the [n]-th exchange (counted from 0)
    of a call sending [rq]. *)
Definition Server := Request -> nat -> outcome.

(** The observable footprint of a call: the requests put on the wire, one
    per attempt, and the seconds paused before each retry ([0] when the
    retry is fired at once). *)
Record Net := {
  sent : list Request;
  slept : list Q;
}.

Definition net0 : Net := {| sent := []; slept := [] |}.

Definition log_sent (rq : Request) (n : Net) : Net :=
  {| sent := sent n ++ [rq]; slept := slept n |}.

Definition log_sleep (d : Q) (n : Net) : Net :=
  {| sent := sent n; slept := slept n ++ [d] |}.

(** ** Exceptions *)

Inductive ErrorCode := INVALID_PARAMETER_VALUE.

Inductive retry_reason :=
| Error (e : wire_error)
| ResponseError (cause : string).

Inductive pool_exn :=
| Reraised (e : wire_error)
| MaxRetryError (url : string) (reason : retry_reason).

Inductive exn :=
| AssertionError
| KeyError (key : string)
| TypeError (msg : string)
| ValueError (msg : string)
| JSONDecodeError (doc : string)
| UnicodeEncodeError (object : string)
| MissingSchema (url : string)
| InvalidURL (url : string)
| InvalidSchema (url : string)
| TooManyRedirects (limit : nat)
| ConnectionError (cause : pool_exn)
| ConnectTimeout (cause : pool_exn)
| ReadTimeout (cause : pool_exn)
| RetryError (cause : pool_exn)
| RequestsSSLError (cause : pool_exn)
| ParseError (msg : string)
| MlflowException (message : string) (error_code : option ErrorCode)
| RestException (json : json.value).

(** ** urllib3: the retry policy and the pool's request loop *)

Module urllib3.

Record RequestHistory := {
  h_method : string;
  h_url : string;
  h_error : option wire_error;
  h_status : option Z;
  h_redirect_location : option string;
}.

(** [urllib3.util.Retry]. A counter is [None] or an integer, as in the
    constructor. *)
Record Retry := {
  total : option Z;
  connect : option Z;
  read : option Z;
  redirect : option Z;
  status : option Z;
  other : option Z;
  allowed_methods : list string;
  status_forcelist : list Z;
  backoff_factor : Q;
  raise_on_redirect : bool;
  raise_on_status : bool;
  history : list RequestHistory;
  respect_retry_after_header : bool;
}.

Definition DEFAULT_ALLOWED_METHODS : list string :=
  ["HEAD"; "GET"; "PUT"; "DELETE"; "OPTIONS"; "TRACE"].
Definition RETRY_AFTER_STATUS_CODES : list Z := [413; 429; 503].
Definition DEFAULT_BACKOFF_MAX : Q := 120.
Definition REDIRECT_STATUSES : list Z := [301; 302; 303; 307; 308].

(** [Retry(total=.., connect=.., read=.., redirect=.., status=..,
    status_forcelist=.., backoff_factor=..)]: the other arguments at
    their defaults. *)
Definition Retry_init (total connect read redirect status : option Z)
    (status_forcelist : list Z) (backoff_factor : Q) : Retry :=
  {| total := total; connect := connect; read := read;
     redirect := redirect; status := status; other := None;
     allowed_methods := DEFAULT_ALLOWED_METHODS;
     status_forcelist := status_forcelist;
     backoff_factor := backoff_factor;
     raise_on_redirect := true; raise_on_status := true;
     history := []; respect_retry_after_header := true |}.

Definition mem_Z (x : Z) (l : list Z) : bool := existsb (Z.eqb x) l.
Definition mem_str (x : string) (l : list string) : bool :=
  existsb (String.eqb x) l.

Definition truthy_count (c : option Z) : bool :=
  match c with Some n => negb (n =? 0)%Z | None => false end.

Definition _is_connection_error (e : wire_error) : bool :=
  match e with
  | NewConnectionError | ConnectTimeoutError => true
  | _ => false
  end.

Definition _is_read_error (e : wire_error) : bool :=
  match e with
  | ReadTimeoutError | ProtocolError => true
  | _ => false
  end.

Definition _is_method_retryable (r : Retry) (method : string) : bool :=
  match allowed_methods r with
  | [] => true
  | ms => mem_str (Py.upper method) ms
  end.

Definition is_retry (r : Retry) (method : string) (status_code : Z)
    (has_retry_after : bool) : bool :=
  if negb (_is_method_retryable r method) then false
  else if mem_Z status_code (status_forcelist r) then true
  else truthy_count (total r) && respect_retry_after_header r
       && has_retry_after && mem_Z status_code RETRY_AFTER_STATUS_CODES.

(** [filter(None, retry_counts)] drops the counters that are [None] or
    [0]; the policy is exhausted when one of the others is negative. *)
Definition is_exhausted (r : Retry) : bool :=
  let retry_counts :=
    [total r; connect r; read r; redirect r; status r; other r] in
  existsb (fun c => match c with Some n => (n <? 0)%Z | None => false end)
          retry_counts.

Definition get_redirect_location (resp : Response) : option string :=
  if mem_Z (status_code resp) REDIRECT_STATUSES then location resp else None.

Definition dec (c : option Z) : option Z :=
  match c with Some n => Some (n - 1) | None => None end.

Definition with_counts (r : Retry) (t c rd rdr st o : option Z)
    (h : RequestHistory) : Retry :=
  {| total := t; connect := c; read := rd; redirect := rdr; status := st;
     other := o;
     allowed_methods := allowed_methods r;
     status_forcelist := status_forcelist r;
     backoff_factor := backoff_factor r;
     raise_on_redirect := raise_on_redirect r;
     raise_on_status := raise_on_status r;
     history := history r ++ [h];
     respect_retry_after_header := respect_retry_after_header r |}.

Definition GENERIC_ERROR : string := "too many error responses".
Definition SPECIFIC_ERROR (status_code : Z) : string :=
  "too many " ++ Py.str_of_int status_code ++ " error responses".

(** [Retry.increment]: the policy after one more failed exchange, or the
    exception it raises. *)
Definition increment (r : Retry) (method url : string)
    (response : option Response) (error : option wire_error)
    : pool_exn + Retry :=
  let t := dec (total r) in
  let finish (new_retry : Retry) (reason : retry_reason) :=
    if is_exhausted new_retry then inl (MaxRetryError url reason)
    else inr new_retry in
  let entry e st loc :=
    {| h_method := method; h_url := url; h_error := e; h_status := st;
       h_redirect_location := loc |} in
  match error with
  | Some e =>
      if _is_connection_error e then
        finish (with_counts r t (dec (connect r)) (read r) (redirect r)
                  (status r) (other r) (entry (Some e) None None))
               (Error e)
      else if _is_read_error e then
        if negb (_is_method_retryable r method) then inl (Reraised e)
        else
          finish (with_counts r t (connect r) (dec (read r)) (redirect r)
                    (status r) (other r) (entry (Some e) None None))
                 (Error e)
      else
        finish (with_counts r t (connect r) (read r) (redirect r)
                  (status r) (dec (other r)) (entry (Some e) None None))
               (Error e)
  | None =>
      match response with
      | Some resp =>
          if Py.truthy (get_redirect_location resp) then
            finish (with_counts r t (connect r) (read r) (dec (redirect r))
                      (status r) (other r)
                      (entry None (Some (status_code resp))
                             (get_redirect_location resp)))
                   (ResponseError "too many redirects")
          else if negb (status_code resp =? 0)%Z then
            finish (with_counts r t (connect r) (read r) (redirect r)
                      (dec (status r)) (other r)
                      (entry None (Some (status_code resp)) None))
                   (ResponseError (SPECIFIC_ERROR (status_code resp)))
          else
            finish (with_counts r t (connect r) (read r) (redirect r)
                      (status r) (other r) (entry None None None))
                   (ResponseError GENERIC_ERROR)
      | None =>
          finish (with_counts r t (connect r) (read r) (redirect r)
                    (status r) (other r) (entry None None None))
                 (ResponseError GENERIC_ERROR)
      end
  end.

Fixpoint takewhile {A} (p : A -> bool) (l : list A) : list A :=
  match l with
  | x :: r => if p x then x :: takewhile p r else []
  | [] => []
  end.

(** The length of the run of failures that ends the history, redirects
    set apart. *)
Definition consecutive_errors_len (r : Retry) : nat :=
  length (takewhile
            (fun h => negb (Py.is_not_None (h_redirect_location h)))
            (rev (history r))).

(** [Retry.get_backoff_time]: nothing after the first failure of a
    run, then [backoff_factor * 2 ** (n - 1)] capped at
    [DEFAULT_BACKOFF_MAX]. *)
Definition get_backoff_time (r : Retry) : Q :=
  if (consecutive_errors_len r <=? 1)%nat then 0%Q
  else
    let backoff_value :=
      (backoff_factor r
       * inject_Z (2 ^ (Z.of_nat (consecutive_errors_len r) - 1)))%Q in
    if Qle_bool DEFAULT_BACKOFF_MAX backoff_value then DEFAULT_BACKOFF_MAX
    else backoff_value.

(** [Retry._sleep_backoff]: [time.sleep(backoff)] unless the backoff is
    not positive; the pause taken is logged. *)
Definition _sleep_backoff (r : Retry) (n : Net) : Net :=
  let backoff := get_backoff_time r in
  if Qle_bool backoff 0 then log_sleep 0 n else log_sleep backoff n.

(** [Retry.sleep]: the server's [Retry-After] if it is honoured and not
    zero, else the backoff. *)
Definition sleep (r : Retry) (response : option Response) (n : Net) : Net :=
  match response with
  | Some resp =>
      if respect_retry_after_header r then
        match retry_after resp with
        | Some secs =>
            if Qeq_bool secs 0 then _sleep_backoff r n else log_sleep secs n
        | None => _sleep_backoff r n
        end
      else _sleep_backoff r n
  | None => _sleep_backoff r n
  end.

(** [HTTPConnectionPool.urlopen(method, url, ..., retries=r,
    redirect=False)], the way the [requests] adapter calls it, for the
    request [rq]: [url] is what the adapter passes for it, the path of the
    request. The exchange is repeated while the policy allows it; [fuel]
    bounds the exchanges of the one call, and [None] is returned when it
    runs out first. *)
Fixpoint urlopen (fuel : nat) (srv : Server) (rq : Request) (url : string)
    (r : Retry) (n : Net) : option (Net * (pool_exn + Response)) :=
  match fuel with
  | O => None
  | S fuel =>
      let n1 := log_sent rq n in
      match srv rq (length (sent n)) with
      | Fails e =>
          match increment r (req_method rq) url None (Some e) with
          | inl x => Some (n1, inl x)
          | inr r' => urlopen fuel srv rq url r' (sleep r' None n1)
          end
      | Replies resp =>
          if is_retry r (req_method rq) (status_code resp)
               (Py.is_not_None (retry_after resp))
          then
            match increment r (req_method rq) url (Some resp) None with
            | inl x =>
                if raise_on_status r then Some (n1, inl x)
                else Some (n1, inr resp)
            | inr r' => urlopen fuel srv rq url r' (sleep r' (Some resp) n1)
            end
          else Some (n1, inr resp)
      end
  end.

End urllib3.

(** ** Calls that raise and touch the network *)

(** A computation over the [Net] log that returns or raises; [None] only
    when the fuel handed to the request loop ran out. *)
Definition M (A : Type) : Type := Net -> option (Net * (exn + A)).

Definition ret {A} (a : A) : M A := fun n => Some (n, inr a).

Definition raise {A} (e : exn) : M A := fun n => Some (n, inl e).

Definition bind {A B} (m : M A) (k : A -> M B) : M B :=
  fun n =>
    match m n with
    | Some (n', inr a) => k a n'
    | Some (n', inl e) => Some (n', inl e)
    | None => None
    end.

(** [try: m  except Exception as e: h e]. *)
Definition try_except {A} (m : M A) (h : exn -> M A) : M A :=
  fun n =>
    match m n with
    | Some (n', inl e) => h e n'
    | r => r
    end.

(** A pure step that may raise. *)
Definition lift {A} (r : exn + A) : M A := fun n => Some (n, r).

Notation "'let*' x ':=' m 'in' k" := (bind m (fun x => k))
  (at level 10, x name, m at level 100, k at level 200).

(** ** requests: sessions and transport adapters *)

(** The keyword arguments that travel from the callers down to
    [Session.request]; a field is [None] when the keyword is not given. *)
Record Kwargs := {
  kw_method : option string;
  kw_url : option string;
  kw_headers : option (gmap string string);
  kw_params : option payload;
  kw_data : option string;
  kw_json : option payload;
  kw_verify : option verify_mode;
  kw_cert : option string;
  kw_timeout : option Q;
  kw_allow_redirects : option bool;
  kw_retry_attempts : option Z;
}.

Definition no_kwargs : Kwargs :=
  {| kw_method := None; kw_url := None; kw_headers := None;
     kw_params := None; kw_data := None; kw_json := None;
     kw_verify := None; kw_cert := None; kw_timeout := None;
     kw_allow_redirects := None; kw_retry_attempts := None |}.

(** Why [PreparedRequest.prepare_url] gives a URL up: [urllib3] finds no
    scheme in it, or no host. *)
Inductive url_error :=
| NoSchemeSupplied
| NoHostSupplied.

(** What [requests] and [urllib3] do with the text of a URL. These are
    functions of the two libraries (and, for the proxies and the [.netrc]
    file, of the environment), taken as they are:
    - [prepare_url url] is [PreparedRequest.prepare_url]: the URL the
      session sends to, or the reason it has none;
    - [request_url rq] is [HTTPAdapter.request_url]: the [url] the adapter
      calls [urlopen] with for the request, its path and query (the whole
      URL through a proxy);
    - [redirect_url rq location] is the URL [resolve_redirects] sends the
      follow-up of [rq] to, for the [Location] it was answered with;
    - [redirect_headers rq resp] are the headers of that follow-up, after
      [rebuild_auth] and the purge of the headers that describe a body. *)
Class UrlHandling := {
  prepare_url : string -> url_error + string;
  request_url : Request -> string;
  redirect_url : Request -> string -> string;
  redirect_headers : Request -> Response -> gmap string string;
}.

Module requests.

(** [HTTPAdapter()] as a new session carries it, which never retries,
    or [HTTPAdapter(max_retries=r)]. *)
Inductive HTTPAdapter :=
| DefaultAdapter
| RetryAdapter (max_retries : urllib3.Retry).

Record Session := { adapters : list (string * HTTPAdapter) }.

Definition Session_new : Session :=
  {| adapters := [("https://", DefaultAdapter); ("http://", DefaultAdapter)] |}.

(** [Session.max_redirects]. *)
Definition DEFAULT_REDIRECT_LIMIT : nat := 30.

(** [Session.mount(prefix, adapter)]: the adapter takes the place of
    the one mounted on [prefix]. *)
Definition mount (http : Session) (prefix : string) (a : HTTPAdapter)
    : Session :=
  {| adapters :=
       List.filter (fun pa => negb (String.eqb (fst pa) prefix)) (adapters http)
       ++ [(prefix, a)] |}.

(** [Session.get_adapter(url)]. *)
Definition get_adapter (http : Session) (url : string) : option HTTPAdapter :=
  match List.find
          (fun pa => Py.startswith (Py.lower url) (Py.lower (fst pa)))
          (adapters http) with
  | Some pa => Some (snd pa)
  | None => None
  end.

(** The [requests] exception [HTTPAdapter.send] raises for an exception
    of the pool. *)
Definition translate (x : pool_exn) : exn :=
  match x with
  | MaxRetryError _ (Error ConnectTimeoutError) => ConnectTimeout x
  | MaxRetryError _ (ResponseError _) => RetryError x
  | MaxRetryError _ (Error SSLError) => RequestsSSLError x
  | MaxRetryError _ (Error _) => ConnectionError x
  | Reraised ReadTimeoutError => ReadTimeout x
  | Reraised SSLError => RequestsSSLError x
  | Reraised _ => ConnectionError x
  end.

(** The exception of a URL that cannot be prepared. *)
Definition url_exn (e : url_error) (url : string) : exn :=
  match e with
  | NoSchemeSupplied => MissingSchema url
  | NoHostSupplied => InvalidURL url
  end.

(** [SessionRedirectMixin.get_redirect_target]: the [Location] of a
    response with a redirect status, when there is one to go to. *)
Definition get_redirect_target (resp : Response) : option string :=
  if urllib3.mem_Z (status_code resp) urllib3.REDIRECT_STATUSES then
    match location resp with
    | Some target => if Py.str_truthy target then Some target else None
    | None => None
    end
  else None.

(** [SessionRedirectMixin.rebuild_method]. *)
Definition rebuild_method (method : string) (status_code : Z) : string :=
  let method :=
    if (status_code =? 303)%Z && negb (String.eqb method "HEAD") then "GET"
    else method in
  let method :=
    if (status_code =? 302)%Z && negb (String.eqb method "HEAD") then "GET"
    else method in
  if (status_code =? 301)%Z && String.eqb method "POST" then "GET"
  else method.

Section WithUrlHandling.

Context {U : UrlHandling}.

(** [HTTPAdapter.send]. *)
Definition send (fuel : nat) (srv : Server) (a : HTTPAdapter)
    (rq : Request) : M Response :=
  fun n =>
    match a with
    | RetryAdapter r =>
        match urllib3.urlopen fuel srv rq (request_url rq) r n with
        | Some (n', inr resp) => Some (n', inr resp)
        | Some (n', inl x) => Some (n', inl (translate x))
        | None => None
        end
    | DefaultAdapter =>
        match srv rq (length (sent n)) with
        | Replies resp => Some (log_sent rq n, inr resp)
        | Fails e =>
            Some (log_sent rq n,
                  inl (translate
                         (if urllib3._is_read_error e then Reraised e
                          else MaxRetryError (request_url rq) (Error e))))
        end
    end.

(** The request [resolve_redirects] sends after [rq] was answered with
    the redirect [resp] to [target]: the verb rebuilt, the body dropped
    unless the status is 307 or 308, the query gone with the old URL. *)
Definition redirected (rq : Request) (resp : Response) (target : string)
    : Request :=
  let keeps_body :=
    (status_code resp =? 307)%Z || (status_code resp =? 308)%Z in
  {| req_method := rebuild_method (req_method rq) (status_code resp);
     req_url := redirect_url rq target;
     req_headers := redirect_headers rq resp;
     req_params := None;
     req_data := if keeps_body then req_data rq else None;
     req_json := if keeps_body then req_json rq else None;
     req_verify := req_verify rq;
     req_cert := req_cert rq;
     req_timeout := req_timeout rq |}.

(** [SessionRedirectMixin.resolve_redirects], run to its end: while the
    response is a redirect the follow-up is sent through the adapter
    mounted for its URL, [hops] redirects at most. *)
Fixpoint resolve_redirects (hops : nat) (fuel : nat) (srv : Server)
    (http : Session) (rq : Request) (resp : Response) : M Response :=
  match get_redirect_target resp with
  | None => ret resp
  | Some target =>
      match hops with
      | O => raise (TooManyRedirects DEFAULT_REDIRECT_LIMIT)
      | S hops =>
          let rq' := redirected rq resp target in
          match get_adapter http (req_url rq') with
          | Some a =>
              let* resp' := send fuel srv a rq' in
              resolve_redirects hops fuel srv http rq' resp'
          | None => raise (InvalidSchema (req_url rq'))
          end
      end
  end.

(** What [Session.send] does with the first response: redirects are
    followed unless [allow_redirects] is false. *)
Definition follow (fuel : nat) (srv : Server) (http : Session)
    (kwargs : Kwargs) (rq : Request) (resp : Response) : M Response :=
  if default true (kw_allow_redirects kwargs) then
    resolve_redirects DEFAULT_REDIRECT_LIMIT fuel srv http rq resp
  else ret resp.

(** [Session.request(method, url, **kwargs)]. The keywords it does not
    declare are a [TypeError] of the call itself; a URL that cannot be
    prepared, or that no adapter is mounted for, is raised before
    anything is sent. The headers, the payload and the other settings are
    taken to be ones [requests] can prepare. *)
Definition request (fuel : nat) (srv : Server) (http : Session)
    (method url : string) (kwargs : Kwargs) : M Response :=
  if Py.is_not_None (kw_method kwargs) || Py.is_not_None (kw_url kwargs) then
    raise (TypeError "request() got multiple values for an argument")
  else if Py.is_not_None (kw_retry_attempts kwargs) then
    raise (TypeError "request() got an unexpected keyword argument 'retry_attempts'")
  else
    let rq :=
      {| req_method := Py.upper method;
         req_url := url;
         req_headers := default ∅ (kw_headers kwargs);
         req_params := kw_params kwargs;
         req_data := kw_data kwargs;
         req_json := kw_json kwargs;
         req_verify := kw_verify kwargs;
         req_cert := kw_cert kwargs;
         req_timeout := kw_timeout kwargs |} in
    match prepare_url url with
    | inl e => raise (url_exn e url)
    | inr prepared =>
        match get_adapter http prepared with
        | Some a =>
            let* resp := send fuel srv a rq in
            follow fuel srv http kwargs rq resp
        | None => raise (InvalidSchema prepared)
        end
    end.

Definition put fuel srv http url kwargs : M Response :=
  request fuel srv http "PUT" url kwargs.

Definition get fuel srv http url kwargs : M Response :=
  request fuel srv http "GET" url kwargs.

End WithUrlHandling.

End requests.

(** ** mlflow.utils.rest_utils *)

(** What the module takes from the rest of the package, from the
    interpreter and from the libraries: the URL handling of [requests],
    the package version, the call [resolve_request_headers()] of the
    request-header registry (the exception that leaves it, if one does, and
    the headers it returns otherwise), [str()] of an exception, and
    [parse_dict] filling a message of type [Message] from a decoded
    document. *)
Class Collaborators (Message : Type) := {
  urls :: UrlHandling;
  __version__ : string;
  resolve_request_headers_raises : option exn;
  resolve_request_headers : gmap string string;
  str_of_exn : exn -> string;
  parse_dict : json.value -> Message -> exn + Message;
}.

Module rest_utils.

Definition RESOURCE_DOES_NOT_EXIST : string := "RESOURCE_DOES_NOT_EXIST".
Definition _REST_API_PATH_PREFIX : string := "/api/2.0".

Definition _TRANSIENT_FAILURE_RESPONSE_CODES : list Z :=
  [408; 429; 500; 502; 503; 504].

(** *** MlflowHostCreds *)

Record MlflowHostCreds := {
  host : string;
  username : option string;
  password : option string;
  token : option string;
  ignore_tls_verification : bool;
  client_cert_path : option string;
  server_cert_path : option string;
}.

(** An attribute value of the instance. *)
Inductive attr :=
| AStr (s : option string)
| ABool (b : bool).

Definition host_required : exn :=
  MlflowException "host is a required parameter for MlflowHostCreds"
    (Some INVALID_PARAMETER_VALUE).

Definition tls_conflict : exn :=
  MlflowException
    ("When 'ignore_tls_verification' is true then 'server_cert_path' " ++
     "must not be set! This error may have occurred because the " ++
     "'MLFLOW_TRACKING_INSECURE_TLS' and 'MLFLOW_TRACKING_SERVER_CERT_PATH' " ++
     "environment variables are both set - only one of these environment " ++
     "variables may be set.")
    (Some INVALID_PARAMETER_VALUE).

(** [MlflowHostCreds.__init__] on the attribute store [self] of the
    instance: the store it leaves and the exception it raised, if any. *)
Definition MlflowHostCreds__init__ (self : gmap string attr)
    (host : string) (username password token : option string)
    (ignore_tls_verification : bool)
    (client_cert_path server_cert_path : option string)
    : gmap string attr * option exn :=
  if negb (Py.str_truthy host) then (self, Some host_required)
  else if ignore_tls_verification && Py.is_not_None server_cert_path then
    (self, Some tls_conflict)
  else
    let self := <["host" := AStr (Some host)]> self in
    let self := <["username" := AStr username]> self in
    let self := <["password" := AStr password]> self in
    let self := <["token" := AStr token]> self in
    let self := <["ignore_tls_verification" := ABool ignore_tls_verification]> self in
    let self := <["client_cert_path" := AStr client_cert_path]> self in
    let self := <["server_cert_path" := AStr server_cert_path]> self in
    (self, None).

(** The call [MlflowHostCreds(host, ...)]: a fresh instance run through
    [__init__]. *)
Definition MlflowHostCreds_new (host : string)
    (username password token : option string)
    (ignore_tls_verification : bool)
    (client_cert_path server_cert_path : option string)
    : exn + MlflowHostCreds :=
  match MlflowHostCreds__init__ ∅ host username password token
          ignore_tls_verification client_cert_path server_cert_path with
  | (_, Some e) => inl e
  | (_, None) =>
      inr {| host := host; username := username; password := password;
             token := token;
             ignore_tls_verification := ignore_tls_verification;
             client_cert_path := client_cert_path;
             server_cert_path := server_cert_path |}
  end.

(** Modelled from the spec: [mlflow.utils.string_utils.strip_suffix] is
    not part of the sources at hand; the host is used with its trailing
    slash stripped. *)
Definition strip_suffix (original suffix : string) : string :=
  if Py.str_truthy suffix && Py.endswith original suffix then
    String.substring 0 (String.length original - String.length suffix) original
  else original.

(** *** _get_http_response_with_retries *)

Section WithUrlHandling.

Context {U : UrlHandling}.

(** The session of a call: a new [Session] with the adapter of the
    retry policy mounted on both schemes. *)
Definition session_with (retry : urllib3.Retry) : requests.Session :=
  let adapter := requests.RetryAdapter retry in
  let http := requests.Session_new in
  let http := requests.mount http "https://" adapter in
  requests.mount http "http://" adapter.

(** [kwargs] after [kwargs.pop("method")] and [kwargs.pop("url")]. *)
Definition popped (kwargs : Kwargs) : Kwargs :=
  {| kw_method := None; kw_url := None;
     kw_headers := kw_headers kwargs;
     kw_params := kw_params kwargs;
     kw_data := kw_data kwargs;
     kw_json := kw_json kwargs;
     kw_verify := kw_verify kwargs;
     kw_cert := kw_cert kwargs;
     kw_timeout := kw_timeout kwargs;
     kw_allow_redirects := kw_allow_redirects kwargs;
     kw_retry_attempts := kw_retry_attempts kwargs |}.

Definition _get_http_response_with_retries (fuel : nat) (srv : Server)
    (max_retries : Z) (backoff_factor : Q) (retry_codes : list Z)
    (kwargs : Kwargs) : M Response :=
  if negb ((0 <=? max_retries)%Z && (max_retries <? 10)%Z) then
    raise AssertionError
  else if negb (Qle_bool 0 backoff_factor
                && negb (Qle_bool 120 backoff_factor)) then
    raise AssertionError
  else
    let retry :=
      urllib3.Retry_init (Some max_retries) (Some max_retries)
        (Some max_retries) (Some max_retries) (Some max_retries)
        retry_codes backoff_factor in
    let http := session_with retry in
    match kw_method kwargs with
    | None => raise (KeyError "method")
    | Some method =>
        match kw_url kwargs with
        | None => raise (KeyError "url")
        | Some url =>
            requests.request fuel srv http method url (popped kwargs)
        end
    end.

End WithUrlHandling.

Section WithCollaborators.

Context {Message : Type} `{Collaborators Message}.

Definition _DEFAULT_HEADERS : gmap string string :=
  {[ "User-Agent" := "mlflow-python-client/" ++ __version__ ]}.

(** *** http_request *)

(** [("%s:%s" % (username, password)).encode("utf-8")]: the bytes, or
    the [UnicodeEncodeError] of a user name or a password that UTF-8
    cannot encode. *)
Definition basic_auth_str (host_creds : MlflowHostCreds) : exn + string :=
  let text :=
    default "" (username host_creds) ++ ":" ++
    default "" (password host_creds) in
  match Py.encode_utf8 text with
  | Some bytes => inr bytes
  | None => inl (UnicodeEncodeError text)
  end.

(** The [auth_str] of [http_request], [basic_auth_str] once encoded. *)
Definition auth_str (host_creds : MlflowHostCreds) : option string :=
  if Py.truthy (username host_creds) && Py.truthy (password host_creds) then
    let basic_auth_str :=
      default "" (username host_creds) ++ ":" ++
      default "" (password host_creds) in
    Some ("Basic " ++ base64.standard_b64encode basic_auth_str)
  else if Py.truthy (token host_creds) then
    Some ("Bearer " ++ default "" (token host_creds))
  else None.

(** The [headers] of [http_request], from the headers the registry
    returns. *)
Definition request_headers (host_creds : MlflowHostCreds)
    : gmap string string :=
  let headers := resolve_request_headers ∪ _DEFAULT_HEADERS in
  match auth_str host_creds with
  | Some a => if Py.str_truthy a then <["Authorization" := a]> headers else headers
  | None => headers
  end.

(** The [verify] of [http_request]. *)
Definition verify_of (host_creds : MlflowHostCreds) : verify_mode :=
  match server_cert_path host_creds with
  | None => VerifyFlag (negb (ignore_tls_verification host_creds))
  | Some p => VerifyBundle p
  end.

(** The [url] of [http_request]. *)
Definition url_of (host_creds : MlflowHostCreds) (endpoint : string)
    : string :=
  strip_suffix (host host_creds) "/" ++ endpoint.

Definition failed_with (url : string) (e : exn) : exn :=
  MlflowException
    ("API request to " ++ url ++ " failed with exception " ++ str_of_exn e)
    None.

(** The caller's [kwargs] name a keyword that the call of
    [_get_http_response_with_retries] passes itself: [url], [headers] or
    [verify]. ([timeout], [max_retries], [backoff_factor] and
    [retry_codes] are parameters of [http_request] and never part of its
    [kwargs]; [cert] is overwritten in [kwargs] before the call.) *)
Definition duplicate_keyword (kwargs : Kwargs) : bool :=
  Py.is_not_None (kw_url kwargs) || Py.is_not_None (kw_headers kwargs)
  || Py.is_not_None (kw_verify kwargs).

(** The keyword arguments [http_request] hands down when the caller's
    [kwargs] repeat none of them: its own [url], [headers], [verify] and
    [timeout], the client certificate if the credentials name one, and
    the caller's [kwargs]. *)
Definition transport_kwargs (host_creds : MlflowHostCreds)
    (endpoint : string) (timeout : Q) (kwargs : Kwargs) : Kwargs :=
  {| kw_method := kw_method kwargs;
     kw_url := Some (url_of host_creds endpoint);
     kw_headers := Some (request_headers host_creds);
     kw_params := kw_params kwargs;
     kw_data := kw_data kwargs;
     kw_json := kw_json kwargs;
     kw_verify := Some (verify_of host_creds);
     kw_cert :=
       match client_cert_path host_creds with
       | Some p => Some p
       | None => kw_cert kwargs
       end;
     kw_timeout := Some timeout;
     kw_allow_redirects := kw_allow_redirects kwargs;
     kw_retry_attempts := kw_retry_attempts kwargs |}.

(** [http_request]. The statements before the [try] can raise, and what
    they raise leaves the function as it is: the encoding of user name
    and password, and the call of the header registry. Inside the [try],
    a keyword passed twice is the [TypeError] of the call expression
    (its message, which names the keyword, is not kept apart here). *)
Definition http_request (fuel : nat) (srv : Server)
    (host_creds : MlflowHostCreds) (endpoint : string)
    (max_retries : Z) (backoff_factor : Q) (retry_codes : list Z)
    (timeout : Q) (kwargs : Kwargs) : M Response :=
  let* _ :=
    if Py.truthy (username host_creds) && Py.truthy (password host_creds)
    then lift (basic_auth_str host_creds)
    else ret "" in
  let* _ :=
    match resolve_request_headers_raises with
    | Some e => raise e
    | None => ret resolve_request_headers
    end in
  try_except
    (if duplicate_keyword kwargs then
       raise (TypeError
                ("_get_http_response_with_retries() got multiple values " ++
                 "for a keyword argument"))
     else
       _get_http_response_with_retries fuel srv max_retries backoff_factor
         retry_codes (transport_kwargs host_creds endpoint timeout kwargs))
    (fun e => raise (failed_with (url_of host_creds endpoint) e)).

(** [http_request] with [max_retries], [backoff_factor], [retry_codes]
    and [timeout] left at their defaults. *)
Definition http_request_default (fuel : nat) (srv : Server)
    (host_creds : MlflowHostCreds) (endpoint : string) (kwargs : Kwargs)
    : M Response :=
  http_request fuel srv host_creds endpoint 3 5 [429; 500; 503] 10 kwargs.

(** *** Response verification *)

Definition _can_parse_as_json (string : string) : bool :=
  match json.loads string with
  | Some _ => true
  | None => false
  end.

Definition verify_rest_response (response : Response) (endpoint : string)
    : exn + Response :=
  if negb (status_code response =? 200)%Z then
    if _can_parse_as_json (text response) then
      match json.loads (text response) with
      | Some j => inl (RestException j)
      | None => inl (JSONDecodeError (text response))
      end
    else
      let base_msg :=
        "API request to endpoint " ++ endpoint ++
        " failed with error code " ++
        Py.str_of_int (status_code response) ++ " != 200" in
      inl (MlflowException
             (base_msg ++ ". Response body: '" ++ text response ++ "'")
             None)
  else if Py.startswith endpoint _REST_API_PATH_PREFIX
          && negb (_can_parse_as_json (text response)) then
    let base_msg :=
      "API request to endpoint was successful but the response body was not " ++
      "in a valid JSON format" in
    inl (MlflowException
           (base_msg ++ ". Response body: '" ++ text response ++ "'")
           None)
  else inr response.


(** *** call_endpoint *)

(** The keywords [method=method, params=params, json=json]. *)
Definition call_kwargs (method : string) (params json : option payload)
    : Kwargs :=
  {| kw_method := Some method; kw_url := None; kw_headers := None;
     kw_params := params; kw_data := None; kw_json := json;
     kw_verify := None; kw_cert := None; kw_timeout := None;
     kw_allow_redirects := None; kw_retry_attempts := None |}.

Definition call_endpoint (fuel : nat) (srv : Server)
    (host_creds : MlflowHostCreds) (endpoint method : string)
    (json_body : option string) (response_proto : Message) : M Message :=
  let* json_body :=
    match json_body with
    | Some s =>
        if Py.str_truthy s then
          match json.loads s with
          | Some j => ret (Some (Parsed j))
          | None => raise (JSONDecodeError s)
          end
        else ret (Some (Raw s))
    | None => ret None
    end in
  let* response :=
    if String.eqb method "GET" then
      http_request_default fuel srv host_creds endpoint
        (call_kwargs method json_body None)
    else
      http_request_default fuel srv host_creds endpoint
        (call_kwargs method None json_body) in
  let* response := lift (verify_rest_response response endpoint) in
  match json.loads (text response) with
  | Some js_dict => lift (parse_dict js_dict response_proto)
  | None => raise (JSONDecodeError (text response))
  end.

End WithCollaborators.

(** *** cloud_storage_http_request *)

Section CloudStorageRequest.

Context {U : UrlHandling}.

(** The retry strategy of [cloud_storage_http_request]. *)
Definition retry_strategy (retry_attempts : Z) : urllib3.Retry :=
  urllib3.Retry_init None (Some 0) (Some 1) (Some 3) (Some retry_attempts)
    _TRANSIENT_FAILURE_RESPONSE_CODES 1.

(** The response the context manager yields, or what it raises before
    yielding. [url] is the positional argument. *)
Definition cloud_storage_http_request (fuel : nat) (srv : Server)
    (method url : string) (kwargs : Kwargs) : M Response :=
  let retry_attempts := default 5 (kw_retry_attempts kwargs) in
  let http := session_with (retry_strategy retry_attempts) in
  if String.eqb (Py.lower method) "put" then
    requests.put fuel srv http url kwargs
  else if String.eqb (Py.lower method) "get" then
    requests.get fuel srv http url kwargs
  else raise (ValueError ("Illegal http method: " ++ method)).

End CloudStorageRequest.

(** *** extract_api_info_for_service *)

Definition _get_path (path_prefix endpoint_path : string) : string :=
  path_prefix ++ endpoint_path.

(** One endpoint binding of a method's [rpc] option. *)
Record HttpEndpoint := {
  ep_method : string;
  ep_path : string;
}.

(** What the function reads of a method descriptor of the service: the
    request class [GetRequestClass] gives for it, by name, and the
    [endpoints] of its [rpc] option, in declaration order. *)
Record MethodDescriptor := {
  request_class : string;
  endpoints : list HttpEndpoint;
}.

(** The [for] loop over [service_methods], started with the dictionary
    [res]. [None] is the [IndexError] of [endpoints[0]]. *)
Fixpoint extract_api_info_loop (service_methods : list MethodDescriptor)
    (path_prefix : string) (res : gmap string (string * string))
    : option (gmap string (string * string)) :=
  match service_methods with
  | [] => Some res
  | service_method :: rest =>
      match endpoints service_method with
      | [] => None
      | endpoint :: _ =>
          let endpoint_path := _get_path path_prefix (ep_path endpoint) in
          extract_api_info_loop rest path_prefix
            (<[request_class service_method :=
                 (endpoint_path, ep_method endpoint)]> res)
      end
  end.

Definition extract_api_info_for_service
    (service_methods : list MethodDescriptor) (path_prefix : string)
    : option (gmap string (string * string)) :=
  extract_api_info_loop service_methods path_prefix ∅.

End rest_utils.

(** ** examples/rf_iris/convert_to_docker.py and convert_to_docker_new.py *)

Module convert_to_docker.

(** [s.split(sep)] for a separator of one character: the pieces between
    the separators, at least one. *)
Fixpoint split (sep : ascii) (s : string) : list string :=
  match s with
  | EmptyString => [EmptyString]
  | String c r =>
      if Ascii.eqb c sep then EmptyString :: split sep r
      else
        match split sep r with
        | piece :: pieces => String c piece :: pieces
        | [] => [String c EmptyString]
        end
  end.

(** [sep.join(pieces)]. *)
Fixpoint join (sep : string) (pieces : list string) : string :=
  match pieces with
  | [] => ""
  | [piece] => piece
  | piece :: rest => piece ++ sep ++ join sep rest
  end.

(** [separator = "\\"]: one backslash. *)
Definition separator_char : ascii := "\"%char.
Definition separator : string := String separator_char "".

Definition nl : string := String "010" "".

(** [get_file_contents(file_name)], with [onnx.__version__] and
    [platform.python_version()] as arguments. *)
Definition get_file_contents (onnx_version python_version file_name : string)
    : string :=
  let contents := "" in
  let two_spaces := "  " in
  let four_spaces := two_spaces ++ two_spaces in
  let contents := contents ++ "artifact_path: model" ++ nl ++ "flavors:" ++ nl in
  let contents := contents ++ two_spaces ++ "onnx:" ++ nl in
  let contents := contents ++ four_spaces ++ "data: " ++ file_name ++ nl in
  let contents :=
    contents ++ four_spaces ++ "onnx_version: " ++ onnx_version ++ nl in
  let contents := contents ++ two_spaces ++ "python_function:" ++ nl in
  let contents := contents ++ four_spaces ++ "data: model.onnx" ++ nl in
  let contents := contents ++ four_spaces ++ "env: conda.yaml" ++ nl in
  let contents := contents ++ four_spaces ++ "loader_module: mlflow.onnx" ++ nl in
  let contents := contents ++ four_spaces ++ "python_version: " ++ python_version in
  contents.

(** [l[-1]], [None] for the [IndexError] on an empty list, and [l[:-1]]. *)
Fixpoint last_item (l : list string) : option string :=
  match l with
  | [] => None
  | [x] => Some x
  | _ :: r => last_item r
  end.

Definition but_last (l : list string) : list string := List.removelast l.

(** What the script derives from [arguments.file]: the name of the model
    file, its directory, the name of the image, where the [MLmodel] file
    is written and where the image is saved. *)
Record Plan := {
  file_name : string;
  file_path : string;
  image_name : string;
  mlmodel_file : string;
  tar_file : string;
}.

(** The steps of [convert_to_docker.py] from [file_name = ...] on, which
    are also those of [convert_to_docker_new.py] after its type test.
    [None] is the error of the first line when [--file] was not given
    ([None] has no [split]). *)
Definition plan (arguments_file : option string) : option Plan :=
  match arguments_file with
  | None => None
  | Some file =>
      let image_name := "_dckrimg" in
      match last_item (split separator_char file) with
      | None => None
      | Some file_name =>
          let file_path := join separator (but_last (split separator_char file)) in
          let image_name := file_name ++ image_name in
          Some {| file_name := file_name;
                  file_path := file_path;
                  image_name := image_name;
                  mlmodel_file := file_path ++ separator ++ "MLmodel";
                  tar_file := file_path ++ separator ++ image_name ++ ".tar" |}
      end
  end.

(** A value [argparse] or a literal gives, and [==] on such values. *)
Inductive pyval :=
| PNone
| PStr (s : string)
| PInt (n : Z).

Definition py_eq (a b : pyval) : bool :=
  match a, b with
  | PNone, PNone => true
  | PStr x, PStr y => String.eqb x y
  | PInt x, PInt y => Z.eqb x y
  | _, _ => false
  end.

(** An option declared with [add_argument] and no [type]: [None] when
    absent, the text of the command line otherwise. *)
Definition argument (o : option string) : pyval :=
  match o with
  | None => PNone
  | Some s => PStr s
  end.

(** The branch of the "Convert model to Onnx" step of
    [convert_to_docker_new.py] that runs. *)
Inductive conversion :=
| SysExit (message : string)
| Tf2onnx
| TorchExport
| SklearnExport
| NoConversion.

Definition convert_model (arguments_type : option string) : conversion :=
  if py_eq (argument arguments_type) PNone then
    SysExit "Enter the type of model. 1: Tensorflow 2: PyTorch 3: Sklearn"
  else if py_eq (argument arguments_type) (PInt 1) then Tf2onnx
  else if py_eq (argument arguments_type) (PInt 2) then TorchExport
  else if py_eq (argument arguments_type) (PInt 3) then SklearnExport
  else NoConversion.

(** [convert_to_docker_new.py] from the type test to the path of the
    [MLmodel] file: [inl message] is [sys.exit(message)], which ends the
    script before [--file] is looked at; otherwise the steps of [plan]
    follow. *)
Definition plan_new (arguments_type arguments_file : option string)
    : string + option Plan :=
  match convert_model arguments_type with
  | SysExit message => inl message
  | _ => inr (plan arguments_file)
  end.

End convert_to_docker.

(** ** Notions the properties are stated with *)

Import rest_utils.

(** The two assertions that open [_get_http_response_with_retries]. *)
Definition retry_bounds (max_retries : Z) (backoff_factor : Q) : Prop :=
  (0 <= max_retries < 10)%Z /\ (0 <= backoff_factor)%Q /\ (backoff_factor < 120)%Q.

(** *** The retry policy *)

Module RetryFacts.

Import urllib3.

(** A counter that is unset or at least [t]. *)
Definition at_least (t : Z) (c : option Z) : Prop :=
  match c with Some n => t <= n | None => True end.

Definition negative (c : option Z) : bool :=
  match c with Some n => (n <? 0)%Z | None => false end.

(** The budget left when every counter is at least the shared total. *)
Record budget (r : Retry) (t : Z) : Prop := {
  budget_total : total r = Some t;
  budget_connect : at_least t (connect r);
  budget_read : at_least t (read r);
  budget_redirect : at_least t (redirect r);
  budget_status : at_least t (status r);
  budget_other : at_least t (other r);
}.

(** What stays the same from one [Retry] to the next. *)
Definition same_policy (r r' : Retry) : Prop :=
  allowed_methods r' = allowed_methods r
  /\ status_forcelist r' = status_forcelist r
  /\ backoff_factor r' = backoff_factor r
  /\ raise_on_status r' = raise_on_status r
  /\ respect_retry_after_header r' = respect_retry_after_header r.

(** The arguments [urlopen] gives [increment] for an outcome. *)
Definition increment_for (r : Retry) (method url : string) (o : outcome)
    : pool_exn + Retry :=
  match o with
  | Fails e => increment r method url None (Some e)
  | Replies resp => increment r method url (Some resp) None
  end.

Definition failure_reason (o : outcome) : retry_reason :=
  match o with
  | Fails e => Error e
  | Replies resp =>
      if Py.truthy (get_redirect_location resp) then
        ResponseError "too many redirects"
      else if negb (status_code resp =? 0)%Z then
        ResponseError (SPECIFIC_ERROR (status_code resp))
      else ResponseError GENERIC_ERROR
  end.

End RetryFacts.


(** A URL that starts with [https://] or [http://], in any case: the
    two prefixes an adapter is mounted on. *)
Definition http_prefixed (url : string) : bool :=
  Py.startswith (Py.lower url) "https://" || Py.startswith (Py.lower url) "http://".

(** A URL one of the two mounted adapters takes: [requests] prepares it,
    and the URL as prepared starts with one of the two prefixes. *)
Definition has_http_scheme {U : UrlHandling} (url : string) : bool :=
  match prepare_url url with
  | inr prepared => http_prefixed prepared
  | inl _ => false
  end.

(** A response the session does not hand back but follows: a redirect
    with somewhere to go, unless the caller passed
    [allow_redirects=False]. *)
Definition followed (kwargs : Kwargs) (resp : Response) : bool :=
  default true (kw_allow_redirects kwargs)
  && Py.is_not_None (requests.get_redirect_target resp).

(** The remote side never answers [rq] with a response the session
    follows. *)
Definition never_redirects (srv : Server) (kwargs : Kwargs) (rq : Request)
    : Prop :=
  forall i resp, srv rq i = Replies resp -> followed kwargs resp = false.

(** A verb the retry policy is willing to repeat. *)
Definition retryable_verb (method : string) : bool :=
  urllib3.mem_str (Py.upper method) urllib3.DEFAULT_ALLOWED_METHODS.

(** The policy of a default-transport call. *)
Definition default_retry (max_retries : Z) (backoff_factor : Q)
    (retry_codes : list Z) : urllib3.Retry :=
  urllib3.Retry_init (Some max_retries) (Some max_retries) (Some max_retries)
    (Some max_retries) (Some max_retries) retry_codes backoff_factor.

Section Wire.

Context {Message : Type} `{Collaborators Message}.

(** The request [http_request] puts on the wire for the verb [method]. *)
Definition wire_request (host_creds : MlflowHostCreds) (endpoint : string)
    (timeout : Q) (kwargs : Kwargs) (method : string) : Request :=
  {| req_method := Py.upper method;
     req_url := url_of host_creds endpoint;
     req_headers := request_headers host_creds;
     req_params := kw_params kwargs;
     req_data := kw_data kwargs;
     req_json := kw_json kwargs;
     req_verify := Some (verify_of host_creds);
     req_cert :=
       match client_cert_path host_creds with
       | Some p => Some p
       | None => kw_cert kwargs
       end;
     req_timeout := Some timeout |}.

(** What [http_request] raises before its [try], if it does: the
    [UnicodeEncodeError] of a user name and password that cannot be
    encoded, or else what the header registry raises. *)
Definition raised_before_try (host_creds : MlflowHostCreds) : option exn :=
  let text :=
    default "" (username host_creds) ++ ":" ++
    default "" (password host_creds) in
  if Py.truthy (username host_creds) && Py.truthy (password host_creds)
     && Py.has_surrogate text
  then Some (UnicodeEncodeError text)
  else resolve_request_headers_raises.

End Wire.


(** [get_backoff_time] as a function of the factor and of the number [j]
    of failures in a row. *)
Definition backoff_after (f : Q) (j : nat) : Q :=
  if (j <=? 1)%nat then 0%Q
  else
    let v := (f * inject_Z (2 ^ (Z.of_nat j - 1)))%Q in
    if Qle_bool 120 v then 120%Q else v.

(** The pause [_sleep_backoff] takes after [j] failures in a row. *)
Definition pause_after (f : Q) (j : nat) : Q :=
  if Qle_bool (backoff_after f j) 0 then 0%Q else backoff_after f j.

(** A response the policy counts against its status budget and pauses
    after with its own backoff: a status of the force list, no redirect to
    follow, no [Retry-After]. *)
Definition transient (r : urllib3.Retry) (resp : Response) : Prop :=
  In (status_code resp) (urllib3.status_forcelist r)
  /\ Py.truthy (urllib3.get_redirect_location resp) = false
  /\ status_code resp <> 0
  /\ retry_after resp = None.

(** The verb [cloud_storage_http_request] sends for [method], if any. *)
Definition cloud_verb (method : string) : option string :=
  if String.eqb (Py.lower method) "put" then Some "PUT"
  else if String.eqb (Py.lower method) "get" then Some "GET"
  else None.

(** The request a transfer puts on the wire. *)
Definition cloud_request (verb url : string) (kwargs : Kwargs) : Request :=
  {| req_method := verb;
     req_url := url;
     req_headers := default ∅ (kw_headers kwargs);
     req_params := kw_params kwargs;
     req_data := kw_data kwargs;
     req_json := kw_json kwargs;
     req_verify := kw_verify kwargs;
     req_cert := kw_cert kwargs;
     req_timeout := kw_timeout kwargs |}.



(** The keywords [call_endpoint] gives [http_request] for a parsed
    payload [j]. *)
Definition dispatch_kwargs (method : string) (j : json.value) : Kwargs :=
  if String.eqb method "GET" then call_kwargs method (Some (Parsed j)) None
  else call_kwargs method None (Some (Parsed j)).

(** A pause the policy may take before a retry of [rq] against [srv]:
    one of its own, between 0 and 120 seconds, or the [Retry-After] of a
    response the server gave. *)
Definition own_or_server_pause (srv : Server) (rq : Request) (p : Q) : Prop :=
  (0 <= p /\ p <= 120)%Q
  \/ exists i resp, srv rq i = Replies resp /\ retry_after resp = Some p.





(** The cloud-storage policy with [a] read retries and [b] status retries
    left. *)
Record cloud_budget (r : urllib3.Retry) (a b : nat) : Prop := {
  cloud_total : urllib3.total r = None;
  cloud_connect : urllib3.connect r = Some 0;
  cloud_read : urllib3.read r = Some (Z.of_nat a);
  cloud_redirect : urllib3.redirect r = Some 3;
  cloud_status : urllib3.status r = Some (Z.of_nat b);
  cloud_other : urllib3.other r = None;
  cloud_forcelist : urllib3.status_forcelist r = _TRANSIENT_FAILURE_RESPONSE_CODES;
}.

(** The binding [extract_api_info_for_service] is to give the request
    class [k]: the first endpoint of the last method declared with that
    request class, under the prefix. *)
Definition declared_binding (service_methods : list MethodDescriptor)
    (path_prefix k : string) : option (string * string) :=
  match List.find (fun m => String.eqb (request_class m) k)
                  (rev service_methods) with
  | Some m =>
      match endpoints m with
      | endpoint :: _ =>
          Some (_get_path path_prefix (ep_path endpoint), ep_method endpoint)
      | [] => None
      end
  | None => None
  end.

(** The character [c] occurs in [s]. *)
Fixpoint occurs (c : ascii) (s : string) : bool :=
  match s with
  | EmptyString => false
  | String a r => Ascii.eqb a c || occurs c r
  end.

Definition newline : ascii := "010"%char.

(** The lines of a text: what lies between its line feeds. *)
Definition lines (s : string) : list string :=
  convert_to_docker.split newline s.

(** ** Concrete collaborators, servers and inputs for the examples *)

(** What follows the first slash of [s], with that slash. *)
Fixpoint from_slash (s : string) : string :=
  match s with
  | EmptyString => "/"
  | String c r => if Ascii.eqb c "/" then s else from_slash r
  end.

(** The path of a URL that starts with [http://] or [https://]. *)
Definition path_of (url : string) : string :=
  if Py.startswith url "https://" then
    from_slash (String.substring 8 (String.length url - 8) url)
  else if Py.startswith url "http://" then
    from_slash (String.substring 7 (String.length url - 7) url)
  else url.

(** URL handling for well-formed URLs, no proxy and no [.netrc] entry:
    a URL with another scheme than HTTP is left as it is, one without a
    colon has no scheme; a redirect goes to the absolute URL of its
    [Location] and keeps the headers. *)
Definition plain_urls : UrlHandling :=
  {| prepare_url := fun url =>
       if occurs ":" url && negb (Py.startswith (Py.lower url) "http")
       then inr url
       else if http_prefixed url then inr url
       else inl NoSchemeSupplied;
     request_url := fun rq => path_of (req_url rq);
     redirect_url := fun _ target => target;
     redirect_headers := fun rq _ => req_headers rq |}.

Definition plain_collaborators : Collaborators unit :=
  {| urls := plain_urls;
     __version__ := "1.14.0";
     resolve_request_headers_raises := None;
     resolve_request_headers := ∅;
     str_of_exn := fun _ => "error";
     parse_dict := fun _ m => inr m |}.

(** Collaborators whose header registry raises. *)
Definition failing_registry : Collaborators unit :=
  {| urls := plain_urls;
     __version__ := "1.14.0";
     resolve_request_headers_raises := Some (ValueError "provider");
     resolve_request_headers := ∅;
     str_of_exn := fun _ => "error";
     parse_dict := fun _ m => inr m |}.

Definition plain_reply (code : Z) (body : string) : Response :=
  {| status_code := code; text := body; retry_after := None; location := None |}.


(** A server that answers every exchange with status [code]. *)
Definition always (code : Z) : Server := fun _ _ => Replies (plain_reply code "").


(** A server on which every exchange breaks with [e]. *)
Definition always_fails (e : wire_error) : Server := fun _ _ => Fails e.

Definition creds_of_host (h : string) : rest_utils.MlflowHostCreds :=
  {| rest_utils.host := h;
     rest_utils.username := None;
     rest_utils.password := None;
     rest_utils.token := None;
     rest_utils.ignore_tls_verification := false;
     rest_utils.client_cert_path := None;
     rest_utils.server_cert_path := None |}.


(** The request of [GET /api/2.0/mlflow/runs/get] on a local server. *)
Definition runs_get_request : Request :=
  wire_request (H:=plain_collaborators)
    (creds_of_host "http://localhost:5000") "/api/2.0/mlflow/runs/get" 10
    (call_kwargs "GET" None None) "GET".

(** Credentials whose user name is the lone surrogate U+D800. *)
Definition creds_with_surrogate : rest_utils.MlflowHostCreds :=
  {| rest_utils.host := "http://localhost:5000";
     rest_utils.username := Some (String "237" (String "160" (String "128" "")));
     rest_utils.password := Some "p";
     rest_utils.token := None;
     rest_utils.ignore_tls_verification := false;
     rest_utils.client_cert_path := None;
     rest_utils.server_cert_path := None |}.

(** Credentials that carry a user name, a password and a token at once. *)
Definition creds_with_all : rest_utils.MlflowHostCreds :=
  {| rest_utils.host := "http://localhost:5000";
     rest_utils.username := Some "u";
     rest_utils.password := Some "p";
     rest_utils.token := Some "t";
     rest_utils.ignore_tls_verification := false;
     rest_utils.client_cert_path := None;
     rest_utils.server_cert_path := None |}.

Definition quoted (s : string) : string :=
  String json.dquote (s ++ String json.dquote "").

(** The body [{"error_code":"RESOURCE_DOES_NOT_EXIST","message":"x"}]. *)
Definition resource_missing_body : string :=
  "{" ++ quoted "error_code" ++ ":" ++ quoted rest_utils.RESOURCE_DOES_NOT_EXIST
      ++ "," ++ quoted "message" ++ ":" ++ quoted "x" ++ "}".

(** Modelled from the spec: [mlflow.exceptions.RestException] is not part
    of the sources at hand; the service error is populated from the
    structured fields of the parsed body, and this reads its error code. *)
Definition error_code_of (e : exn) : option string :=
  match e with
  | RestException (json.Object members) =>
      match json.get "error_code" members with
      | Some (json.Str c) => Some c
      | _ => None
      end
  | _ => None
  end.

(** * Properties *)

(** ** Credentials *)

Lemma truthy_Some_nonempty (o : option string) :
  Py.truthy o = true <-> exists s, o = Some s /\ s <> "".
Proof.
  destruct o as [[|c s]|]; simpl; split.
  - discriminate.
  - intros (s & [= <-] & Hs). done.
  - intros _. exists (String c s). done.
  - done.
  - discriminate.
  - intros (s & Hs & _). discriminate.
Qed.

Section Auth.

Context {Message : Type} `{Collaborators Message}.

(** When no token is set, a user name with a password gives Basic
    authentication over [username:password]. *)
Lemma auth_str_basic (c : MlflowHostCreds) (u p : string) :
  username c = Some u -> password c = Some p -> u <> "" -> p <> "" ->
  auth_str c = Some ("Basic " ++ base64.standard_b64encode (u ++ ":" ++ p)).
Proof.
  intros Hu Hp Hu' Hp'. unfold auth_str. rewrite Hu, Hp.
  destruct u; [done|]. destruct p; [done|]. reflexivity.
Qed.

(** A token without a complete user name and password pair gives Bearer
    authentication. *)
Lemma auth_str_bearer (c : MlflowHostCreds) (t : string) :
  Py.truthy (username c) && Py.truthy (password c) = false ->
  token c = Some t -> t <> "" ->
  auth_str c = Some ("Bearer " ++ t).
Proof.
  intros Hup Ht Ht'. unfold auth_str. rewrite Hup, Ht.
  destruct t; [done|]. reflexivity.
Qed.

(** Without a token and without a complete pair there is nothing to
    send, and the headers carry an [Authorization] entry only if the
    header registry supplies one. *)
Lemma auth_str_none (c : MlflowHostCreds) :
  Py.truthy (username c) && Py.truthy (password c) = false ->
  Py.truthy (token c) = false ->
  auth_str c = None
  /\ request_headers c !! "Authorization"
     = resolve_request_headers !! "Authorization".
Proof.
  intros Hup Ht. unfold request_headers, auth_str. rewrite Hup, Ht.
  split; [done|].
  unfold _DEFAULT_HEADERS. rewrite lookup_union.
  rewrite lookup_singleton_ne by done.
  by destruct (resolve_request_headers !! "Authorization").
Qed.

End Auth.

(** C2. With a user name, a password and a token all supplied,
    [http_request] sends Basic authentication built from the user name and
    the password, and the token is not used: the claim (and the class
    docstring, "If provided, user/password authentication will be
    ignored") asks for the Bearer header there. *)
Theorem http_request_prefers_basic_over_token :
  auth_str creds_with_all = Some "Basic dTpw"
  /\ request_headers (H:=plain_collaborators) creds_with_all !! "Authorization"
     = Some "Basic dTpw"
  /\ auth_str creds_with_all <> Some "Bearer t".
Proof.
  split; [|split].
  - vm_compute. reflexivity.
  - vm_compute. reflexivity.
  - intros Hb. vm_compute in Hb. discriminate.
Qed.

(** C5. Building [MlflowHostCreds] succeeds exactly when the host is not
    empty and [ignore_tls_verification] is not combined with a
    [server_cert_path]; every other call raises an [MlflowException] with
    code [INVALID_PARAMETER_VALUE] before any attribute is stored, and a
    successful call stores the arguments. *)
Theorem MlflowHostCreds_construction
    (h : string) (u p t : option string) (ignore : bool)
    (client_cert server_cert : option string) :
  let built := MlflowHostCreds_new h u p t ignore client_cert server_cert in
  let store := (MlflowHostCreds__init__ ∅ h u p t ignore client_cert server_cert).1 in
  ((exists c, built = inr c)
     <-> h <> "" /\ ~ (ignore = true /\ server_cert <> None))
  /\ (forall e, built = inl e ->
        (exists message, e = MlflowException message (Some INVALID_PARAMETER_VALUE))
        /\ (h = "" -> e = host_required)
        /\ (h <> "" -> e = tls_conflict)
        /\ store = ∅)
  /\ (forall c, built = inr c ->
        c = {| host := h; username := u; password := p; token := t;
               ignore_tls_verification := ignore;
               client_cert_path := client_cert;
               server_cert_path := server_cert |}
        /\ store !! "host" = Some (AStr (Some h))
        /\ store !! "server_cert_path" = Some (AStr server_cert)).
Proof.
  unfold MlflowHostCreds_new, MlflowHostCreds__init__.
  destruct h as [|a h]; simpl.
  - split; [|split].
    + split; [intros [c Hc]; discriminate | intros [Hh _]; done].
    + intros e [= <-]. repeat split; eauto; done.
    + intros c Hc; discriminate.
  - destruct ignore, server_cert as [sc|]; simpl.
    + split; [|split].
      * split; [intros [c Hc]; discriminate|].
        intros [_ Hn]. exfalso. apply Hn. done.
      * intros e [= <-]. repeat split; eauto; done.
      * intros c Hc; discriminate.
    + split; [|split].
      * split; [|eauto]. intros _. split; [done|]. intros [_ Hn]; done.
      * intros e He; discriminate.
      * intros c [= <-]. repeat split; by simplify_map_eq.
    + split; [|split].
      * split; [|eauto]. intros _. split; [done|]. intros [Hn _]; done.
      * intros e He; discriminate.
      * intros c [= <-]. repeat split; by simplify_map_eq.
    + split; [|split].
      * split; [|eauto]. intros _. split; [done|]. intros [Hn _]; done.
      * intros e He; discriminate.
      * intros c [= <-]. repeat split; by simplify_map_eq.
Qed.

Lemma MlflowHostCreds_construction_witness :
  "http://localhost:5000" <> ""
  /\ ~ (false = true /\ Some "/ca.pem" <> None)
  /\ exists c,
       MlflowHostCreds_new "http://localhost:5000" None None None false None
         (Some "/ca.pem") = inr c.
Proof.
  split; [discriminate|]. split; [intros [Hf _]; discriminate|].
  apply (proj1 (MlflowHostCreds_construction "http://localhost:5000"
                  None None None false None (Some "/ca.pem"))).
  split; [discriminate | intros [Hf _]; discriminate].
Defined.

(** ** Response verification *)

Section Verifier.

Context {Message : Type} `{Collaborators Message}.

Lemma can_parse_Some (s : string) (j : json.value) :
  json.loads s = Some j -> _can_parse_as_json s = true.
Proof. unfold _can_parse_as_json. by intros ->. Qed.

Lemma can_parse_None (s : string) :
  json.loads s = None -> _can_parse_as_json s = false.
Proof. unfold _can_parse_as_json. by intros ->. Qed.

Lemma verify_not_200_json (response : Response) (endpoint : string)
    (j : json.value) :
  status_code response <> 200 ->
  json.loads (text response) = Some j ->
  verify_rest_response response endpoint = inl (RestException j).
Proof.
  intros Hs Hj. unfold verify_rest_response.
  destruct (Z.eqb_spec (status_code response) 200) as [|_]; [done|]. simpl.
  by rewrite (can_parse_Some _ _ Hj), Hj.
Qed.

Lemma verify_not_200_text (response : Response) (endpoint : string) :
  status_code response <> 200 ->
  json.loads (text response) = None ->
  verify_rest_response response endpoint
  = inl (MlflowException
           (("API request to endpoint " ++ endpoint ++
             " failed with error code " ++
             Py.str_of_int (status_code response) ++ " != 200") ++
            ". Response body: '" ++ text response ++ "'")
           None).
Proof.
  intros Hs Hj. unfold verify_rest_response.
  destruct (Z.eqb_spec (status_code response) 200) as [|_]; [done|]. simpl.
  by rewrite (can_parse_None _ Hj).
Qed.

End Verifier.

(** C6. A response whose status is not 200 never passes verification: a
    body that parses as JSON raises [RestException] built from the parsed
    document, any other body raises an [MlflowException] whose message
    carries the endpoint, the status code and the raw body. A 429 with
    body [{"error_code":"RESOURCE_DOES_NOT_EXIST","message":"x"}] raises
    a [RestException] whose error code is [RESOURCE_DOES_NOT_EXIST]. *)
Theorem verify_rest_response_rejects_non_200 :
  (forall (response : Response) (endpoint : string),
      status_code response <> 200 ->
      (forall j, json.loads (text response) = Some j ->
                 verify_rest_response response endpoint = inl (RestException j))
      /\ (json.loads (text response) = None ->
          verify_rest_response response endpoint
          = inl (MlflowException
                   (("API request to endpoint " ++ endpoint ++
                     " failed with error code " ++
                     Py.str_of_int (status_code response) ++ " != 200") ++
                    ". Response body: '" ++ text response ++ "'")
                   None)))
  /\ (forall endpoint : string,
        exists e,
          verify_rest_response (plain_reply 429 resource_missing_body) endpoint
          = inl e
          /\ e = RestException
                   (json.Object
                      [("error_code", json.Str RESOURCE_DOES_NOT_EXIST);
                       ("message", json.Str "x")])
          /\ error_code_of e = Some RESOURCE_DOES_NOT_EXIST).
Proof.
  split.
  - intros response endpoint Hs. split.
    + intros j Hj. by apply verify_not_200_json.
    + intros Hj. by apply verify_not_200_text.
  - intros endpoint. eexists. split; [|split; [reflexivity|]].
    + apply verify_not_200_json; [done|]. vm_compute. reflexivity.
    + vm_compute. reflexivity.
Qed.

Lemma verify_rest_response_rejects_non_200_witness :
  status_code (plain_reply 503 "Service Unavailable") <> 200
  /\ json.loads (text (plain_reply 503 "Service Unavailable")) = None
  /\ verify_rest_response (plain_reply 503 "Service Unavailable") "/api/2.0/mlflow/runs/get"
     = inl (MlflowException
              ("API request to endpoint /api/2.0/mlflow/runs/get failed with " ++
               "error code 503 != 200. Response body: 'Service Unavailable'")
              None).
Proof.
  assert (Hs : status_code (plain_reply 503 "Service Unavailable") <> 200)
    by discriminate.
  assert (Hj : json.loads (text (plain_reply 503 "Service Unavailable")) = None)
    by (vm_compute; reflexivity).
  split; [exact Hs|]. split; [exact Hj|].
  rewrite (proj2 (proj1 verify_rest_response_rejects_non_200
                    (plain_reply 503 "Service Unavailable")
                    "/api/2.0/mlflow/runs/get" Hs) Hj).
  vm_compute. reflexivity.
Defined.

(** C7. A 200 response on an endpoint under [/api/2.0] whose body is not
    JSON raises an [MlflowException]; on an endpoint outside the prefix the
    response is returned unchanged whatever its body is. *)
Theorem verify_rest_response_on_200 (response : Response) (endpoint : string) :
  status_code response = 200 ->
  (Py.startswith endpoint _REST_API_PATH_PREFIX = true ->
   json.loads (text response) = None ->
   verify_rest_response response endpoint
   = inl (MlflowException
            ("API request to endpoint was successful but the response body " ++
             "was not in a valid JSON format. Response body: '" ++
             text response ++ "'")
            None))
  /\ (Py.startswith endpoint _REST_API_PATH_PREFIX = false ->
      verify_rest_response response endpoint = inr response).
Proof.
  intros Hs. unfold verify_rest_response. rewrite Hs. simpl. split.
  - intros -> Hj. by rewrite (can_parse_None _ Hj).
  - by intros ->.
Qed.

Lemma verify_rest_response_on_200_witness :
  status_code (plain_reply 200 "not json") = 200
  /\ (exists e, verify_rest_response (plain_reply 200 "not json")
                  "/api/2.0/mlflow/runs/get" = inl e)
  /\ verify_rest_response (plain_reply 200 "not json") "/dbfs/files/model.pkl"
     = inr (plain_reply 200 "not json").
Proof.
  pose proof (verify_rest_response_on_200 (plain_reply 200 "not json")
                "/api/2.0/mlflow/runs/get" eq_refl) as [Hin _].
  pose proof (verify_rest_response_on_200 (plain_reply 200 "not json")
                "/dbfs/files/model.pkl" eq_refl) as [_ Hout].
  split; [reflexivity|]. split.
  - eexists. apply Hin; vm_compute; reflexivity.
  - apply Hout. vm_compute. reflexivity.
Defined.

(** ** The bounds of the retry configuration *)

Lemma retry_bounds_checked (max_retries : Z) (backoff_factor : Q) :
  retry_bounds max_retries backoff_factor
  <-> ((0 <=? max_retries)%Z && (max_retries <? 10)%Z = true
       /\ Qle_bool 0 backoff_factor && negb (Qle_bool 120 backoff_factor) = true).
Proof.
  unfold retry_bounds.
  rewrite !andb_true_iff, negb_true_iff, Z.leb_le, Z.ltb_lt, Qle_bool_iff.
  assert (Hlt : (backoff_factor < 120)%Q <-> Qle_bool 120 backoff_factor = false).
  { rewrite <- not_true_iff_false, Qle_bool_iff. split.
    - apply Qlt_not_le.
    - apply Qnot_le_lt. }
  rewrite Hlt. tauto.
Qed.

Lemma translate_not_assertion (x : pool_exn) :
  requests.translate x <> AssertionError.
Proof. destruct x as [[]|url [[]|cause]]; discriminate. Qed.

Section NeverAsserts.

Context {U : UrlHandling}.

Lemma send_never_asserts fuel srv a rq net net' :
  requests.send fuel srv a rq net <> Some (net', inl AssertionError).
Proof.
  unfold requests.send. destruct a as [|r].
  - destruct (srv rq (length (sent net))) as [e|resp]; [|discriminate].
    intros [= _ Ht]. by apply translate_not_assertion in Ht.
  - destruct (urllib3.urlopen fuel srv rq (request_url rq) r net)
      as [[n [x|resp]]|]; try discriminate.
    intros [= _ Ht]. by apply translate_not_assertion in Ht.
Qed.

Lemma resolve_redirects_never_asserts fuel srv http hops :
  forall rq resp net net',
    requests.resolve_redirects hops fuel srv http rq resp net
    <> Some (net', inl AssertionError).
Proof.
  induction hops as [|hops IH]; intros rq resp net net'; simpl;
    destruct (requests.get_redirect_target resp) as [target|];
    try discriminate.
  destruct (requests.get_adapter http _) as [a|]; [|discriminate].
  unfold bind.
  destruct (requests.send fuel srv a _ net) as [[n1 [e|resp']]|] eqn:Hsend;
    [|apply IH|discriminate].
  intros [= -> ->]. by apply send_never_asserts in Hsend.
Qed.

Lemma request_never_asserts fuel srv http method url kwargs net net' :
  requests.request fuel srv http method url kwargs net
  <> Some (net', inl AssertionError).
Proof.
  unfold requests.request.
  destruct (_ || _); [discriminate|].
  destruct (Py.is_not_None (kw_retry_attempts kwargs)); [discriminate|].
  destruct (prepare_url url) as [[]|prepared]; try discriminate.
  destruct (requests.get_adapter http prepared) as [a|]; [|discriminate].
  unfold bind.
  destruct (requests.send fuel srv a _ net) as [[n1 [e|resp]]|] eqn:Hsend;
    [| |discriminate].
  - intros [= -> ->]. by apply send_never_asserts in Hsend.
  - unfold requests.follow.
    destruct (default true (kw_allow_redirects kwargs)); [|discriminate].
    apply resolve_redirects_never_asserts.
Qed.

Lemma out_of_bounds_asserts (fuel : nat) (srv : Server) (max_retries : Z)
    (backoff_factor : Q) (retry_codes : list Z) (kwargs : Kwargs) (net : Net) :
  ~ retry_bounds max_retries backoff_factor ->
  _get_http_response_with_retries fuel srv max_retries backoff_factor
    retry_codes kwargs net = Some (net, inl AssertionError).
Proof.
  unfold _get_http_response_with_retries. rewrite retry_bounds_checked.
  intros Hout.
  destruct ((0 <=? max_retries)%Z && (max_retries <? 10)%Z); [|done].
  destruct (Qle_bool 0 backoff_factor && negb (Qle_bool 120 backoff_factor));
    [|done].
  exfalso. by apply Hout.
Qed.

End NeverAsserts.

(** C8. A call whose [max_retries] lies in [0, 10) and whose
    [backoff_factor] lies in [0, 120) passes the two assertions and goes on
    to the session request, and never ends in the [AssertionError]; any
    other value raises the [AssertionError] at once, with nothing sent and
    no pause taken. *)
Theorem retry_bounds_enforced_at_call_time
    {U : UrlHandling} (fuel : nat) (srv : Server) (max_retries : Z) (backoff_factor : Q)
    (retry_codes : list Z) (kwargs : Kwargs) (net : Net) :
  let run :=
    _get_http_response_with_retries fuel srv max_retries backoff_factor
      retry_codes kwargs net in
  (retry_bounds max_retries backoff_factor ->
     (forall net', run <> Some (net', inl AssertionError))
     /\ (forall method url,
           kw_method kwargs = Some method -> kw_url kwargs = Some url ->
           run = requests.request fuel srv
                   (session_with
                      (urllib3.Retry_init (Some max_retries) (Some max_retries)
                         (Some max_retries) (Some max_retries)
                         (Some max_retries) retry_codes backoff_factor))
                   method url (popped kwargs) net))
  /\ (~ retry_bounds max_retries backoff_factor ->
      run = Some (net, inl AssertionError)).
Proof.
  intros run. subst run. split; [|apply out_of_bounds_asserts].
  unfold _get_http_response_with_retries. rewrite retry_bounds_checked.
  intros [-> ->]. simpl. split.
  - intros net'.
    destruct (kw_method kwargs) as [m|]; [|discriminate].
    destruct (kw_url kwargs) as [u|]; [|discriminate].
    apply request_never_asserts.
  - by intros method url -> ->.
Qed.

Lemma retry_bounds_enforced_at_call_time_witness :
  retry_bounds 3 5
  /\ ~ retry_bounds 10 5
  /\ ~ retry_bounds 3 120
  /\ (forall net',
        _get_http_response_with_retries (U:=plain_urls) 4 (always 500) 3 5
          [429; 500; 503] no_kwargs net0 <> Some (net', inl AssertionError))
  /\ _get_http_response_with_retries (U:=plain_urls) 11 (always 500) 10 5
       [429; 500; 503] no_kwargs net0 = Some (net0, inl AssertionError)
  /\ _get_http_response_with_retries (U:=plain_urls) 4 (always 500) 3 120
       [429; 500; 503] no_kwargs net0 = Some (net0, inl AssertionError).
Proof.
  assert (Hin : retry_bounds 3 5).
  { unfold retry_bounds. repeat split; try lia; reflexivity || discriminate. }
  assert (Hmr : ~ retry_bounds 10 5).
  { unfold retry_bounds. intros [Hz _]. lia. }
  assert (Hbf : ~ retry_bounds 3 120).
  { unfold retry_bounds. intros (_ & _ & Hq). revert Hq. apply Qlt_irrefl. }
  split; [exact Hin|]. split; [exact Hmr|]. split; [exact Hbf|]. split; [|split].
  - exact (proj1 (proj1 (retry_bounds_enforced_at_call_time (U:=plain_urls) 4
                           (always 500) 3 5
                           [429; 500; 503] no_kwargs net0) Hin)).
  - exact (proj2 (retry_bounds_enforced_at_call_time (U:=plain_urls) 11
                    (always 500) 10 5
                    [429; 500; 503] no_kwargs net0) Hmr).
  - exact (proj2 (retry_bounds_enforced_at_call_time (U:=plain_urls) 4
                    (always 500) 3 120
                    [429; 500; 503] no_kwargs net0) Hbf).
Defined.

(** ** The retry policy *)

Section RetryPolicy.

Import urllib3 RetryFacts.

Lemma is_exhausted_unfold (r : Retry) :
  is_exhausted r
  = negative (total r) || negative (connect r) || negative (read r)
    || negative (redirect r) || negative (status r) || negative (other r).
Proof.
  unfold is_exhausted. simpl. fold (negative (total r)).
  fold (negative (connect r)). fold (negative (read r)).
  fold (negative (redirect r)). fold (negative (status r)).
  fold (negative (other r)).
  by rewrite orb_false_r, !orb_assoc.
Qed.

Lemma at_least_weaken (t t' : Z) (c : option Z) :
  t' <= t -> at_least t c -> at_least t' c.
Proof. destruct c; simpl; [lia | done]. Qed.

Lemma at_least_dec (t : Z) (c : option Z) :
  at_least t c -> at_least (t - 1) (dec c).
Proof. destruct c; simpl; [lia | done]. Qed.

Lemma negative_at_least (t : Z) (c : option Z) :
  0 <= t -> at_least t c -> negative c = false.
Proof. destruct c; simpl; [|done]. intros. apply Z.ltb_ge. lia. Qed.

Lemma negative_dec (t : Z) (c : option Z) :
  0 < t -> at_least t c -> negative (dec c) = false.
Proof. destruct c; simpl; [|done]. intros. apply Z.ltb_ge. lia. Qed.

Lemma finish_budget (r : Retry) (t : Z) (c rd rdr st o : option Z)
    (h : RequestHistory) :
  0 <= t ->
  at_least (t - 1) c -> at_least (t - 1) rd -> at_least (t - 1) rdr ->
  at_least (t - 1) st -> at_least (t - 1) o ->
  let new_retry := with_counts r (Some (t - 1)) c rd rdr st o h in
  (t = 0 /\ is_exhausted new_retry = true)
  \/ (0 < t /\ is_exhausted new_retry = false /\ budget new_retry (t - 1)
      /\ same_policy r new_retry).
Proof.
  intros Ht Hc Hrd Hrdr Hst Ho new_retry.
  destruct (Z.eq_dec t 0) as [->|Hne].
  - left. split; [done|]. by rewrite is_exhausted_unfold.
  - right. split; [lia|]. split; [|split].
    + rewrite is_exhausted_unfold. simpl.
      rewrite (negative_at_least (t - 1) c), (negative_at_least (t - 1) rd),
        (negative_at_least (t - 1) rdr), (negative_at_least (t - 1) st),
        (negative_at_least (t - 1) o) by (done || lia).
      rewrite !orb_false_r. apply Z.ltb_ge. lia.
    + by constructor.
    + by repeat split.
Qed.

(** One more failed exchange under a budget of [t]: the policy raises
    [MaxRetryError] when [t] is [0] and otherwise goes on with a budget
    of [t - 1]. *)
Lemma increment_budget (r : Retry) (t : Z) (method url : string)
    (o : outcome) :
  budget r t -> 0 <= t -> _is_method_retryable r method = true ->
  (t = 0 /\ increment_for r method url o
            = inl (MaxRetryError url (failure_reason o)))
  \/ (0 < t /\ exists r', increment_for r method url o = inr r'
                        /\ budget r' (t - 1) /\ same_policy r r').
Proof.
  intros [Htot Hc Hrd Hrdr Hst Ho] Ht Hm.
  pose proof (at_least_weaken t (t - 1) _ ltac:(lia) Hc) as Hc'.
  pose proof (at_least_weaken t (t - 1) _ ltac:(lia) Hrd) as Hrd'.
  pose proof (at_least_weaken t (t - 1) _ ltac:(lia) Hrdr) as Hrdr'.
  pose proof (at_least_weaken t (t - 1) _ ltac:(lia) Hst) as Hst'.
  pose proof (at_least_weaken t (t - 1) _ ltac:(lia) Ho) as Ho'.
  apply at_least_dec in Hc, Hrd, Hrdr, Hst, Ho.
  assert (Hfin : forall c rd rdr st o' h reason,
             at_least (t - 1) c -> at_least (t - 1) rd ->
             at_least (t - 1) rdr -> at_least (t - 1) st ->
             at_least (t - 1) o' ->
             let new_retry := with_counts r (Some (t - 1)) c rd rdr st o' h in
             (t = 0 /\ (if is_exhausted new_retry
                        then inl (MaxRetryError url reason)
                        else inr new_retry)
                       = inl (MaxRetryError url reason))
             \/ (0 < t /\ exists r',
                    (if is_exhausted new_retry
                     then inl (MaxRetryError url reason)
                     else inr new_retry) = inr r'
                    /\ budget r' (t - 1) /\ same_policy r r')).
  { intros c rd rdr st o' h reason H1 H2 H3 H4 H5. cbv zeta.
    destruct (finish_budget r t c rd rdr st o' h Ht H1 H2 H3 H4 H5)
      as [[Hz Hex]|(Hpos & Hex & Hb & Hs)]; rewrite Hex.
    - by left.
    - right. split; [done|]. by eexists. }
  destruct o as [e|resp]; unfold increment_for, increment, failure_reason;
    rewrite Htot; simpl dec.
  - destruct (_is_connection_error e); [by apply Hfin|].
    destruct (_is_read_error e).
    + rewrite Hm. simpl. by apply Hfin.
    + by apply Hfin.
  - destruct (Py.truthy (get_redirect_location resp)); [by apply Hfin|].
    destruct (negb (status_code resp =? 0)%Z); by apply Hfin.
Qed.

(** Whatever the verb, one more failed exchange under a budget of [t]
    either raises or leaves a budget of [t - 1]. *)
Lemma increment_spends_budget (r : Retry) (t : Z) (method url : string)
    (o : outcome) :
  budget r t -> 0 <= t ->
  (exists x, increment_for r method url o = inl x)
  \/ (0 < t /\ exists r', increment_for r method url o = inr r'
                        /\ budget r' (t - 1)).
Proof.
  intros Hb Ht.
  destruct (_is_method_retryable r method) eqn:Hm.
  - destruct (increment_budget r t method url o Hb Ht Hm)
      as [[_ Hinc]|(Hpos & r' & Hinc & Hb' & _)]; [left|right]; eauto.
  - destruct Hb as [Htot Hc Hrd Hrdr Hst Ho].
    pose proof (at_least_weaken t (t - 1) _ ltac:(lia) Hc) as Hc'.
    pose proof (at_least_weaken t (t - 1) _ ltac:(lia) Hrd) as Hrd'.
    pose proof (at_least_weaken t (t - 1) _ ltac:(lia) Hrdr) as Hrdr'.
    pose proof (at_least_weaken t (t - 1) _ ltac:(lia) Hst) as Hst'.
    pose proof (at_least_weaken t (t - 1) _ ltac:(lia) Ho) as Ho'.
    apply at_least_dec in Hc, Hrd, Hrdr, Hst, Ho.
    assert (Hfin : forall c rd rdr st o' h reason,
               at_least (t - 1) c -> at_least (t - 1) rd ->
               at_least (t - 1) rdr -> at_least (t - 1) st ->
               at_least (t - 1) o' ->
               let new_retry := with_counts r (Some (t - 1)) c rd rdr st o' h in
               (exists x, (if is_exhausted new_retry
                           then inl (MaxRetryError url reason)
                           else inr new_retry) = inl x)
               \/ (0 < t /\ exists r',
                      (if is_exhausted new_retry
                       then inl (MaxRetryError url reason)
                       else inr new_retry) = inr r'
                      /\ budget r' (t - 1))).
    { intros c rd rdr st o' h reason H1 H2 H3 H4 H5. cbv zeta.
      destruct (finish_budget r t c rd rdr st o' h Ht H1 H2 H3 H4 H5)
        as [[_ Hex]|(Hpos & Hex & Hb' & _)]; rewrite Hex;
        [left|right]; eauto. }
    destruct o as [e|resp]; unfold increment_for, increment;
      rewrite Htot; simpl dec.
    + destruct (_is_connection_error e); [by apply Hfin|].
      destruct (_is_read_error e); [|by apply Hfin].
      rewrite Hm. left. by eexists.
    + destruct (Py.truthy (get_redirect_location resp)); [by apply Hfin|].
      destruct (negb (status_code resp =? 0)%Z); by apply Hfin.
Qed.

End RetryPolicy.

(** ** The request loop *)

Section RequestLoop.

Import urllib3 RetryFacts.

Variables (srv : Server) (rq : Request) (url : string).

(** One turn of the loop. *)
Lemma urlopen_unfold (fuel : nat) (r : Retry) (n : Net) :
  urlopen (S fuel) srv rq url r n
  = match srv rq (length (sent n)) with
    | Fails e =>
        match increment r (req_method rq) url None (Some e) with
        | inl x => Some (log_sent rq n, inl x)
        | inr r' => urlopen fuel srv rq url r' (sleep r' None (log_sent rq n))
        end
    | Replies resp =>
        if is_retry r (req_method rq) (status_code resp)
             (Py.is_not_None (retry_after resp))
        then
          match increment r (req_method rq) url (Some resp) None with
          | inl x =>
              if raise_on_status r then Some (log_sent rq n, inl x)
              else Some (log_sent rq n, inr resp)
          | inr r' =>
              urlopen fuel srv rq url r' (sleep r' (Some resp) (log_sent rq n))
          end
        else Some (log_sent rq n, inr resp)
    end.
Proof. reflexivity. Qed.

Lemma sleep_sent (r : Retry) (response : option Response) (n : Net) :
  sent (sleep r response n) = sent n.
Proof.
  unfold sleep, _sleep_backoff.
  destruct response as [resp|]; [destruct (respect_retry_after_header r);
    [destruct (retry_after resp) as [secs|]; [destruct (Qeq_bool secs 0)|]|]|];
    try destruct (Qle_bool (get_backoff_time r) 0); reflexivity.
Qed.

Lemma is_retry_forced (r : Retry) (resp : Response) (has : bool) :
  _is_method_retryable r (req_method rq) = true ->
  mem_Z (status_code resp) (status_forcelist r) = true ->
  is_retry r (req_method rq) (status_code resp) has = true.
Proof. unfold is_retry. by intros -> ->. Qed.



(** The loop ends: with a budget of [k] retries, fuel for [k + 1]
    exchanges always yields a result. *)
Lemma urlopen_total (k : nat) :
  forall (fuel : nat) (r : Retry) (n : Net),
    budget r (Z.of_nat k) ->
    (k < fuel)%nat ->
    exists n' x, urlopen fuel srv rq url r n = Some (n', x).
Proof.
  induction k as [|k IH]; intros fuel r n Hb Hfuel;
    (destruct fuel as [|fuel]; [lia|]); rewrite urlopen_unfold;
    destruct (increment_spends_budget r _ (req_method rq) url
                (srv rq (length (sent n))) Hb ltac:(lia))
      as [[x Hinc]|(Hpos & r' & Hinc & Hb')]; try lia;
    destruct (srv rq (length (sent n))) as [e|resp];
    cbv beta iota delta [increment_for] in Hinc.
  - rewrite Hinc. by eexists _, _.
  - destruct (is_retry _ _ _ _);
      [rewrite Hinc; destruct (raise_on_status r)|]; by eexists _, _.
  - rewrite Hinc. by eexists _, _.
  - destruct (is_retry _ _ _ _);
      [rewrite Hinc; destruct (raise_on_status r)|]; by eexists _, _.
  - replace (Z.of_nat (S k) - 1) with (Z.of_nat k) in Hb' by lia.
    rewrite Hinc. apply IH; [done | lia].
  - replace (Z.of_nat (S k) - 1) with (Z.of_nat k) in Hb' by lia.
    destruct (is_retry _ _ _ _); [|by eexists _, _].
    rewrite Hinc. apply IH; [done | lia].
Qed.

(** A response the policy does not retry ends the loop at once. *)
Lemma urlopen_returns (fuel : nat) (r : Retry) (n : Net) (resp : Response) :
  srv rq (length (sent n)) = Replies resp ->
  is_retry r (req_method rq) (status_code resp)
    (Py.is_not_None (retry_after resp)) = false ->
  urlopen (S fuel) srv rq url r n = Some (log_sent rq n, inr resp).
Proof. intros Hsrv Hno. simpl. by rewrite Hsrv, Hno. Qed.

(** Whatever way the loop ends, what it put on the wire is the request
    itself, once or more. *)
Lemma urlopen_sends (fuel : nat) :
  forall (r : Retry) (n n' : Net) (x : pool_exn + Response),
    urlopen fuel srv rq url r n = Some (n', x) ->
    exists j, sent n' = (sent n ++ replicate (S j) rq)%list.
Proof.
  induction fuel as [|fuel IH]; intros r n n' x; [discriminate|].
  rewrite urlopen_unfold.
  assert (Hstop : forall y : pool_exn + Response,
             Some (log_sent rq n, y) = Some (n', x) ->
             exists j, sent n' = (sent n ++ replicate (S j) rq)%list).
  { intros y [= <- _]. by exists 0%nat. }
  assert (Hmore : forall r' resp,
             urlopen fuel srv rq url r' (sleep r' resp (log_sent rq n))
             = Some (n', x) ->
             exists j, sent n' = (sent n ++ replicate (S j) rq)%list).
  { intros r' resp Hrun. apply IH in Hrun as [j Hj].
    exists (S j). rewrite Hj, sleep_sent. simpl.
    by rewrite <- app_assoc. }
  destruct (srv rq (length (sent n))) as [e|resp].
  - destruct (increment _ _ _ _ _) as [y|r']; [apply Hstop | apply Hmore].
  - destruct (is_retry _ _ _ _); [|apply Hstop].
    destruct (increment _ _ _ _ _) as [y|r']; [|apply Hmore].
    destruct (raise_on_status r); apply Hstop.
Qed.

(** A response the loop returns is one the server gave to the request. *)
Lemma urlopen_response (fuel : nat) :
  forall (r : Retry) (n n' : Net) (resp : Response),
    urlopen fuel srv rq url r n = Some (n', inr resp) ->
    exists i, srv rq i = Replies resp.
Proof.
  induction fuel as [|fuel IH]; intros r n n' resp; [discriminate|].
  rewrite urlopen_unfold.
  destruct (srv rq (length (sent n))) as [e|resp0] eqn:Hsrv.
  - destruct (increment _ _ _ _ _) as [y|r']; [discriminate | apply IH].
  - destruct (is_retry _ _ _ _).
    + destruct (increment _ _ _ _ _) as [y|r']; [|apply IH].
      destruct (raise_on_status r); [discriminate|].
      intros [= _ <-]. by eexists.
    + intros [= _ <-]. by eexists.
Qed.

End RequestLoop.

(** ** Verbs, status lists and the mounted adapters *)

Lemma ascii_upper_idem (c : ascii) :
  Py.ascii_upper (Py.ascii_upper c) = Py.ascii_upper c.
Proof. destruct c as [[] [] [] [] [] [] [] []]; reflexivity. Qed.

Lemma upper_idem (s : string) : Py.upper (Py.upper s) = Py.upper s.
Proof.
  unfold Py.upper. induction s as [|c s IH]; simpl; [done|].
  by rewrite ascii_upper_idem, IH.
Qed.

Lemma mem_Z_In (x : Z) (l : list Z) : urllib3.mem_Z x l = true <-> In x l.
Proof.
  unfold urllib3.mem_Z. rewrite existsb_exists. split.
  - intros (y & Hy & Heq). apply Z.eqb_eq in Heq. by subst.
  - intros Hx. exists x. split; [done|]. apply Z.eqb_refl.
Qed.

Lemma get_adapter_session_with (retry : urllib3.Retry) (url : string) :
  requests.get_adapter (session_with retry) url
  = if http_prefixed url then Some (requests.RetryAdapter retry) else None.
Proof.
  unfold requests.get_adapter, session_with, requests.mount, http_prefixed.
  simpl.
  change (Py.lower "https://") with "https://".
  change (Py.lower "http://") with "http://".
  destruct (Py.startswith (Py.lower url) "https://");
    destruct (Py.startswith (Py.lower url) "http://"); reflexivity.
Qed.

Lemma default_retry_budget (max_retries : Z) (backoff_factor : Q)
    (retry_codes : list Z) :
  RetryFacts.budget (default_retry max_retries backoff_factor retry_codes)
    max_retries.
Proof. constructor; simpl; done || lia. Qed.

Lemma bind_ret {A B : Type} (a : A) (k : A -> M B) (n : Net) :
  bind (ret a) k n = k a n.
Proof. reflexivity. Qed.

(** ** The session request and the redirects it follows *)

Section SessionRequest.

Context {U : UrlHandling}.

Variables (fuel : nat) (srv : Server) (retry : urllib3.Retry).

(** A response that is no redirect ends [resolve_redirects] at once. *)
Lemma resolve_redirects_final (hops : nat) (http : requests.Session)
    (rq : Request) (resp : Response) (n : Net) :
  requests.get_redirect_target resp = None ->
  requests.resolve_redirects hops fuel srv http rq resp n = Some (n, inr resp).
Proof. intros Hno. destruct hops; simpl; by rewrite Hno. Qed.

(** A response the session does not follow is handed back. *)
Lemma follow_returns (http : requests.Session) (kwargs : Kwargs)
    (rq : Request) (resp : Response) (n : Net) :
  followed kwargs resp = false ->
  requests.follow fuel srv http kwargs rq resp n = Some (n, inr resp).
Proof.
  unfold followed, requests.follow.
  destruct (default true (kw_allow_redirects kwargs)); [|done].
  intros Hno. apply resolve_redirects_final. simpl in Hno.
  by destruct (requests.get_redirect_target resp).
Qed.

(** With a URL an adapter takes and no keyword the session refuses,
    [Session.request] is the request loop run on the request, and then
    the redirects followed from the response it returned. *)
Lemma request_runs_loop (method url : string) (kwargs : Kwargs) (n : Net) :
  kw_method kwargs = None ->
  kw_url kwargs = None ->
  kw_retry_attempts kwargs = None ->
  has_http_scheme url = true ->
  let rq := cloud_request (Py.upper method) url kwargs in
  requests.request fuel srv (session_with retry) method url kwargs n
  = match urllib3.urlopen fuel srv rq (request_url rq) retry n with
    | Some (n', inr resp) =>
        requests.follow fuel srv (session_with retry) kwargs rq resp n'
    | Some (n', inl x) => Some (n', inl (requests.translate x))
    | None => None
    end.
Proof.
  intros Hm Hu Hr Hs rq. unfold requests.request, has_http_scheme in *.
  rewrite Hm, Hu, Hr. simpl.
  destruct (prepare_url url) as [e|prepared]; [discriminate|].
  rewrite get_adapter_session_with, Hs.
  unfold bind, requests.send. fold rq.
  by destruct (urllib3.urlopen _ _ _ _ _ _) as [[n' [x|resp]]|].
Qed.

(** Nothing is sent for a URL no adapter takes. *)
Lemma request_unsendable (method url : string) (kwargs : Kwargs) (n : Net) :
  has_http_scheme url = false ->
  exists e, requests.request fuel srv (session_with retry) method url kwargs n
            = Some (n, inl e).
Proof.
  intros Hs. unfold requests.request, has_http_scheme in *.
  destruct (_ || _); [by eexists|].
  destruct (Py.is_not_None (kw_retry_attempts kwargs)); [by eexists|].
  destruct (prepare_url url) as [e|prepared]; [by eexists|].
  rewrite get_adapter_session_with, Hs. by eexists.
Qed.

(** *** The requests of a call *)

Lemma send_sends (rq : Request) (n n' : Net) (x : exn + Response) :
  requests.send fuel srv (requests.RetryAdapter retry) rq n = Some (n', x) ->
  exists j, sent n' = (sent n ++ replicate (S j) rq)%list.
Proof.
  unfold requests.send.
  destruct (urllib3.urlopen _ _ _ _ _ _) as [[n1 [y|resp]]|] eqn:Hrun;
    [| |discriminate]; intros [= <- _];
    by apply urlopen_sends in Hrun.
Qed.

Lemma resolve_redirects_log (hops : nat) :
  forall (rq : Request) (resp : Response) (n n' : Net) (x : exn + Response),
    requests.resolve_redirects hops fuel srv (session_with retry) rq resp n
    = Some (n', x) ->
    exists tail, sent n' = (sent n ++ tail)%list /\ slept n = slept n
                 /\ (requests.get_redirect_target resp = None ->
                     n' = n /\ tail = []).
Proof.
  induction hops as [|hops IH]; intros rq resp n n' x; simpl;
    destruct (requests.get_redirect_target resp) as [target|].
  - intros [= <- _]. exists []. by rewrite app_nil_r.
  - intros [= <- _]. exists []. by rewrite app_nil_r.
  - rewrite get_adapter_session_with.
    destruct (http_prefixed _);
      [|intros [= <- _]; exists []; by rewrite app_nil_r].
    unfold bind.
    destruct (requests.send _ _ _ _ n) as [[n1 [e|resp']]|] eqn:Hsend;
      [| |discriminate].
    + intros [= <- _]. apply send_sends in Hsend as [j Hj].
      eexists. split; [exact Hj|]. split; [done|]. discriminate.
    + intros Hrest. apply IH in Hrest as (tail & Htail & _).
      apply send_sends in Hsend as [j Hj].
      eexists. split; [|split; [done|discriminate]].
      rewrite Htail, Hj, <- app_assoc. reflexivity.
  - intros [= <- _]. exists []. by rewrite app_nil_r.
Qed.

(** What a session request puts on the wire: nothing, or the request
    itself once or more and then the follow-ups of the redirects it was
    answered with, none when the server does not redirect. *)
Lemma request_log (method url : string) (kwargs : Kwargs) (n n' : Net)
    (x : exn + Response) :
  let rq := cloud_request (Py.upper method) url kwargs in
  requests.request fuel srv (session_with retry) method url kwargs n
  = Some (n', x) ->
  n' = n
  \/ exists j tail,
       sent n' = (sent n ++ replicate (S j) rq ++ tail)%list
       /\ (never_redirects srv kwargs rq -> tail = []).
Proof.
  intros rq. unfold requests.request.
  destruct (_ || _); [intros [= <- _]; by left|].
  destruct (Py.is_not_None (kw_retry_attempts kwargs));
    [intros [= <- _]; by left|].
  destruct (prepare_url url) as [e|prepared]; [intros [= <- _]; by left|].
  rewrite get_adapter_session_with.
  destruct (http_prefixed prepared); [|intros [= <- _]; by left].
  unfold bind, requests.send. fold rq.
  destruct (urllib3.urlopen _ _ _ _ _ _) as [[n1 [y|resp]]|] eqn:Hrun;
    [| |discriminate].
  - intros [= <- _]. right. apply urlopen_sends in Hrun as [j Hj].
    exists j, []. by rewrite app_nil_r.
  - intros Hfollow. right.
    pose proof (urlopen_sends _ _ _ _ _ _ _ _ Hrun) as [j Hj].
    apply urlopen_response in Hrun as [i Hi].
    unfold requests.follow in Hfollow.
    destruct (default true (kw_allow_redirects kwargs)) eqn:Hallow.
    + apply resolve_redirects_log in Hfollow as (tail & Htail & _ & Hnone).
      exists j, tail. split; [by rewrite Htail, Hj, <- app_assoc|].
      intros Hnever. apply Hnone.
      specialize (Hnever i resp Hi). unfold followed in Hnever.
      rewrite Hallow in Hnever. simpl in Hnever.
      by destruct (requests.get_redirect_target resp).
    + injection Hfollow as <- _. exists j, []. by rewrite app_nil_r.
Qed.

(** *** The call ends *)

Hypothesis Hloop : forall (rq : Request) (n : Net),
    exists n' y, urllib3.urlopen fuel srv rq (request_url rq) retry n
                 = Some (n', y).

Lemma send_total (rq : Request) (n : Net) :
  exists n' x,
    requests.send fuel srv (requests.RetryAdapter retry) rq n = Some (n', x).
Proof.
  unfold requests.send. destruct (Hloop rq n) as (n' & [y|resp] & ->);
    by eexists _, _.
Qed.

Lemma resolve_redirects_total (hops : nat) :
  forall (rq : Request) (resp : Response) (n : Net),
    exists n' x,
      requests.resolve_redirects hops fuel srv (session_with retry) rq resp n
      = Some (n', x).
Proof.
  induction hops as [|hops IH]; intros rq resp n; simpl;
    destruct (requests.get_redirect_target resp) as [target|];
    try (by eexists _, _).
  rewrite get_adapter_session_with.
  destruct (http_prefixed _); [|by eexists _, _].
  unfold bind.
  destruct (send_total (requests.redirected rq resp target) n)
    as (n1 & [e|resp'] & ->); [by eexists _, _|].
  apply IH.
Qed.

Lemma request_total (method url : string) (kwargs : Kwargs) (n : Net) :
  exists n' x,
    requests.request fuel srv (session_with retry) method url kwargs n
    = Some (n', x).
Proof.
  unfold requests.request.
  destruct (_ || _); [by eexists _, _|].
  destruct (Py.is_not_None (kw_retry_attempts kwargs)); [by eexists _, _|].
  destruct (prepare_url url) as [e|prepared]; [by eexists _, _|].
  rewrite get_adapter_session_with.
  destruct (http_prefixed prepared); [|by eexists _, _].
  unfold bind.
  match goal with
  | |- context [requests.send fuel srv _ ?rq n] =>
      destruct (send_total rq n) as (n1 & [e|resp] & ->)
  end; [by eexists _, _|].
  unfold requests.follow.
  destruct (default true (kw_allow_redirects kwargs)); [|by eexists _, _].
  apply resolve_redirects_total.
Qed.

End SessionRequest.

(** ** From [http_request] down to the request loop *)

Section HttpRequestSetup.

Context {Message : Type} `{Collaborators Message}.

Variables (fuel : nat) (srv : Server) (host_creds : MlflowHostCreds)
          (endpoint : string) (max_retries : Z) (backoff_factor : Q)
          (retry_codes : list Z) (timeout : Q) (kwargs : Kwargs).

(** What is raised before the [try] leaves [http_request] as it is,
    with nothing sent. *)
Lemma http_request_raised_before_try (e : exn) (net : Net) :
  raised_before_try host_creds = Some e ->
  http_request fuel srv host_creds endpoint max_retries backoff_factor
    retry_codes timeout kwargs net = Some (net, inl e).
Proof.
  unfold raised_before_try, http_request, basic_auth_str, Py.encode_utf8,
    bind, lift, ret, raise.
  destruct (Py.truthy (username host_creds) && Py.truthy (password host_creds));
    simpl.
  - destruct (Py.has_surrogate _); [by intros [= <-]|].
    by intros ->.
  - by intros ->.
Qed.

(** Otherwise [http_request] is its [try] statement. *)
Lemma http_request_try (net : Net) :
  raised_before_try host_creds = None ->
  http_request fuel srv host_creds endpoint max_retries backoff_factor
    retry_codes timeout kwargs net
  = try_except
      (if duplicate_keyword kwargs then
         raise (TypeError
                  ("_get_http_response_with_retries() got multiple values " ++
                   "for a keyword argument"))
       else
         _get_http_response_with_retries fuel srv max_retries backoff_factor
           retry_codes (transport_kwargs host_creds endpoint timeout kwargs))
      (fun e => raise (failed_with (url_of host_creds endpoint) e)) net.
Proof.
  unfold raised_before_try, http_request, basic_auth_str, Py.encode_utf8,
    bind, lift, ret, raise.
  destruct (Py.truthy (username host_creds) && Py.truthy (password host_creds));
    simpl.
  - destruct (Py.has_surrogate _); [discriminate|]. by intros ->.
  - by intros ->.
Qed.

End HttpRequestSetup.

Section HttpRequestRuns.

Context {Message : Type} `{Collaborators Message}.

Variables (fuel : nat) (srv : Server) (host_creds : MlflowHostCreds)
          (endpoint : string) (max_retries : Z) (backoff_factor : Q)
          (retry_codes : list Z) (timeout : Q) (kwargs : Kwargs)
          (method : string).

Hypothesis Hbounds : retry_bounds max_retries backoff_factor.
Hypothesis Hmethod : kw_method kwargs = Some method.
Hypothesis Hclean : kw_retry_attempts kwargs = None.
Hypothesis Honce : duplicate_keyword kwargs = false.
Hypothesis Hsetup : raised_before_try host_creds = None.
Hypothesis Hscheme : has_http_scheme (url_of host_creds endpoint) = true.

(** Under these conditions [http_request] is the request loop run on
    [wire_request] with the default policy and then the redirects followed
    from the response it returned, the exceptions of either translated by
    the adapter and then wrapped. *)
Lemma http_request_runs_loop (net : Net) :
  let rq := wire_request host_creds endpoint timeout kwargs method in
  let retry := default_retry max_retries backoff_factor retry_codes in
  let wrap (e : exn) : M Response :=
    raise (failed_with (url_of host_creds endpoint) e) in
  http_request fuel srv host_creds endpoint max_retries backoff_factor
    retry_codes timeout kwargs net
  = match urllib3.urlopen fuel srv rq (request_url rq) retry net with
    | Some (n', inr resp) =>
        try_except
          (requests.follow fuel srv (session_with retry) kwargs rq resp)
          wrap n'
    | Some (n', inl x) =>
        Some (n', inl (failed_with (url_of host_creds endpoint)
                         (requests.translate x)))
    | None => None
    end.
Proof.
  intros rq retry wrap.
  rewrite (http_request_try _ _ _ _ _ _ _ _ _ _ Hsetup), Honce.
  unfold try_except at 1, _get_http_response_with_retries.
  apply retry_bounds_checked in Hbounds as [-> ->]. simpl.
  rewrite Hmethod.
  rewrite (request_runs_loop fuel srv _ method (url_of host_creds endpoint)
             (popped (transport_kwargs host_creds endpoint timeout kwargs))
             net eq_refl eq_refl Hclean Hscheme).
  change (cloud_request (Py.upper method) (url_of host_creds endpoint)
            (popped (transport_kwargs host_creds endpoint timeout kwargs)))
    with rq.
  fold retry.
  destruct (urllib3.urlopen _ _ _ _ _ _) as [[n' [x|resp]]|]; try reflexivity.
Qed.

End HttpRequestRuns.

Section Totality.

Context {Message : Type} `{Collaborators Message}.

(** [http_request] ends, whatever the server does, as soon as the fuel
    covers the [max_retries + 1] exchanges the policy allows a request. *)
Lemma http_request_total (fuel : nat) (srv : Server)
    (host_creds : MlflowHostCreds) (endpoint : string) (max_retries : Z)
    (backoff_factor : Q) (retry_codes : list Z) (timeout : Q)
    (kwargs : Kwargs) (net : Net) :
  (Z.to_nat max_retries < fuel)%nat ->
  exists net' x,
    http_request fuel srv host_creds endpoint max_retries backoff_factor
      retry_codes timeout kwargs net = Some (net', x).
Proof.
  intros Hfuel.
  destruct (raised_before_try host_creds) as [e|] eqn:Hsetup.
  { rewrite (http_request_raised_before_try _ _ _ _ _ _ _ _ _ _ _ Hsetup).
    by eexists _, _. }
  rewrite (http_request_try _ _ _ _ _ _ _ _ _ _ Hsetup).
  unfold try_except.
  assert (Hinner : exists n' y,
             (if duplicate_keyword kwargs then
                raise (TypeError
                         ("_get_http_response_with_retries() got multiple values " ++
                          "for a keyword argument"))
              else
                _get_http_response_with_retries fuel srv max_retries
                  backoff_factor retry_codes
                  (transport_kwargs host_creds endpoint timeout kwargs)) net
             = Some (n', y)).
  { destruct (duplicate_keyword kwargs); [by eexists _, _|].
    unfold _get_http_response_with_retries.
    destruct ((0 <=? max_retries)%Z && (max_retries <? 10)%Z) eqn:Hz;
      [|by eexists _, _].
    destruct (Qle_bool 0 backoff_factor && negb (Qle_bool 120 backoff_factor));
      [|by eexists _, _].
    simpl. destruct (kw_method kwargs) as [method|]; [|by eexists _, _].
    apply request_total. intros rq n.
    apply (urlopen_total srv rq (request_url rq) (Z.to_nat max_retries));
      [|done].
    apply andb_true_iff in Hz as [Hz _]. apply Z.leb_le in Hz.
    rewrite Z2Nat.id by done. apply default_retry_budget. }
  destruct Hinner as (n' & [e|r] & ->); by eexists _, _.
Qed.

(** [call_endpoint] ends as soon as the fuel covers the four exchanges
    the default policy allows a request. *)
Lemma call_endpoint_total (fuel : nat) (srv : Server)
    (host_creds : MlflowHostCreds) (endpoint method : string)
    (json_body : option string) (response_proto : Message) (net : Net) :
  (3 < fuel)%nat ->
  exists net' x,
    call_endpoint fuel srv host_creds endpoint method json_body
      response_proto net = Some (net', x).
Proof.
  intros Hfuel. unfold call_endpoint.
  assert (Hreq : forall kwargs,
             exists net' x,
               (let* response :=
                  http_request_default fuel srv host_creds endpoint kwargs in
                let* response := lift (verify_rest_response response endpoint) in
                match json.loads (text response) with
                | Some js_dict => lift (parse_dict js_dict response_proto)
                | None => raise (JSONDecodeError (text response))
                end) net = Some (net', x)).
  { intros kwargs. unfold http_request_default, bind, lift, raise.
    destruct (http_request_total fuel srv host_creds endpoint 3 5
                [429; 500; 503] 10 kwargs net) as (n' & [e|response] & ->);
      [simpl; lia|by eexists _, _|].
    destruct (verify_rest_response response endpoint) as [e|response'];
      [by eexists _, _|].
    destruct (json.loads (text response')); by eexists _, _. }
  destruct json_body as [body|];
    [destruct (Py.str_truthy body);
       [destruct (json.loads body) as [j|]; [|by eexists _, _]|]|];
    rewrite bind_ret;
    (destruct (String.eqb method "GET");
     match goal with
     | |- context [http_request_default fuel srv host_creds endpoint ?kw] =>
         destruct (Hreq kw) as (n' & x & Hx)
     end;
     exists n', x; exact Hx).
Qed.

End Totality.

(** ** http_request *)

(** C10, as stated, fails: an exception that is not the wrapped one
    leaves [http_request]. With a user name that is a lone surrogate the
    encoding of [username:password], which comes before the [try], raises
    [UnicodeEncodeError]; and an exception of the header registry leaves it
    the same way. Nothing is sent in either case. *)
Lemma http_request_unwrapped_failure_counterexample :
  (exists e,
      http_request (H:=plain_collaborators) 4 (always 200)
        creds_with_surrogate "/api/2.0/mlflow/runs/get"
        3 5 [429; 500; 503] 10 (call_kwargs "GET" None None) net0
      = Some (net0, inl e)
      /\ (exists object, e = UnicodeEncodeError object)
      /\ forall message code, e <> MlflowException message code)
  /\ (exists e,
        http_request (H:=failing_registry) 4 (always 200)
          (creds_of_host "http://localhost:5000") "/api/2.0/mlflow/runs/get"
          3 5 [429; 500; 503] 10 (call_kwargs "GET" None None) net0
        = Some (net0, inl e)
        /\ forall message code, e <> MlflowException message code).
Proof.
  split.
  - eexists. split; [vm_compute; reflexivity|]. split; [by eexists|].
    discriminate.
  - eexists. split; [vm_compute; reflexivity|]. discriminate.
Qed.

(** C10, amended. Whatever is raised inside the [try] of [http_request],
    by [_get_http_response_with_retries] (the bounds assertion included)
    or by the call itself when a keyword is passed twice, leaves
    [http_request] as an [MlflowException] whose message names the URL and
    the exception caught. The only other exceptions that leave it are
    those raised before the [try], as they are and with nothing sent: the
    [UnicodeEncodeError] of a user name and password that cannot be
    encoded, and what the header registry raises. A failure never becomes
    a returned value, a returned response is the one the transport
    returned, and the call always ends. *)
Theorem http_request_wraps_every_failure
    {Message : Type} `{Collaborators Message}
    (fuel : nat) (srv : Server) (host_creds : MlflowHostCreds)
    (endpoint : string) (max_retries : Z) (backoff_factor : Q)
    (retry_codes : list Z) (timeout : Q) (kwargs : Kwargs) (net : Net) :
  let url := url_of host_creds endpoint in
  let wrapped (e : exn) :=
    MlflowException
      ("API request to " ++ url ++ " failed with exception " ++ str_of_exn e)
      None in
  let inner :=
    _get_http_response_with_retries fuel srv max_retries backoff_factor
      retry_codes (transport_kwargs host_creds endpoint timeout kwargs) net in
  let outer :=
    http_request fuel srv host_creds endpoint max_retries backoff_factor
      retry_codes timeout kwargs net in
  (forall e, raised_before_try host_creds = Some e ->
             outer = Some (net, inl e))
  /\ (forall net' e, outer = Some (net', inl e) ->
        (raised_before_try host_creds = Some e /\ net' = net)
        \/ (raised_before_try host_creds = None
            /\ exists cause, e = wrapped cause))
  /\ (raised_before_try host_creds = None ->
      duplicate_keyword kwargs = true ->
      exists message, outer = Some (net, inl (wrapped (TypeError message))))
  /\ (raised_before_try host_creds = None ->
      duplicate_keyword kwargs = false ->
      (forall net' e, inner = Some (net', inl e) ->
                      outer = Some (net', inl (wrapped e)))
      /\ (forall net' e, outer = Some (net', inl e) ->
            exists cause, inner = Some (net', inl cause) /\ e = wrapped cause)
      /\ (forall net' r, outer = Some (net', inr r) <-> inner = Some (net', inr r))
      /\ (~ retry_bounds max_retries backoff_factor ->
          outer = Some (net, inl (wrapped AssertionError))))
  /\ ((Z.to_nat max_retries < fuel)%nat -> exists net' x, outer = Some (net', x)).
Proof.
  intros url wrapped inner outer.
  assert (Hbefore : forall e, raised_before_try host_creds = Some e ->
                              outer = Some (net, inl e)).
  { intros e He. by apply http_request_raised_before_try. }
  assert (Htwice : raised_before_try host_creds = None ->
                   duplicate_keyword kwargs = true ->
                   outer = Some (net, inl (wrapped
                             (TypeError
                                ("_get_http_response_with_retries() got multiple values " ++
                                 "for a keyword argument"))))).
  { intros Hs Hd. subst outer.
    by rewrite (http_request_try _ _ _ _ _ _ _ _ _ _ Hs), Hd. }
  assert (Hout : raised_before_try host_creds = None ->
                 duplicate_keyword kwargs = false ->
                 outer = match inner with
                         | Some (n', inl e) => Some (n', inl (wrapped e))
                         | r => r
                         end).
  { intros Hs Hd. subst outer inner.
    rewrite (http_request_try _ _ _ _ _ _ _ _ _ _ Hs), Hd.
    unfold try_except.
    destruct (_get_http_response_with_retries _ _ _ _ _ _ _)
      as [[n' [e|r]]|]; reflexivity. }
  split; [exact Hbefore|]. split; [|split; [|split; [|apply http_request_total]]].
  - intros net' e Hraise.
    destruct (raised_before_try host_creds) as [e0|] eqn:Hs.
    + left. rewrite (Hbefore e0 eq_refl) in Hraise. by injection Hraise as <- <-.
    + right. split; [done|].
      destruct (duplicate_keyword kwargs) eqn:Hd.
      * rewrite (Htwice eq_refl eq_refl) in Hraise. injection Hraise as _ <-.
        by eexists.
      * rewrite (Hout eq_refl eq_refl) in Hraise.
        destruct inner as [[n' [c|r]]|]; try discriminate.
        injection Hraise as _ <-. by eexists.
  - intros Hs Hd. eexists. by apply Htwice.
  - intros Hs Hd. specialize (Hout Hs Hd).
    split; [|split; [|split]].
    + intros net' e He. by rewrite Hout, He.
    + intros net' e. rewrite Hout.
      destruct inner as [[n' [c|r]]|]; try discriminate.
      intros [= -> <-]. by exists c.
    + intros net' r. rewrite Hout.
      destruct inner as [[n' [c|r']]|]; split; try discriminate; done.
    + intros Hb. rewrite Hout. subst inner.
      by rewrite (out_of_bounds_asserts _ _ _ _ _ _ _ Hb).
Qed.

Lemma http_request_wraps_every_failure_witness :
  ~ retry_bounds 12 5
  /\ http_request (H:=plain_collaborators) 13 (always 200)
       (creds_of_host "http://localhost:5000/") "/api/2.0/mlflow/runs/get"
       12 5 [429; 500; 503] 10 (call_kwargs "GET" None None) net0
     = Some (net0,
             inl (MlflowException
                    ("API request to http://localhost:5000/api/2.0/mlflow/runs/get" ++
                     " failed with exception error")
                    None)).
Proof.
  assert (Hb : ~ retry_bounds 12 5).
  { unfold retry_bounds. intros [Hz _]. lia. }
  split; [exact Hb|].
  rewrite (proj2 (proj2 (proj2
             (proj1 (proj2 (proj2 (proj2
                (http_request_wraps_every_failure (H:=plain_collaborators) 13
                   (always 200) (creds_of_host "http://localhost:5000/")
                   "/api/2.0/mlflow/runs/get" 12 5 [429; 500; 503] 10
                   (call_kwargs "GET" None None) net0))))
                eq_refl eq_refl))) Hb).
  vm_compute. reflexivity.
Defined.

(** ** Retry exhaustion in the default transport *)

(** On a verb the policy does not repeat (POST, PATCH), a response is
    never retried: unless the session follows it, it is returned as it
    is, whatever its status. *)
Lemma unrepeatable_verb_response_returned
    {Message : Type} `{Collaborators Message}
    (fuel : nat) (srv : Server) (host_creds : MlflowHostCreds)
    (endpoint : string) (max_retries : Z) (backoff_factor : Q)
    (retry_codes : list Z) (timeout : Q) (kwargs : Kwargs) (method : string)
    (resp : Response) :
  let rq := wire_request host_creds endpoint timeout kwargs method in
  retry_bounds max_retries backoff_factor ->
  kw_method kwargs = Some method ->
  kw_retry_attempts kwargs = None ->
  duplicate_keyword kwargs = false ->
  raised_before_try host_creds = None ->
  has_http_scheme (url_of host_creds endpoint) = true ->
  retryable_verb method = false ->
  srv rq 0%nat = Replies resp ->
  followed kwargs resp = false ->
  http_request (S fuel) srv host_creds endpoint max_retries backoff_factor
    retry_codes timeout kwargs net0
  = Some ({| sent := [rq]; slept := [] |}, inr resp).
Proof.
  intros rq Hb Hm Hc Hd Hp Hs Hv Hr Hf.
  rewrite (http_request_runs_loop (S fuel) srv host_creds endpoint max_retries
             backoff_factor retry_codes timeout kwargs method Hb Hm Hc Hd Hp Hs).
  fold rq. rewrite (urlopen_returns srv rq _ fuel _ net0 resp Hr).
  - unfold try_except. by rewrite follow_returns.
  - assert (Hno : urllib3._is_method_retryable
                    (default_retry max_retries backoff_factor retry_codes)
                    (req_method rq) = false).
    { change (urllib3.mem_str (Py.upper (Py.upper method))
                urllib3.DEFAULT_ALLOWED_METHODS = false).
      rewrite upper_idem. exact Hv. }
    unfold urllib3.is_retry. by rewrite Hno.
Qed.




(** ** Runs of retried statuses and the pauses between them *)

Section StatusRuns.

Import urllib3 RetryFacts.

Variables (srv : Server) (rq : Request) (url : string).

Lemma get_backoff_time_after (r : Retry) :
  get_backoff_time r = backoff_after (backoff_factor r) (consecutive_errors_len r).
Proof. reflexivity. Qed.

Lemma sleep_backoff_pause (r : Retry) (n : Net) :
  _sleep_backoff r n
  = log_sleep (pause_after (backoff_factor r) (consecutive_errors_len r)) n.
Proof.
  unfold _sleep_backoff, pause_after. rewrite get_backoff_time_after.
  by destruct (Qle_bool _ 0).
Qed.

Lemma sleep_no_retry_after (r : Retry) (resp : Response) (n : Net) :
  retry_after resp = None ->
  sleep r (Some resp) n = _sleep_backoff r n.
Proof.
  intros Hra. unfold sleep. rewrite Hra.
  by destruct (respect_retry_after_header r).
Qed.

Lemma consecutive_errors_len_failure (r : Retry) (t c rd rdr st o : option Z)
    (h : RequestHistory) :
  h_redirect_location h = None ->
  consecutive_errors_len (with_counts r t c rd rdr st o h)
  = S (consecutive_errors_len r).
Proof.
  intros Hh. unfold consecutive_errors_len. simpl.
  rewrite rev_app_distr. simpl. by rewrite Hh.
Qed.

(** [increment] on a response counted against the status budget. *)
Lemma increment_status (r : Retry) (method : string) (resp : Response) :
  Py.truthy (get_redirect_location resp) = false ->
  status_code resp <> 0 ->
  increment r method url (Some resp) None
  = let r' :=
      with_counts r (dec (total r)) (connect r) (read r) (redirect r)
        (dec (status r)) (other r)
        {| h_method := method; h_url := url; h_error := None;
           h_status := Some (status_code resp);
           h_redirect_location := None |} in
    if is_exhausted r'
    then inl (MaxRetryError url (ResponseError (SPECIFIC_ERROR (status_code resp))))
    else inr r'.
Proof.
  intros Hloc Hst. unfold increment. rewrite Hloc.
  by destruct (Z.eqb_spec (status_code resp) 0).
Qed.

Lemma exhausted_after_status (r : Retry) (k : Z) (h : RequestHistory) :
  status r = Some k ->
  at_least k (total r) ->
  at_least 0 (connect r) -> at_least 0 (read r) ->
  at_least 0 (redirect r) -> at_least 0 (other r) ->
  is_exhausted
    (with_counts r (dec (total r)) (connect r) (read r) (redirect r)
       (dec (status r)) (other r) h)
  = (k <=? 0)%Z.
Proof.
  intros Hst Htot Hc Hrd Hrdr Ho. rewrite is_exhausted_unfold. simpl.
  rewrite Hst. simpl.
  rewrite (negative_at_least 0 (connect r)), (negative_at_least 0 (read r)),
    (negative_at_least 0 (redirect r)), (negative_at_least 0 (other r))
    by (done || lia).
  rewrite !orb_false_r.
  destruct (Z.leb_spec k 0) as [Hk|Hk].
  - replace (k - 1 <? 0)%Z with true by (symmetry; apply Z.ltb_lt; lia).
    apply orb_true_r.
  - replace (k - 1 <? 0)%Z with false by (symmetry; apply Z.ltb_ge; lia).
    rewrite orb_false_r. by apply (negative_dec k).
Qed.

(** With a status budget of [k] that no other counter undercuts,
    [k + 1] transient responses in a row raise [MaxRetryError] after
    [k + 1] requests, and the [j]-th retry is preceded by the pause of
    the [j]-th failure of the run. *)
Lemma urlopen_status_run (k : nat) :
  forall (fuel : nat) (r : Retry) (n : Net),
    status r = Some (Z.of_nat k) ->
    at_least (Z.of_nat k) (total r) ->
    at_least 0 (connect r) -> at_least 0 (read r) ->
    at_least 0 (redirect r) -> at_least 0 (other r) ->
    _is_method_retryable r (req_method rq) = true ->
    raise_on_status r = true ->
    (forall i, (i <= k)%nat ->
       exists resp, srv rq (length (sent n) + i)%nat = Replies resp
                    /\ transient r resp) ->
    (k < fuel)%nat ->
    exists n' cause,
      urlopen fuel srv rq url r n
      = Some (n', inl (MaxRetryError url (ResponseError cause)))
      /\ sent n' = (sent n ++ replicate (S k) rq)%list
      /\ slept n'
         = (slept n
            ++ List.map (fun j => pause_after (backoff_factor r)
                                    (consecutive_errors_len r + j))
                        (seq 1 k))%list.
Proof.
  induction k as [|k IH];
    intros fuel r n Hst Htot Hc Hrd Hrdr Ho Hm Hraise Hsrv Hfuel;
    (destruct fuel as [|fuel]; [lia|]); rewrite urlopen_unfold;
    destruct (Hsrv 0%nat ltac:(lia)) as (resp & Hresp & Hin & Hloc & Hne & Hra);
    rewrite Nat.add_0_r in Hresp; rewrite Hresp;
    apply mem_Z_In in Hin;
    rewrite (is_retry_forced rq r resp _ Hm Hin);
    rewrite (increment_status r _ resp Hloc Hne); cbv zeta;
    rewrite (exhausted_after_status r _ _ Hst Htot Hc Hrd Hrdr Ho).
  - simpl. rewrite Hraise.
    eexists _, _. split; [reflexivity|]. simpl. by rewrite app_nil_r.
  - replace (Z.of_nat (S k) <=? 0)%Z with false
      by (symmetry; apply Z.leb_gt; lia).
    rewrite (sleep_no_retry_after _ resp _ Hra), sleep_backoff_pause.
    rewrite consecutive_errors_len_failure by done. simpl backoff_factor.
    match goal with
    | |- context [urlopen fuel srv rq url ?r1 ?n1] =>
        destruct (IH fuel r1 n1) as (n' & cause & Hrun & Hsent & Hslept)
    end; simpl; try done; try lia.
    + rewrite Hst. simpl. f_equal. lia.
    + apply (at_least_dec (Z.of_nat (S k))) in Htot.
      by replace (Z.of_nat (S k) - 1) with (Z.of_nat k) in Htot by lia.
    + intros i Hi. rewrite length_app. simpl.
      replace (length (sent n) + 1 + i)%nat
        with (length (sent n) + S i)%nat by lia.
      destruct (Hsrv (S i) ltac:(lia)) as (resp' & Hr' & Ht').
      by exists resp'.
    + exists n', cause. split; [exact Hrun|]. split.
      * rewrite Hsent. simpl. by rewrite <- app_assoc.
      * rewrite Hslept. simpl. rewrite <- app_assoc. simpl.
        rewrite consecutive_errors_len_failure by done.
        rewrite <- (seq_shift k 1), List.map_map.
        do 2 f_equal.
        -- f_equal. lia.
        -- apply List.map_ext. intros j. f_equal. lia.
Qed.

End StatusRuns.

(** ** The cloud-storage transport *)

Section CloudStorage.

Import urllib3 RetryFacts.

Context {U : UrlHandling}.

Variables (fuel : nat) (srv : Server) (method verb url : string)
          (kwargs : Kwargs).

Hypothesis Hverb : cloud_verb method = Some verb.
Hypothesis Hno_method : kw_method kwargs = None.
Hypothesis Hno_url : kw_url kwargs = None.
Hypothesis Hdefault : kw_retry_attempts kwargs = None.
Hypothesis Hscheme : has_http_scheme url = true.



(** With [retry_attempts] left at its default, a transfer is the
    request loop run on [cloud_request] under [retry_strategy 5], and then
    the redirects followed from the response it returned. *)
Lemma cloud_storage_runs_loop (net : Net) :
  let rq := cloud_request verb url kwargs in
  cloud_storage_http_request fuel srv method url kwargs net
  = match urlopen fuel srv rq (request_url rq) (retry_strategy 5) net with
    | Some (n', inr resp) =>
        requests.follow fuel srv (session_with (retry_strategy 5)) kwargs
          rq resp n'
    | Some (n', inl x) => Some (n', inl (requests.translate x))
    | None => None
    end.
Proof.
  intros rq. unfold cloud_storage_http_request, requests.put, requests.get.
  rewrite Hdefault. simpl default.
  pose proof Hverb as Hv. unfold cloud_verb in Hv. subst rq.
  destruct (String.eqb (Py.lower method) "put").
  - injection Hv as Hv. rewrite <- Hv.
    exact (request_runs_loop fuel srv (retry_strategy 5) "PUT" url kwargs net
             Hno_method Hno_url Hdefault Hscheme).
  - destruct (String.eqb (Py.lower method) "get"); [|discriminate].
    injection Hv as Hv. rewrite <- Hv.
    exact (request_runs_loop fuel srv (retry_strategy 5) "GET" url kwargs net
             Hno_method Hno_url Hdefault Hscheme).
Qed.

(** ... and the request loop alone when the server does not redirect. *)
Lemma cloud_storage_runs_loop_only (net : Net) :
  let rq := cloud_request verb url kwargs in
  never_redirects srv kwargs rq ->
  cloud_storage_http_request fuel srv method url kwargs net
  = match urlopen fuel srv rq (request_url rq) (retry_strategy 5) net with
    | Some (n', inr resp) => Some (n', inr resp)
    | Some (n', inl x) => Some (n', inl (requests.translate x))
    | None => None
    end.
Proof.
  intros rq Hnever. rewrite cloud_storage_runs_loop. fold rq.
  destruct (urlopen _ _ _ _ _ _) as [[n' [x|resp]]|] eqn:Hrun; try done.
  apply urlopen_response in Hrun as [i Hi].
  apply follow_returns. by apply (Hnever i).
Qed.

End CloudStorage.

Section CloudStoragePolicy.

Import urllib3 RetryFacts.

Variables (srv : Server) (rq : Request) (url : string) (ra : Z).

Hypothesis Hra : 0 <= ra.
Hypothesis Hretryable : _is_method_retryable (retry_strategy ra) (req_method rq) = true.






End CloudStoragePolicy.



Section CloudBudget.

Import urllib3 RetryFacts.

Lemma cloud_budget_initial : cloud_budget (retry_strategy 5) 1 5.
Proof. by constructor. Qed.

Lemma cloud_exhausted (r : Retry) (a b : nat) (c rd st : option Z)
    (h : RequestHistory) :
  cloud_budget r a b ->
  is_exhausted (with_counts r (dec (total r)) c rd (redirect r) st (other r) h)
  = negative c || negative rd || negative st.
Proof.
  intros [Ht _ _ Hrdr _ Ho _]. rewrite is_exhausted_unfold. simpl.
  rewrite Ht, Hrdr, Ho. simpl. by rewrite !orb_false_r.
Qed.

Lemma negative_pred (k : nat) :
  negative (Some (Z.of_nat k - 1)) = match k with O => true | S _ => false end.
Proof.
  destruct k; simpl; [done|]. apply Z.ltb_ge. lia.
Qed.

Lemma negative_of_nat (k : nat) : negative (Some (Z.of_nat k)) = false.
Proof. simpl. apply Z.ltb_ge. lia. Qed.

(** A failed exchange that is not of the [other] kind either raises or
    spends one read retry. *)
Lemma cloud_increment_error (r r' : Retry) (a b : nat) (method url : string)
    (e : wire_error) :
  cloud_budget r a b ->
  e <> SSLError ->
  increment r method url None (Some e) = inr r' ->
  _is_connection_error e = false
  /\ exists a', a = S a' /\ cloud_budget r' a' b.
Proof.
  intros Hb Hssl. pose proof Hb as [Ht Hc Hrd Hrdr Hst Ho Hl].
  assert (Hgoal : forall P : Prop,
             _is_connection_error e = false -> P ->
             _is_connection_error e = false /\ P) by tauto.
  unfold increment.
  assert (Hread :
    (if negb (_is_method_retryable r method) then inl (Reraised e)
     else if is_exhausted
               (with_counts r (dec (total r)) (connect r) (dec (read r))
                  (redirect r) (status r) (other r)
                  {| h_method := method; h_url := url; h_error := Some e;
                     h_status := None; h_redirect_location := None |})
          then inl (MaxRetryError url (Error e))
          else inr (with_counts r (dec (total r)) (connect r) (dec (read r))
                      (redirect r) (status r) (other r)
                      {| h_method := method; h_url := url; h_error := Some e;
                         h_status := None; h_redirect_location := None |}))
    = inr r' -> exists a', a = S a' /\ cloud_budget r' a' b).
  { destruct (negb (_is_method_retryable r method)); [done|].
    rewrite (cloud_exhausted r a b _ _ _ _ Hb), Hc, Hrd, Hst. simpl dec.
    rewrite negative_pred, negative_of_nat.
    destruct a as [|a']; simpl; [done|].
    intros [= <-]. exists a'. split; [done|].
    constructor; simpl; try done.
    - by rewrite Ht.
    - f_equal. lia. }
  destruct e; try done; simpl _is_connection_error; simpl _is_read_error;
    cbv iota; cbv zeta;
    try (intros Hinc; split; [done | exact (Hread Hinc)]).
  - rewrite (cloud_exhausted r a b _ _ _ _ Hb), Hc, Hrd, Hst. simpl dec.
    by rewrite negative_of_nat.
  - rewrite (cloud_exhausted r a b _ _ _ _ Hb), Hc, Hrd, Hst. simpl dec.
    by rewrite negative_of_nat.
Qed.

(** A failure of the [other] kind is counted against no budget the
    policy has. *)
Lemma cloud_increment_other (r : Retry) (a b : nat) (method url : string) :
  cloud_budget r a b ->
  exists r', increment r method url None (Some SSLError) = inr r'
             /\ cloud_budget r' a b.
Proof.
  intros Hb. pose proof Hb as [Ht Hc Hrd Hrdr Hst Ho Hl].
  unfold increment. simpl _is_connection_error. simpl _is_read_error.
  cbv iota. cbv zeta.
  replace (dec (other r)) with (other r) by (by rewrite Ho).
  rewrite (cloud_exhausted r a b _ _ _ _ Hb), Hc, Hrd, Hst.
  rewrite !negative_of_nat. simpl.
  eexists. split; [reflexivity|].
  constructor; simpl; try done. by rewrite Ht.
Qed.

Lemma transient_is_no_redirect (s : Z) :
  mem_Z s _TRANSIENT_FAILURE_RESPONSE_CODES = true ->
  mem_Z s REDIRECT_STATUSES = false /\ (s =? 0)%Z = false.
Proof.
  intros Hin. apply mem_Z_In in Hin. simpl in Hin.
  destruct Hin as [<-|[<-|[<-|[<-|[<-|[<-|[]]]]]]]; by split.
Qed.

(** A response the policy retries either raises or spends one status
    retry. *)
Lemma cloud_increment_status (r r' : Retry) (a b : nat) (method url : string)
    (resp : Response) (has : bool) :
  cloud_budget r a b ->
  is_retry r method (status_code resp) has = true ->
  increment r method url (Some resp) None = inr r' ->
  exists b', b = S b' /\ cloud_budget r' a b'.
Proof.
  intros Hb. pose proof Hb as [Ht Hc Hrd Hrdr Hst Ho Hl].
  unfold is_retry. rewrite Hl, Ht. simpl truthy_count. simpl andb.
  destruct (negb (_is_method_retryable r method)); [done|].
  destruct (mem_Z (status_code resp) _TRANSIENT_FAILURE_RESPONSE_CODES) eqn:Hin;
    [|done].
  intros _. destruct (transient_is_no_redirect _ Hin) as [Hnr Hnz].
  unfold increment, get_redirect_location. rewrite Hnr, Hnz.
  simpl Py.truthy. cbv iota. simpl negb. cbv iota. cbv zeta.
  rewrite (cloud_exhausted r a b _ _ _ _ Hb), Hc, Hrd, Hst. simpl dec.
  rewrite negative_pred, !negative_of_nat.
  destruct b as [|b']; simpl; [done|].
  intros [= <-]. exists b'. split; [done|].
  constructor; simpl; try done.
  - by rewrite Ht.
  - f_equal. lia.
Qed.

End CloudBudget.

Section CloudLoop.

Import urllib3 RetryFacts.

Variables (srv : Server) (rq : Request) (url : string).



(** No more than [a + b + 1] requests leave under a policy with [a] read
    and [b] status retries left, when no failure is of the [other] kind. *)
Lemma urlopen_cloud_bound (fuel : nat) :
  forall (a b : nat) (r : Retry) (n n' : Net) (x : pool_exn + Response),
    cloud_budget r a b ->
    (forall i, srv rq i <> Fails SSLError) ->
    urlopen fuel srv rq url r n = Some (n', x) ->
    exists j, (j <= a + b)%nat
              /\ sent n' = (sent n ++ replicate (S j) rq)%list.
Proof.
  induction fuel as [|fuel IH]; intros a b r n n' x Hb Hssl; [discriminate|].
  rewrite urlopen_unfold.
  assert (Hstop : forall y : pool_exn + Response,
             Some (log_sent rq n, y) = Some (n', x) ->
             exists j, (j <= a + b)%nat
                       /\ sent n' = (sent n ++ replicate (S j) rq)%list).
  { intros y [= <- _]. exists 0%nat. split; [lia|]. reflexivity. }
  assert (Hmore : forall a' b' r' resp,
             (S (a' + b') <= a + b)%nat -> cloud_budget r' a' b' ->
             urlopen fuel srv rq url r' (sleep r' resp (log_sent rq n))
             = Some (n', x) ->
             exists j, (j <= a + b)%nat
                       /\ sent n' = (sent n ++ replicate (S j) rq)%list).
  { intros a' b' r' resp Hlt Hb' Hrun.
    apply (IH a' b' r' _ n' x Hb' Hssl) in Hrun as (j & Hj & Hsent).
    exists (S j). split; [lia|].
    rewrite Hsent, sleep_sent. simpl. by rewrite <- app_assoc. }
  pose proof (Hssl (length (sent n))) as Hhere.
  destruct (srv rq (length (sent n))) as [e|resp].
  - destruct (increment _ _ _ _ _) as [y|r'] eqn:Hinc; [apply Hstop|].
    apply (cloud_increment_error r r' a b) in Hinc as (_ & a' & -> & Hb');
      [|done|congruence].
    apply (Hmore a' b r' None); [lia | done].
  - destruct (is_retry _ _ _ _) eqn:Hretry; [|apply Hstop].
    destruct (increment _ _ _ _ _) as [y|r'] eqn:Hinc.
    + destruct (raise_on_status r); apply Hstop.
    + apply (cloud_increment_status r r' a b _ _ _ _ Hb Hretry) in Hinc
        as (b' & -> & Hb').
      apply (Hmore a b' r' (Some resp)); [lia | done].
Qed.

(** ... and the loop ends within that many exchanges. *)
Lemma urlopen_cloud_total (fuel : nat) :
  forall (a b : nat) (r : Retry) (n : Net),
    cloud_budget r a b ->
    (forall i, srv rq i <> Fails SSLError) ->
    (a + b < fuel)%nat ->
    exists n' x, urlopen fuel srv rq url r n = Some (n', x).
Proof.
  induction fuel as [|fuel IH]; intros a b r n Hb Hssl Hfuel; [lia|].
  rewrite urlopen_unfold.
  pose proof (Hssl (length (sent n))) as Hhere.
  destruct (srv rq (length (sent n))) as [e|resp].
  - destruct (increment _ _ _ _ _) as [y|r'] eqn:Hinc; [by eauto|].
    apply (cloud_increment_error r r' a b) in Hinc as (_ & a' & -> & Hb');
      [|done|congruence].
    apply (IH a' b); [done | done | lia].
  - destruct (is_retry _ _ _ _) eqn:Hretry; [|by eauto].
    destruct (increment _ _ _ _ _) as [y|r'] eqn:Hinc.
    + destruct (raise_on_status r); by eauto.
    + apply (cloud_increment_status r r' a b _ _ _ _ Hb Hretry) in Hinc
        as (b' & -> & Hb').
      apply (IH a b'); [done | done | lia].
Qed.

(** Against failures of the [other] kind alone the loop has no end. *)
Lemma urlopen_cloud_other (fuel : nat) :
  forall (a b : nat) (r : Retry) (n : Net),
    cloud_budget r a b ->
    (forall i, srv rq i = Fails SSLError) ->
    urlopen fuel srv rq url r n = None.
Proof.
  induction fuel as [|fuel IH]; intros a b r n Hb Hssl; [done|].
  rewrite urlopen_unfold, Hssl.
  destruct (cloud_increment_other r a b (req_method rq) url Hb)
    as (r' & -> & Hb').
  by apply (IH a b).
Qed.

End CloudLoop.





(** ** Backoff in the default transport *)

(** A backoff factor of [0] turns every pause off. *)
Lemma zero_backoff_factor_never_pauses (j : nat) : pause_after 0 j = 0%Q.
Proof.
  unfold pause_after, backoff_after.
  destruct (j <=? 1)%nat; [reflexivity|]. cbv zeta.
  assert (Hcap : Qle_bool 120 (0 * inject_Z (2 ^ (Z.of_nat j - 1))) = false).
  { apply not_true_iff_false. rewrite Qle_bool_iff, Qmult_0_l.
    unfold Qle. simpl. lia. }
  rewrite Hcap.
  destruct (Qle_bool _ 0) eqn:Hle; [reflexivity|].
  exfalso. apply not_true_iff_false in Hle. apply Hle.
  apply Qle_bool_iff. rewrite Qmult_0_l. apply Qle_refl.
Qed.

(** The pauses of a default-transport call whose budget is used up by
    transient statuses: none before the first retry, then the factor
    doubled from retry to retry and capped at 120 seconds. *)
Lemma default_transport_pauses (srv : Server) (rq : Request) (url : string)
    (fuel : nat) (max_retries : Z) (backoff_factor : Q) (retry_codes : list Z) :
  0 <= max_retries ->
  urllib3._is_method_retryable
    (default_retry max_retries backoff_factor retry_codes) (req_method rq) = true ->
  (forall i, (i <= Z.to_nat max_retries)%nat ->
     exists resp, srv rq i = Replies resp
                  /\ transient (default_retry max_retries backoff_factor retry_codes) resp) ->
  (Z.to_nat max_retries < fuel)%nat ->
  exists net cause,
    urllib3.urlopen fuel srv rq url
      (default_retry max_retries backoff_factor retry_codes) net0
    = Some (net, inl (MaxRetryError url (ResponseError cause)))
    /\ slept net
       = List.map (pause_after backoff_factor) (seq 1 (Z.to_nat max_retries)).
Proof.
  intros Hmr Hm Hsrv Hfuel.
  destruct (urlopen_status_run srv rq url (Z.to_nat max_retries) fuel
              (default_retry max_retries backoff_factor retry_codes) net0)
    as (net & cause & Hrun & _ & Hslept);
    try (simpl; rewrite ?Z2Nat.id by done; done || lia).
  by exists net, cause.
Qed.

(** C4. With [backoff_factor=5] the pauses before the three retries of a
    call that keeps receiving 500 are 0, 10 and 20 seconds, not the 5, 10
    and 20 of the claim and of the docstring: the first retry is fired at
    once. With [backoff_factor=100] they are 0, 120 and 120: a pause is
    capped at 120 seconds. *)
Theorem backoff_first_retry_is_immediate :
  (exists net e,
      http_request (H:=plain_collaborators) 4 (always 500)
        (creds_of_host "http://localhost:5000") "/api/2.0/mlflow/runs/get"
        3 5 [429; 500; 503] 10 (call_kwargs "GET" None None) net0
      = Some (net, inl e)
      /\ slept net = [0; 10; 20]%Q
      /\ ~ Forall2 Qeq (slept net) [5; 10; 20]%Q)
  /\ (exists net e,
        http_request (H:=plain_collaborators) 4 (always 500)
          (creds_of_host "http://localhost:5000") "/api/2.0/mlflow/runs/get"
          3 100 [429; 500; 503] 10 (call_kwargs "GET" None None) net0
        = Some (net, inl e)
        /\ slept net = [0; 120; 120]%Q).
Proof.
  split.
  - eexists _, _. split; [vm_compute; reflexivity|]. split; [reflexivity|].
    simpl. intros Hall. apply Forall2_cons in Hall as [H0 _]. discriminate H0.
  - eexists _, _. split; [vm_compute; reflexivity|]. reflexivity.
Qed.

(** ** call_endpoint *)

Section Dispatch.

Context {Message : Type} `{Collaborators Message}.

(** Whatever way [http_request] ends, what it put on the wire is nothing,
    or the request [wire_request] once or more and then the follow-ups of
    the redirects it was answered with, none when the server does not
    redirect. *)
Lemma http_request_log (fuel : nat) (srv : Server)
    (host_creds : MlflowHostCreds) (endpoint : string) (max_retries : Z)
    (backoff_factor : Q) (retry_codes : list Z) (timeout : Q)
    (kwargs : Kwargs) (method : string) (net net' : Net)
    (x : exn + Response) :
  let rq := wire_request host_creds endpoint timeout kwargs method in
  kw_method kwargs = Some method ->
  http_request fuel srv host_creds endpoint max_retries backoff_factor
    retry_codes timeout kwargs net = Some (net', x) ->
  net' = net
  \/ exists j tail,
       sent net' = (sent net ++ replicate (S j) rq ++ tail)%list
       /\ (never_redirects srv kwargs rq -> tail = []).
Proof.
  intros rq Hm.
  destruct (raised_before_try host_creds) as [e|] eqn:Hsetup.
  { rewrite (http_request_raised_before_try _ _ _ _ _ _ _ _ _ _ _ Hsetup).
    intros [= <- _]. by left. }
  rewrite (http_request_try _ _ _ _ _ _ _ _ _ _ Hsetup).
  unfold try_except.
  destruct (duplicate_keyword kwargs); [intros [= <- _]; by left|].
  unfold _get_http_response_with_retries.
  destruct (negb _); [intros [= <- _]; by left|].
  destruct (negb _); [intros [= <- _]; by left|].
  change (kw_method (transport_kwargs host_creds endpoint timeout kwargs))
    with (kw_method kwargs).
  rewrite Hm.
  change (kw_url (transport_kwargs host_creds endpoint timeout kwargs))
    with (Some (url_of host_creds endpoint)).
  cbv beta iota zeta.
  destruct (requests.request _ _ _ _ _ _ net) as [[n1 [e|resp]]|] eqn:Hreq;
    [| |discriminate]; intros [= <- _];
    exact (request_log fuel srv _ method (url_of host_creds endpoint)
             (popped (transport_kwargs host_creds endpoint timeout kwargs))
             net n1 _ Hreq).
Qed.

End Dispatch.

(** C9, as stated, fails: the verb is compared with the text [GET] as it
    is written. A call with the method [get] goes on the wire as a GET
    request that carries the payload as a JSON body and no query
    parameters. *)
Lemma call_endpoint_lowercase_get_counterexample :
  exists rq,
    call_endpoint (H:=plain_collaborators) 4
      (fun _ _ => Replies (plain_reply 200 "{}"))
      (creds_of_host "http://localhost:5000")
      "/api/2.0/mlflow/experiments/list" "get" (Some "[1]") tt net0
    = Some ({| sent := [rq]; slept := [] |}, inr tt)
    /\ req_method rq = "GET"
    /\ req_params rq = None
    /\ req_json rq = Some (Parsed (json.Array [json.Number "1"])).
Proof.
  eexists. split; [vm_compute; reflexivity|]. by repeat split.
Qed.

(** C9, amended. For a payload that is not empty, the request of
    [call_endpoint], which is the first it puts on the wire and the only
    one repeated when the server does not redirect, carries the parsed
    payload in [params] and no body when the method is the text [GET],
    and in [json] with no [params] for any other text, [get] included;
    when the request returns a response that passes verification and
    whose body parses, the message filled from it by [parse_dict] is
    returned; a failure of the request is passed on as it is, and the
    call always ends. *)
Theorem call_endpoint_dispatch
    {Message : Type} `{Collaborators Message}
    (fuel : nat) (srv : Server) (host_creds : MlflowHostCreds)
    (endpoint method body : string) (j : json.value)
    (response_proto : Message) :
  let run :=
    call_endpoint fuel srv host_creds endpoint method (Some body)
      response_proto net0 in
  let request :=
    http_request_default fuel srv host_creds endpoint
      (dispatch_kwargs method j) net0 in
  body <> "" ->
  json.loads body = Some j ->
  (exists rq,
      req_method rq = Py.upper method
      /\ (method = "GET" ->
          req_params rq = Some (Parsed j)
          /\ req_json rq = None /\ req_data rq = None)
      /\ (method <> "GET" ->
          req_json rq = Some (Parsed j)
          /\ req_params rq = None /\ req_data rq = None)
      /\ forall net x, run = Some (net, x) ->
           net = net0
           \/ exists k tail,
                sent net = (replicate (S k) rq ++ tail)%list
                /\ (never_redirects srv (dispatch_kwargs method j) rq ->
                    tail = []))
  /\ (forall net response js m,
        request = Some (net, inr response) ->
        verify_rest_response response endpoint = inr response ->
        json.loads (text response) = Some js ->
        parse_dict js response_proto = inr m ->
        run = Some (net, inr m))
  /\ (forall net e,
        request = Some (net, inl e) -> run = Some (net, inl e))
  /\ ((3 < fuel)%nat -> exists net x, run = Some (net, x)).
Proof.
  intros run request Hbody Hj.
  assert (Hrun : run = match request with
                       | Some (n', inr response) =>
                           match verify_rest_response response endpoint with
                           | inr response' =>
                               match json.loads (text response') with
                               | Some js_dict =>
                                   Some (n', parse_dict js_dict response_proto)
                               | None =>
                                   Some (n', inl (JSONDecodeError (text response')))
                               end
                           | inl e => Some (n', inl e)
                           end
                       | Some (n', inl e) => Some (n', inl e)
                       | None => None
                       end).
  { subst run request. unfold call_endpoint, dispatch_kwargs, bind, ret, lift, raise.
    destruct body as [|c body]; [done|].
    change (Py.str_truthy (String c body)) with true. cbv beta iota.
    rewrite Hj. cbv beta iota.
    destruct (String.eqb method "GET");
      (destruct (http_request_default _ _ _ _ _ _) as [[n' [e|response]]|];
       [reflexivity| |reflexivity];
       destruct (verify_rest_response response endpoint) as [e|response'];
       [reflexivity|];
       destruct (json.loads (text response')); reflexivity). }
  split; [|split; [|split]].
  - exists (wire_request host_creds endpoint 10 (dispatch_kwargs method j)
              method).
    split; [reflexivity|]. unfold dispatch_kwargs at 1 2 3 4 5 6.
    split; [by intros ->|]. split.
    + intros Hne. apply String.eqb_neq in Hne. by rewrite Hne.
    + intros net x Hx. rewrite Hrun in Hx.
      assert (Hkw : kw_method (dispatch_kwargs method j) = Some method)
        by (unfold dispatch_kwargs; destruct (String.eqb method "GET"); done).
      destruct request as [[n' y]|] eqn:Hreq; [|discriminate].
      subst request. unfold http_request_default in Hreq.
      apply (http_request_log _ _ _ _ _ _ _ _ _ method) in Hreq; [|done].
      assert (Hnet : net = n').
      { destruct y as [e|response]; [by injection Hx as <- _|].
        destruct (verify_rest_response response endpoint) as [e|response'];
          [by injection Hx as <- _|].
        destruct (json.loads (text response')); by injection Hx as <- _. }
      subst n'. exact Hreq.
  - intros net response js m Hreq Hv Hjs Hp.
    by rewrite Hrun, Hreq, Hv, Hjs, Hp.
  - intros net e Hreq. by rewrite Hrun, Hreq.
  - apply call_endpoint_total.
Qed.

Lemma call_endpoint_dispatch_witness :
  "{}" <> ""
  /\ json.loads "{}" = Some (json.Object [])
  /\ call_endpoint (H:=plain_collaborators) 4 (fun _ _ => Replies (plain_reply 200 "{}"))
       (creds_of_host "http://localhost:5000") "/api/2.0/mlflow/experiments/list"
       "GET" (Some "{}") tt net0
     = Some ({| sent :=
                  [wire_request (H:=plain_collaborators)
                     (creds_of_host "http://localhost:5000")
                     "/api/2.0/mlflow/experiments/list" 10
                     (call_kwargs "GET" (Some (Parsed (json.Object []))) None)
                     "GET"];
                slept := [] |},
             inr tt).
Proof.
  split; [discriminate|]. split; [vm_compute; reflexivity|].
  refine (proj1 (proj2 (call_endpoint_dispatch (H:=plain_collaborators) 4
                          (fun _ _ => Replies (plain_reply 200 "{}"))
                          (creds_of_host "http://localhost:5000")
                          "/api/2.0/mlflow/experiments/list" "GET" "{}"
                          (json.Object []) tt _ _))
            _ (plain_reply 200 "{}") (json.Object []) tt _ _ _ _);
    try discriminate; vm_compute; reflexivity.
Defined.

(** * Further properties *)

(** ** The verifier and its callers *)

(** What [verify_rest_response] lets through. *)
Lemma verify_rest_response_inr (response accepted : Response)
    (endpoint : string) :
  verify_rest_response response endpoint = inr accepted ->
  accepted = response
  /\ status_code response = 200
  /\ (Py.startswith endpoint _REST_API_PATH_PREFIX = true ->
      is_Some (json.loads (text response))).
Proof.
  unfold verify_rest_response, _can_parse_as_json.
  destruct (Z.eqb_spec (status_code response) 200) as [Hs|Hs]; simpl.
  - destruct (Py.startswith endpoint _REST_API_PATH_PREFIX);
      destruct (json.loads (text response)) as [j|]; simpl;
      try discriminate; intros [= <-]; (split; [done|]); (split; [done|]);
      (discriminate || eauto).
  - destruct (json.loads (text response)); discriminate.
Qed.

(** X1. [verify_rest_response] lets a response through exactly when its
    status is 200 and, on an endpoint under [/api/2.0], its body parses as
    JSON; what it lets through is the response itself. *)
Theorem verify_rest_response_accepts_iff
    (response accepted : Response) (endpoint : string) :
  verify_rest_response response endpoint = inr accepted
  <-> accepted = response
      /\ status_code response = 200
      /\ (Py.startswith endpoint _REST_API_PATH_PREFIX = true ->
          is_Some (json.loads (text response))).
Proof.
  split; [apply verify_rest_response_inr|].
  intros (-> & Hs & Hj).
  unfold verify_rest_response, _can_parse_as_json. rewrite Hs. simpl.
  destruct (Py.startswith endpoint _REST_API_PATH_PREFIX); [|done].
  by destruct (Hj eq_refl) as [j ->].
Qed.

Section Callers.

Context {Message : Type} `{Collaborators Message}.


(** X3. A payload that is not valid JSON stops [call_endpoint] with the
    decoder's error before anything is sent. *)
Theorem call_endpoint_rejects_bad_payload
    (fuel : nat) (srv : Server) (host_creds : MlflowHostCreds)
    (endpoint method body : string) (response_proto : Message) (net : Net) :
  body <> "" ->
  json.loads body = None ->
  call_endpoint fuel srv host_creds endpoint method (Some body)
    response_proto net
  = Some (net, inl (JSONDecodeError body)).
Proof.
  intros Hbody Hj. unfold call_endpoint, bind, raise.
  destruct body as [|c body]; [done|]. simpl Py.str_truthy. cbv iota.
  by rewrite Hj.
Qed.

(** The request [call_endpoint] makes for the payload [json_body]. *)
Lemma call_endpoint_unfold
    (fuel : nat) (srv : Server) (host_creds : MlflowHostCreds)
    (endpoint method : string) (json_body : option string)
    (response_proto : Message) (net net' : Net) (m : Message) :
  call_endpoint fuel srv host_creds endpoint method json_body
    response_proto net = Some (net', inr m) ->
  exists kwargs response js,
    kw_method kwargs = Some method
    /\ http_request_default fuel srv host_creds endpoint kwargs net
       = Some (net', inr response)
    /\ verify_rest_response response endpoint = inr response
    /\ json.loads (text response) = Some js
    /\ parse_dict js response_proto = inr m.
Proof.
  unfold call_endpoint.
  assert (Hgo : forall kwargs,
             kw_method kwargs = Some method ->
             (let* response :=
                http_request_default fuel srv host_creds endpoint kwargs in
              let* response := lift (verify_rest_response response endpoint) in
              match json.loads (text response) with
              | Some js_dict => lift (parse_dict js_dict response_proto)
              | None => raise (JSONDecodeError (text response))
              end) net = Some (net', inr m) ->
             exists kwargs response js,
               kw_method kwargs = Some method
               /\ http_request_default fuel srv host_creds endpoint kwargs net
                  = Some (net', inr response)
               /\ verify_rest_response response endpoint = inr response
               /\ json.loads (text response) = Some js
               /\ parse_dict js response_proto = inr m).
  { intros kwargs Hkw. unfold bind, lift, raise.
    destruct (http_request_default _ _ _ _ _ _) as [[n' [e|response]]|]
      eqn:Hreq; try discriminate.
    destruct (verify_rest_response response endpoint) as [e|response'] eqn:Hv;
      try discriminate.
    pose proof Hv as Hv'.
    apply verify_rest_response_inr in Hv' as (-> & _).
    destruct (json.loads (text response)) as [js|] eqn:Hjs; try discriminate.
    intros [= -> Hp]. by exists kwargs, response, js. }
  destruct json_body as [body|];
    [destruct (Py.str_truthy body);
       [destruct (json.loads body) as [j|]; [|discriminate]|]|];
    rewrite bind_ret;
    (destruct (String.eqb method "GET"); apply Hgo; reflexivity).
Qed.

(** X4. Whatever the payload, [call_endpoint] returns a message only when
    the response that came back had status 200, passed the verifier, had a
    body that parses as JSON, and [parse_dict] filled the message from it. *)
Theorem call_endpoint_returns_only_from_200
    (fuel : nat) (srv : Server) (host_creds : MlflowHostCreds)
    (endpoint method : string) (json_body : option string)
    (response_proto : Message) (net net' : Net) (m : Message) :
  call_endpoint fuel srv host_creds endpoint method json_body
    response_proto net = Some (net', inr m) ->
  exists kwargs response js,
    http_request_default fuel srv host_creds endpoint kwargs net
    = Some (net', inr response)
    /\ status_code response = 200
    /\ json.loads (text response) = Some js
    /\ parse_dict js response_proto = inr m.
Proof.
  intros Hrun.
  apply call_endpoint_unfold in Hrun
    as (kwargs & response & js & _ & Hreq & Hv & Hjs & Hp).
  apply verify_rest_response_inr in Hv as (_ & Hs & _).
  by exists kwargs, response, js.
Qed.

(** The log of a call through the rest of [call_endpoint] is the log of
    its [http_request]. *)
Lemma call_endpoint_tail_log
    (fuel : nat) (srv : Server) (host_creds : MlflowHostCreds)
    (endpoint method : string) (kwargs : Kwargs) (response_proto : Message)
    (net net' : Net) (x : exn + Message) :
  let rq := wire_request host_creds endpoint 10 kwargs method in
  kw_method kwargs = Some method ->
  (let* response :=
     http_request_default fuel srv host_creds endpoint kwargs in
   let* response := lift (verify_rest_response response endpoint) in
   match json.loads (text response) with
   | Some js_dict => lift (parse_dict js_dict response_proto)
   | None => raise (JSONDecodeError (text response))
   end) net = Some (net', x) ->
  net' = net
  \/ exists k tail,
       sent net' = (sent net ++ replicate (S k) rq ++ tail)%list
       /\ (never_redirects srv kwargs rq -> tail = []).
Proof.
  intros rq Hkw. unfold bind, lift, raise.
  destruct (http_request_default _ _ _ _ _ _) as [[n' [e|response]]|]
    eqn:Hreq; [| |discriminate];
    apply (http_request_log _ _ _ _ _ _ _ _ _ method) in Hreq;
    try done.
  - by intros [= <- _].
  - destruct (verify_rest_response response endpoint) as [e|response'];
      [by intros [= <- _]|].
    destruct (json.loads (text response')); by intros [= <- _].
Qed.

(** X5. A payload that is absent or empty is not decoded: [call_endpoint]
    hands it on as it is, in [params] for the method text [GET] and in
    [json] for any other. The request that carries it there is the first
    the call puts on the wire, and the only one it repeats when the server
    answers with no redirect for the session to follow ([call_endpoint]
    passes no [allow_redirects]). *)
Theorem call_endpoint_empty_payload_sent_as_is
    (fuel : nat) (srv : Server) (host_creds : MlflowHostCreds)
    (endpoint method : string) (json_body : option string)
    (response_proto : Message) (net net' : Net) (x : exn + Message) :
  json_body = None \/ json_body = Some "" ->
  call_endpoint fuel srv host_creds endpoint method json_body
    response_proto net = Some (net', x) ->
  exists rq,
    req_data rq = None
    /\ (method = "GET" ->
        req_params rq = option_map Raw json_body /\ req_json rq = None)
    /\ (method <> "GET" ->
        req_json rq = option_map Raw json_body /\ req_params rq = None)
    /\ (net' = net
        \/ exists k tail,
             sent net' = (sent net ++ replicate (S k) rq ++ tail)%list
             /\ (never_redirects srv no_kwargs rq -> tail = [])).
Proof.
  intros Hbody. unfold call_endpoint.
  assert (Hstart :
    match json_body with
    | Some s =>
        if Py.str_truthy s then
          match json.loads s with
          | Some j => ret (Some (Parsed j))
          | None => raise (JSONDecodeError s)
          end
        else ret (Some (Raw s))
    | None => ret None
    end = ret (option_map Raw json_body)).
  { by destruct Hbody as [-> | ->]. }
  rewrite Hstart, bind_ret.
  destruct (String.eqb_spec method "GET") as [Hget|Hother]; intros Hrun;
    apply (call_endpoint_tail_log _ _ _ _ method) in Hrun;
    try reflexivity; eexists; (split; [|split; [|split; [|exact Hrun]]]);
    simpl; done.
Qed.

End Callers.

Lemma call_endpoint_empty_payload_sent_as_is_witness :
  exists rq,
    req_data rq = None
    /\ ("POST" = "GET" ->
        req_params rq = option_map Raw (Some "") /\ req_json rq = None)
    /\ ("POST" <> "GET" ->
        req_json rq = option_map Raw (Some "") /\ req_params rq = None)
    /\ ({| sent :=
             [wire_request (H:=plain_collaborators)
                (creds_of_host "http://localhost:5000")
                "/api/2.0/mlflow/experiments/list" 10
                (call_kwargs "POST" None (Some (Raw ""))) "POST"];
           slept := [] |} = net0
        \/ exists k tail,
             [wire_request (H:=plain_collaborators)
                (creds_of_host "http://localhost:5000")
                "/api/2.0/mlflow/experiments/list" 10
                (call_kwargs "POST" None (Some (Raw ""))) "POST"]
             = (sent net0 ++ replicate (S k) rq ++ tail)%list
             /\ (never_redirects (fun _ _ => Replies (plain_reply 200 "{}"))
                   no_kwargs rq -> tail = [])).
Proof.
  apply (call_endpoint_empty_payload_sent_as_is (H:=plain_collaborators) 4
           (fun _ _ => Replies (plain_reply 200 "{}"))
           (creds_of_host "http://localhost:5000")
           "/api/2.0/mlflow/experiments/list" "POST" (Some "") tt net0
           {| sent :=
                [wire_request (H:=plain_collaborators)
                   (creds_of_host "http://localhost:5000")
                   "/api/2.0/mlflow/experiments/list" 10
                   (call_kwargs "POST" None (Some (Raw ""))) "POST"];
              slept := [] |}
           (inr tt)).
  - right. reflexivity.
  - vm_compute. reflexivity.
Defined.

Lemma call_endpoint_rejects_bad_payload_witness :
  "{" <> ""
  /\ json.loads "{" = None
  /\ call_endpoint (H:=plain_collaborators) 4 (always 200)
       (creds_of_host "http://localhost:5000") "/api/2.0/mlflow/runs/get"
       "GET" (Some "{") tt net0
     = Some (net0, inl (JSONDecodeError "{")).
Proof.
  assert (Hbody : "{" <> "") by discriminate.
  assert (Hj : json.loads "{" = None) by (vm_compute; reflexivity).
  split; [exact Hbody|]. split; [exact Hj|].
  exact (call_endpoint_rejects_bad_payload (H:=plain_collaborators) 4
           (always 200) (creds_of_host "http://localhost:5000")
           "/api/2.0/mlflow/runs/get" "GET" "{" tt net0 Hbody Hj).
Defined.

Lemma call_endpoint_returns_only_from_200_witness :
  exists kwargs response js,
    http_request_default (H:=plain_collaborators) 4
      (fun _ _ => Replies (plain_reply 200 "{}"))
      (creds_of_host "http://localhost:5000")
      "/api/2.0/mlflow/experiments/list" kwargs net0
    = Some ({| sent :=
                 [wire_request (H:=plain_collaborators)
                    (creds_of_host "http://localhost:5000")
                    "/api/2.0/mlflow/experiments/list" 10
                    (call_kwargs "GET" (Some (Parsed (json.Object []))) None)
                    "GET"];
               slept := [] |},
            inr response)
    /\ status_code response = 200
    /\ json.loads (text response) = Some js
    /\ parse_dict (Collaborators:=plain_collaborators) js tt = inr tt.
Proof.
  apply (call_endpoint_returns_only_from_200 (H:=plain_collaborators) 4
           (fun _ _ => Replies (plain_reply 200 "{}"))
           (creds_of_host "http://localhost:5000")
           "/api/2.0/mlflow/experiments/list" "GET" (Some "{}") tt net0).
  vm_compute. reflexivity.
Defined.

(** ** Headers, TLS settings and what stops a call before the wire *)

Section RequestSetup.

Context {Message : Type} `{Collaborators Message}.

(** X6. The headers of a call: the authorization of the credentials
    overrides an [Authorization] header of the registry, every other header
    of the registry is kept and overrides the default [User-Agent], and
    nothing else is added. *)
Theorem request_headers_merge (host_creds : MlflowHostCreds) :
  let headers := request_headers host_creds in
  (forall a, auth_str host_creds = Some a -> headers !! "Authorization" = Some a)
  /\ (auth_str host_creds = None ->
      headers !! "Authorization" = resolve_request_headers !! "Authorization")
  /\ (forall k v, k <> "Authorization" ->
        resolve_request_headers !! k = Some v -> headers !! k = Some v)
  /\ (resolve_request_headers !! "User-Agent" = None ->
      headers !! "User-Agent" = Some ("mlflow-python-client/" ++ __version__))
  /\ (forall k, k <> "Authorization" -> k <> "User-Agent" ->
        headers !! k = resolve_request_headers !! k).
Proof.
  intros headers. subst headers. unfold request_headers, _DEFAULT_HEADERS.
  assert (Hbase : forall k,
             (resolve_request_headers
              ∪ ({[ "User-Agent" := "mlflow-python-client/" ++ __version__ ]}
                 : gmap string string)) !! k
             = match resolve_request_headers !! k with
               | Some v => Some v
               | None => if decide (k = "User-Agent")
                         then Some ("mlflow-python-client/" ++ __version__)
                         else None
               end).
  { intros k. rewrite lookup_union.
    destruct (resolve_request_headers !! k) as [v|] eqn:Hk.
    - apply union_Some_l.
    - rewrite (left_id None _).
      destruct (decide (k = "User-Agent")) as [->|Hne].
      + by rewrite lookup_singleton_eq.
      + by rewrite lookup_singleton_ne. }
  assert (Hauth : forall a, auth_str host_creds = Some a -> Py.str_truthy a = true).
  { intros a. unfold auth_str.
    destruct (Py.truthy (username host_creds) && Py.truthy (password host_creds));
      [by intros [= <-]|].
    destruct (Py.truthy (token host_creds)); [by intros [= <-]|discriminate]. }
  destruct (auth_str host_creds) as [a|] eqn:Ha.
  - rewrite (Hauth a eq_refl). repeat split.
    + intros a' [= <-]. by rewrite lookup_insert_eq.
    + discriminate.
    + intros k v Hk Hv. rewrite lookup_insert_ne by done.
      by rewrite Hbase, Hv.
    + intros Hua. rewrite lookup_insert_ne by done.
      rewrite Hbase, Hua. by destruct (decide _).
    + intros k Hk Hk'. rewrite lookup_insert_ne by done.
      rewrite Hbase. destruct (resolve_request_headers !! k); [done|].
      by destruct (decide _).
  - repeat split.
    + discriminate.
    + intros _. rewrite Hbase.
      destruct (resolve_request_headers !! "Authorization"); [done|].
      by destruct (decide _).
    + intros k v Hk Hv. by rewrite Hbase, Hv.
    + intros Hua. rewrite Hbase, Hua. by destruct (decide _).
    + intros k Hk Hk'. rewrite Hbase.
      destruct (resolve_request_headers !! k); [done|].
      by destruct (decide _).
Qed.

End RequestSetup.

(** ** The footprint of the request loop *)

Section Footprint.

Import urllib3 RetryFacts.

Variables (srv : Server) (rq : Request) (url : string).

Lemma sleep_logs_one (r : Retry) (response : option Response) (n : Net) :
  exists p, slept (sleep r response n) = (slept n ++ [p])%list
            /\ ((0 <= p /\ p <= 120)%Q
                \/ exists resp, response = Some resp /\ retry_after resp = Some p).
Proof.
  assert (Hown : exists p,
             slept (_sleep_backoff r n) = (slept n ++ [p])%list
             /\ (0 <= p /\ p <= 120)%Q).
  { unfold _sleep_backoff.
    destruct (Qle_bool (get_backoff_time r) 0) eqn:Hle.
    - exists 0%Q. split; [done|]. split; [apply Qle_refl | discriminate].
    - exists (get_backoff_time r). split; [done|]. split.
      + apply Qlt_le_weak, Qnot_le_lt. intros Hc.
        apply Qle_bool_iff in Hc. congruence.
      + unfold get_backoff_time.
        destruct (consecutive_errors_len r <=? 1)%nat; [discriminate|].
        cbv zeta. destruct (Qle_bool DEFAULT_BACKOFF_MAX _) eqn:Hcap.
        * apply Qle_refl.
        * apply Qlt_le_weak, Qnot_le_lt. intros Hc.
          apply Qle_bool_iff in Hc. unfold DEFAULT_BACKOFF_MAX in Hcap.
          congruence. }
  destruct Hown as (p & Hp & Hrange).
  unfold sleep. destruct response as [resp|]; [|by exists p; eauto].
  destruct (respect_retry_after_header r); [|by exists p; eauto].
  destruct (retry_after resp) as [secs|] eqn:Hra; [|by exists p; eauto].
  destruct (Qeq_bool secs 0); [by exists p; eauto|].
  exists secs. split; [done|]. right. by exists resp.
Qed.

(** Whatever the policy, the loop sends one request over and over and
    pauses once before each retry. *)
Lemma urlopen_pauses (fuel : nat) :
  forall (r : Retry) (n n' : Net) (x : pool_exn + Response),
    urlopen fuel srv rq url r n = Some (n', x) ->
    exists j pauses,
      sent n' = (sent n ++ replicate (S j) rq)%list
      /\ slept n' = (slept n ++ pauses)%list
      /\ length pauses = j.
Proof.
  induction fuel as [|fuel IH]; intros r n n' x; [discriminate|].
  rewrite urlopen_unfold.
  assert (Hstop : forall y : pool_exn + Response,
             Some (log_sent rq n, y) = Some (n', x) ->
             exists j pauses,
               sent n' = (sent n ++ replicate (S j) rq)%list
               /\ slept n' = (slept n ++ pauses)%list
               /\ length pauses = j).
  { intros y [= <- _]. exists 0%nat, []. simpl. by rewrite app_nil_r. }
  assert (Hgo : forall response r',
             urlopen fuel srv rq url r' (sleep r' response (log_sent rq n))
             = Some (n', x) ->
             exists j pauses,
               sent n' = (sent n ++ replicate (S j) rq)%list
               /\ slept n' = (slept n ++ pauses)%list
               /\ length pauses = j).
  { intros response r' Hrun.
    destruct (IH r' _ n' x Hrun) as (j & pauses & Hsent & Hsl & Hlen).
    destruct (sleep_logs_one r' response (log_sent rq n)) as (p & Hp & _).
    exists (S j), (p :: pauses). split; [|split].
    - rewrite Hsent, sleep_sent. simpl. by rewrite <- app_assoc.
    - rewrite Hsl, Hp. simpl. by rewrite <- app_assoc.
    - simpl. by rewrite Hlen. }
  destruct (srv rq (length (sent n))) as [e|resp].
  - destruct (increment _ _ _ _ _) as [y|r']; [apply Hstop|apply Hgo].
  - destruct (is_retry _ _ _ _); [|apply Hstop].
    destruct (increment _ _ _ _ _) as [y|r'].
    + destruct (raise_on_status r); apply Hstop.
    + apply Hgo.
Qed.

Lemma continue_budget (r r' : Retry) (k : nat) (method : string)
    (o : outcome) :
  budget r (Z.of_nat k) ->
  increment_for r method url o = inr r' ->
  exists k', k = S k' /\ budget r' (Z.of_nat k').
Proof.
  intros Hb Hinc.
  destruct (increment_spends_budget r _ method url o Hb ltac:(lia))
    as [[x Hx]|(Hpos & r'' & Hr & Hb')]; [congruence|].
  rewrite Hinc in Hr. injection Hr as <-.
  destruct k as [|k']; [lia|]. exists k'. split; [done|].
  by replace (Z.of_nat (S k') - 1) with (Z.of_nat k') in Hb' by lia.
Qed.

(** Under a budget of [k] retries the loop puts one and the same request
    on the wire at most [k + 1] times, pauses once before each retry, and
    takes only pauses of its own or pauses the server asked for. *)
Lemma urlopen_footprint (fuel : nat) :
  forall (k : nat) (r : Retry) (n n' : Net) (x : pool_exn + Response),
    budget r (Z.of_nat k) ->
    urlopen fuel srv rq url r n = Some (n', x) ->
    exists j pauses,
      (j <= k)%nat
      /\ sent n' = (sent n ++ replicate (S j) rq)%list
      /\ slept n' = (slept n ++ pauses)%list
      /\ length pauses = j
      /\ Forall (own_or_server_pause srv rq) pauses.
Proof.
  induction fuel as [|fuel IH]; intros k r n n' x Hb; [discriminate|].
  rewrite urlopen_unfold.
  assert (Hstop : forall y : pool_exn + Response,
             Some (log_sent rq n, y) = Some (n', x) ->
             exists j pauses,
               (j <= k)%nat
               /\ sent n' = (sent n ++ replicate (S j) rq)%list
               /\ slept n' = (slept n ++ pauses)%list
               /\ length pauses = j
               /\ Forall (own_or_server_pause srv rq) pauses).
  { intros y [= <- _]. exists 0%nat, []. simpl.
    rewrite app_nil_r. repeat split; (done || lia || constructor). }
  assert (Hgo : forall o response r',
             srv rq (length (sent n)) = o ->
             (forall resp, response = Some resp -> o = Replies resp) ->
             increment_for r (req_method rq) url o = inr r' ->
             urlopen fuel srv rq url r' (sleep r' response (log_sent rq n))
             = Some (n', x) ->
             exists j pauses,
               (j <= k)%nat
               /\ sent n' = (sent n ++ replicate (S j) rq)%list
               /\ slept n' = (slept n ++ pauses)%list
               /\ length pauses = j
               /\ Forall (own_or_server_pause srv rq) pauses).
  { intros o response r' Ho Hresp Hinc Hrun.
    destruct (continue_budget r r' k _ o Hb Hinc) as (k' & -> & Hb').
    destruct (IH k' r' _ n' x Hb' Hrun) as (j & pauses & Hj & Hsent & Hsl & Hlen & Hall).
    destruct (sleep_logs_one r' response (log_sent rq n)) as (p & Hp & Hrange).
    exists (S j), (p :: pauses). split; [lia|]. split; [|split; [|split]].
    - rewrite Hsent, sleep_sent. simpl. by rewrite <- app_assoc.
    - rewrite Hsl, Hp. simpl. by rewrite <- app_assoc.
    - simpl. by rewrite Hlen.
    - constructor; [|done].
      destruct Hrange as [Hown|(resp & -> & Hra)]; [by left|].
      right. exists (length (sent n)), resp. split; [|done].
      rewrite Ho. by apply Hresp. }
  destruct (srv rq (length (sent n))) as [e|resp] eqn:Ho.
  - destruct (increment r (req_method rq) url None (Some e))
      as [y|r'] eqn:Hinc; [apply Hstop|].
    apply (Hgo (Fails e) None r'); done.
  - destruct (is_retry _ _ _ _); [|apply Hstop].
    destruct (increment r (req_method rq) url (Some resp) None)
      as [y|r'] eqn:Hinc.
    + destruct (raise_on_status r); apply Hstop.
    + apply (Hgo (Replies resp) (Some resp) r'); try done.
      by intros resp' [= <-].
Qed.


End Footprint.

(** ** The footprint of a session request *)

Section SessionFootprint.

Context {U : UrlHandling}.

Import RetryFacts.

Variables (fuel : nat) (srv : Server) (retry : urllib3.Retry) (k : nat).

(** The policy lets the loop repeat a request [k] times at most. *)
Hypothesis Hsend :
  forall (rq : Request) (n n' : Net) (y : pool_exn + Response),
    urllib3.urlopen fuel srv rq (request_url rq) retry n = Some (n', y) ->
    exists j pauses,
      (j <= k)%nat
      /\ sent n' = (sent n ++ replicate (S j) rq)%list
      /\ slept n' = (slept n ++ pauses)%list
      /\ length pauses = j.

Lemma send_footprint (rq : Request) (n n' : Net) (x : exn + Response) :
  requests.send fuel srv (requests.RetryAdapter retry) rq n = Some (n', x) ->
  exists j pauses,
    (j <= k)%nat
    /\ sent n' = (sent n ++ replicate (S j) rq)%list
    /\ slept n' = (slept n ++ pauses)%list
    /\ length pauses = j.
Proof.
  unfold requests.send.
  destruct (urllib3.urlopen _ _ _ _ _ _) as [[n1 [y|resp]]|] eqn:Hrun;
    [| |discriminate]; intros [= <- _]; by apply Hsend in Hrun.
Qed.

(** Following redirects sends at most [k + 1] requests for each of the
    [hops] redirects it may follow, pauses less often than it sends, and
    keeps the TLS settings of the request it started from. *)
Lemma resolve_redirects_footprint (hops : nat) :
  forall (rq : Request) (resp : Response) (n n' : Net) (x : exn + Response),
    requests.resolve_redirects hops fuel srv (session_with retry) rq resp n
    = Some (n', x) ->
    exists new pauses,
      sent n' = (sent n ++ new)%list
      /\ slept n' = (slept n ++ pauses)%list
      /\ (length new <= hops * S k)%nat
      /\ (length pauses <= length new)%nat
      /\ Forall (fun r => req_verify r = req_verify rq
                          /\ req_cert r = req_cert rq) new.
Proof.
  assert (Hnothing : forall (bound : nat) (rq : Request) (n n' : Net)
                            (y x : exn + Response),
             Some (n, y) = Some (n', x) ->
             exists new pauses,
               sent n' = (sent n ++ new)%list
               /\ slept n' = (slept n ++ pauses)%list
               /\ (length new <= bound)%nat
               /\ (length pauses <= length new)%nat
               /\ Forall (fun r => req_verify r = req_verify rq
                                   /\ req_cert r = req_cert rq) new).
  { intros bound rq n n' y x [= <- _]. exists [], [].
    rewrite !app_nil_r. repeat split; simpl; (done || lia || constructor). }
  induction hops as [|hops IH]; intros rq resp n n' x; simpl;
    destruct (requests.get_redirect_target resp) as [target|];
    try (intros Hend; exact (Hnothing _ _ _ _ _ _ Hend)).
  rewrite get_adapter_session_with.
  destruct (http_prefixed _);
    [|intros Hend; exact (Hnothing _ _ _ _ _ _ Hend)].
  unfold bind.
  destruct (requests.send _ _ _ _ n) as [[n1 [e|resp']]|] eqn:Hsnd;
    [| |discriminate];
    apply send_footprint in Hsnd as (j & pauses & Hj & Hsent & Hsl & Hlen).
  - intros [= <- _]. exists (replicate (S j) (requests.redirected rq resp target)), pauses.
    split; [done|]. split; [done|].
    rewrite length_replicate. split; [nia|]. split; [lia|].
    by apply Forall_replicate.
  - intros Hrest.
    apply IH in Hrest as (new & pauses' & Hsent' & Hsl' & Hnew & Hp & Hall).
    exists (replicate (S j) (requests.redirected rq resp target) ++ new)%list,
           (pauses ++ pauses')%list.
    split; [by rewrite Hsent', Hsent, <- app_assoc|].
    split; [by rewrite Hsl', Hsl, <- app_assoc|].
    rewrite !length_app, length_replicate.
    split; [nia|]. split; [lia|].
    apply Forall_app. split; [by apply Forall_replicate|].
    eapply Forall_impl; [exact Hall|]. by intros r [-> ->].
Qed.

(** A session request sends at most [k + 1] requests for itself and for
    each of the thirty redirects it may follow. *)
Lemma request_footprint (method url : string) (kwargs : Kwargs)
    (n n' : Net) (x : exn + Response) :
  requests.request fuel srv (session_with retry) method url kwargs n
  = Some (n', x) ->
  exists new pauses,
    sent n' = (sent n ++ new)%list
    /\ slept n' = (slept n ++ pauses)%list
    /\ (length new <= S requests.DEFAULT_REDIRECT_LIMIT * S k)%nat
    /\ (length pauses <= length new)%nat
    /\ Forall (fun r => req_verify r = kw_verify kwargs
                        /\ req_cert r = kw_cert kwargs) new.
Proof.
  assert (Hnothing : forall (y : exn + Response),
             Some (n, y) = Some (n', x) ->
             exists new pauses,
               sent n' = (sent n ++ new)%list
               /\ slept n' = (slept n ++ pauses)%list
               /\ (length new <= S requests.DEFAULT_REDIRECT_LIMIT * S k)%nat
               /\ (length pauses <= length new)%nat
               /\ Forall (fun r => req_verify r = kw_verify kwargs
                                   /\ req_cert r = kw_cert kwargs) new).
  { intros y [= <- _]. exists [], [].
    rewrite !app_nil_r. repeat split; simpl; (done || lia || constructor). }
  unfold requests.request.
  destruct (_ || _); [apply Hnothing|].
  destruct (Py.is_not_None (kw_retry_attempts kwargs)); [apply Hnothing|].
  destruct (prepare_url url) as [e|prepared]; [apply Hnothing|].
  rewrite get_adapter_session_with.
  destruct (http_prefixed prepared); [|apply Hnothing].
  unfold bind.
  destruct (requests.send _ _ _ _ n) as [[n1 [e|resp]]|] eqn:Hsnd;
    [| |discriminate];
    apply send_footprint in Hsnd as (j & pauses & Hj & Hsent & Hsl & Hlen).
  - intros [= <- _]. eexists _, pauses.
    split; [exact Hsent|]. split; [done|].
    rewrite length_replicate. split; [nia|]. split; [lia|].
    by apply Forall_replicate.
  - unfold requests.follow.
    destruct (default true (kw_allow_redirects kwargs)).
    + intros Hrest.
      apply resolve_redirects_footprint in Hrest
        as (new & pauses' & Hsent' & Hsl' & Hnew & Hp & Hall).
      eexists (replicate (S j) _ ++ new)%list, (pauses ++ pauses')%list.
      split; [by rewrite Hsent', Hsent, <- app_assoc|].
      split; [by rewrite Hsl', Hsl, <- app_assoc|].
      rewrite !length_app, length_replicate.
      split; [nia|]. split; [lia|].
      apply Forall_app. split; [by apply Forall_replicate|exact Hall].
    + intros [= <- _]. eexists _, pauses.
      split; [exact Hsent|]. split; [done|].
      rewrite length_replicate. split; [nia|]. split; [lia|].
      by apply Forall_replicate.
Qed.

End SessionFootprint.

Section HttpRequestFootprint.

Context {Message : Type} `{Collaborators Message}.

Variables (fuel : nat) (srv : Server) (host_creds : MlflowHostCreds)
          (endpoint : string) (max_retries : Z) (backoff_factor : Q)
          (retry_codes : list Z) (timeout : Q) (kwargs : Kwargs)
          (method : string).

(** Whatever the server does, a call sends at most [max_retries + 1]
    requests for itself and for each of the thirty redirects it may
    follow, each with the TLS settings of the first. *)
Lemma http_request_requests (net net' : Net) (x : exn + Response) :
  let rq := wire_request host_creds endpoint timeout kwargs method in
  http_request fuel srv host_creds endpoint max_retries backoff_factor
    retry_codes timeout kwargs net = Some (net', x) ->
  exists new pauses,
    sent net' = (sent net ++ new)%list
    /\ slept net' = (slept net ++ pauses)%list
    /\ (length new <= 31 * (Z.to_nat max_retries + 1))%nat
    /\ (length pauses <= length new)%nat
    /\ Forall (fun r => req_verify r = req_verify rq
                        /\ req_cert r = req_cert rq) new.
Proof.
  intros rq.
  assert (Hnothing : forall (y : exn + Response),
             Some (net, y) = Some (net', x) ->
             exists new pauses,
               sent net' = (sent net ++ new)%list
               /\ slept net' = (slept net ++ pauses)%list
               /\ (length new <= 31 * (Z.to_nat max_retries + 1))%nat
               /\ (length pauses <= length new)%nat
               /\ Forall (fun r => req_verify r = req_verify rq
                                   /\ req_cert r = req_cert rq) new).
  { intros y [= <- _]. exists [], [].
    rewrite !app_nil_r. repeat split; simpl; (done || lia || constructor). }
  destruct (raised_before_try host_creds) as [e|] eqn:Hsetup.
  { rewrite (http_request_raised_before_try _ _ _ _ _ _ _ _ _ _ _ Hsetup).
    apply Hnothing. }
  rewrite (http_request_try _ _ _ _ _ _ _ _ _ _ Hsetup).
  unfold try_except.
  destruct (duplicate_keyword kwargs); [apply Hnothing|].
  unfold _get_http_response_with_retries.
  destruct ((0 <=? max_retries)%Z && (max_retries <? 10)%Z) eqn:Hz;
    [|apply Hnothing].
  destruct (negb (Qle_bool 0 backoff_factor && _)); [apply Hnothing|].
  change (kw_method (transport_kwargs host_creds endpoint timeout kwargs))
    with (kw_method kwargs).
  cbv beta iota zeta.
  destruct (kw_method kwargs) as [m|]; [|apply Hnothing].
  change (kw_url (transport_kwargs host_creds endpoint timeout kwargs))
    with (Some (url_of host_creds endpoint)).
  cbv beta iota zeta delta [negb].
  apply andb_true_iff in Hz as [Hz _]. apply Z.leb_le in Hz.
  assert (Hsend :
    forall (rq : Request) (n n' : Net) (y : pool_exn + Response),
      urllib3.urlopen fuel srv rq (request_url rq)
        (default_retry max_retries backoff_factor retry_codes) n
      = Some (n', y) ->
      exists j pauses,
        (j <= Z.to_nat max_retries)%nat
        /\ sent n' = (sent n ++ replicate (S j) rq)%list
        /\ slept n' = (slept n ++ pauses)%list
        /\ length pauses = j).
  { intros rq' n n' y Hrun.
    apply (urlopen_footprint srv rq' _ fuel (Z.to_nat max_retries)) in Hrun
      as (j & pauses & Hj & Hsent & Hsl & Hlen & _).
    - by exists j, pauses.
    - rewrite Z2Nat.id by done. apply default_retry_budget. }
  destruct (requests.request _ _ _ _ _ _ net) as [[n1 [e|resp]]|] eqn:Hreq;
    [| |discriminate]; intros [= <- _];
    apply (request_footprint fuel srv _ _ Hsend) in Hreq
      as (new & pauses & Hsent & Hsl & Hnew & Hp & Hall);
    exists new, pauses; repeat split; try done;
    unfold requests.DEFAULT_REDIRECT_LIMIT in Hnew; lia.
Qed.

Hypothesis Hmethod : kw_method kwargs = Some method.

(** When the server answers with no redirect that the session follows, a
    call either ends before the wire, or its requests are those of the
    request loop under the default policy. *)
Lemma http_request_cases (net net' : Net) (x : exn + Response) :
  let rq := wire_request host_creds endpoint timeout kwargs method in
  never_redirects srv kwargs rq ->
  http_request fuel srv host_creds endpoint max_retries backoff_factor
    retry_codes timeout kwargs net = Some (net', x) ->
  net' = net
  \/ (0 <= max_retries
      /\ exists y,
           urllib3.urlopen fuel srv rq (request_url rq)
             (default_retry max_retries backoff_factor retry_codes) net
           = Some (net', y)).
Proof.
  intros rq Hnever.
  destruct (raised_before_try host_creds) as [e|] eqn:Hsetup.
  { rewrite (http_request_raised_before_try _ _ _ _ _ _ _ _ _ _ _ Hsetup).
    intros [= <- _]. by left. }
  rewrite (http_request_try _ _ _ _ _ _ _ _ _ _ Hsetup).
  unfold try_except.
  destruct (duplicate_keyword kwargs); [intros [= <- _]; by left|].
  unfold _get_http_response_with_retries.
  destruct ((0 <=? max_retries)%Z && (max_retries <? 10)%Z) eqn:Hz;
    [|intros [= <- _]; by left].
  destruct (negb (Qle_bool 0 backoff_factor && _));
    [intros [= <- _]; by left|].
  change (kw_method (transport_kwargs host_creds endpoint timeout kwargs))
    with (kw_method kwargs).
  rewrite Hmethod.
  change (kw_url (transport_kwargs host_creds endpoint timeout kwargs))
    with (Some (url_of host_creds endpoint)).
  cbv beta iota zeta delta [negb].
  apply andb_true_iff in Hz as [Hz _]. apply Z.leb_le in Hz.
  unfold requests.request.
  destruct (_ || _); [intros [= <- _]; by left|].
  destruct (Py.is_not_None _); [intros [= <- _]; by left|].
  destruct (prepare_url _) as [e|prepared]; [intros [= <- _]; by left|].
  rewrite get_adapter_session_with.
  destruct (http_prefixed prepared); [|intros [= <- _]; by left].
  unfold bind, requests.send.
  change (urllib3.urlopen fuel srv _ _ _ net)
    with (urllib3.urlopen fuel srv rq (request_url rq)
            (default_retry max_retries backoff_factor retry_codes) net).
  destruct (urllib3.urlopen _ _ _ _ _ _) as [[n1 [y|resp]]|] eqn:Hrun;
    [| |discriminate].
  - intros [= <- _]. right. eauto.
  - pose proof (urlopen_response _ _ _ _ _ _ _ _ Hrun) as [i Hi].
    rewrite follow_returns by exact (Hnever i resp Hi).
    intros [= <- _]. right. eauto.
Qed.

End HttpRequestFootprint.

(** X7. For credentials that went through the constructor, every request
    of a call, the follow-ups of redirects included, carries one
    consistent TLS setting: verification is switched off exactly when
    [ignore_tls_verification] is set, a server certificate path is used as
    the CA bundle whenever one is given, and the client certificate of the
    credentials replaces a [cert] keyword of the caller. *)
Theorem constructed_credentials_tls_on_the_wire
    {Message : Type} `{Collaborators Message}
    (h : string) (u p t : option string) (ignore : bool)
    (client_cert server_cert : option string) (c : MlflowHostCreds)
    (fuel : nat) (srv : Server) (endpoint : string) (max_retries : Z)
    (backoff_factor : Q) (retry_codes : list Z) (timeout : Q)
    (kwargs : Kwargs) (net net' : Net) (x : exn + Response) :
  MlflowHostCreds_new h u p t ignore client_cert server_cert = inr c ->
  http_request fuel srv c endpoint max_retries backoff_factor retry_codes
    timeout kwargs net = Some (net', x) ->
  exists new,
    sent net' = (sent net ++ new)%list
    /\ forall rq, In rq new ->
         (req_verify rq = Some (VerifyFlag false) <-> ignore = true)
         /\ (forall path, req_verify rq = Some (VerifyBundle path)
                          <-> server_cert = Some path)
         /\ (forall path, client_cert = Some path -> req_cert rq = Some path)
         /\ (client_cert = None -> req_cert rq = kw_cert kwargs).
Proof.
  intros Hnew Hrun.
  apply (http_request_requests _ _ _ _ _ _ _ _ _ "") in Hrun
    as (new & pauses & Hsent & _ & _ & _ & Hall).
  exists new. split; [exact Hsent|]. intros rq Hin.
  rewrite List.Forall_forall in Hall. destruct (Hall rq Hin) as [Hv Hc].
  rewrite Hv, Hc. clear Hv Hc Hall Hin Hsent.
  unfold MlflowHostCreds_new, MlflowHostCreds__init__ in Hnew.
  destruct (negb (Py.str_truthy h)); [discriminate|].
  destruct ignore, server_cert as [sc|]; simpl in Hnew; try discriminate;
    injection Hnew as <-; simpl; unfold verify_of; simpl;
    (split; [split; (done || discriminate || by intros [= ?])|]);
    (split; [intros path; split; (done || discriminate || by intros [= ->])|]);
    (split; [by intros path ->|by intros ->]).
Qed.

Lemma constructed_credentials_tls_on_the_wire_witness :
  exists new,
    [wire_request (H:=plain_collaborators)
       {| host := "https://tracking.example"; username := None;
          password := None; token := None; ignore_tls_verification := true;
          client_cert_path := None; server_cert_path := None |}
       "/api/2.0/mlflow/runs/get" 10 (call_kwargs "GET" None None) "GET"]
    = (sent net0 ++ new)%list
    /\ forall rq, In rq new ->
         (req_verify rq = Some (VerifyFlag false) <-> true = true)
         /\ (forall path, req_verify rq = Some (VerifyBundle path)
                          <-> @None string = Some path)
         /\ (forall path, @None string = Some path -> req_cert rq = Some path)
         /\ (@None string = None
             -> req_cert rq = kw_cert (call_kwargs "GET" None None)).
Proof.
  apply (constructed_credentials_tls_on_the_wire (H:=plain_collaborators)
           "https://tracking.example" None None None true None None
           {| host := "https://tracking.example"; username := None;
              password := None; token := None; ignore_tls_verification := true;
              client_cert_path := None; server_cert_path := None |}
           4 (always 200) "/api/2.0/mlflow/runs/get" 3 5 [429; 500; 503] 10
           (call_kwargs "GET" None None) net0
           {| sent :=
                [wire_request (H:=plain_collaborators)
                   {| host := "https://tracking.example"; username := None;
                      password := None; token := None;
                      ignore_tls_verification := true;
                      client_cert_path := None; server_cert_path := None |}
                   "/api/2.0/mlflow/runs/get" 10 (call_kwargs "GET" None None)
                   "GET"];
              slept := [] |}
           (inr (plain_reply 200 "")));
    vm_compute; reflexivity.
Defined.

(** X8. A call that cannot be put on the wire sends nothing and ends in
    the wrapped exception of whatever stopped it, provided nothing was
    raised before the [try]: a keyword of the caller that the call passes
    itself ([url], [headers], [verify]) is the [TypeError] of the call
    expression, whatever the other arguments; otherwise, with the retry
    bounds met, a missing [method] keyword is a [KeyError], a URL that
    [requests] cannot prepare is its [MissingSchema] or [InvalidURL], and
    a prepared URL that is neither [http://] nor [https://] is the
    [InvalidSchema] of the session, which has an adapter for these two
    schemes only. *)
Theorem http_request_stops_before_the_wire
    {Message : Type} `{Collaborators Message}
    (fuel : nat) (srv : Server) (host_creds : MlflowHostCreds)
    (endpoint : string) (max_retries : Z) (backoff_factor : Q)
    (retry_codes : list Z) (timeout : Q) (kwargs : Kwargs) (net : Net) :
  let url := url_of host_creds endpoint in
  let run :=
    http_request fuel srv host_creds endpoint max_retries backoff_factor
      retry_codes timeout kwargs net in
  raised_before_try host_creds = None ->
  (duplicate_keyword kwargs = true ->
   exists message,
     run = Some (net, inl (failed_with url (TypeError message))))
  /\ (duplicate_keyword kwargs = false ->
      retry_bounds max_retries backoff_factor ->
      (kw_method kwargs = None ->
       run = Some (net, inl (failed_with url (KeyError "method"))))
      /\ (forall method,
            kw_method kwargs = Some method ->
            kw_retry_attempts kwargs = None ->
            (forall e,
               prepare_url url = inl e ->
               run = Some (net, inl (failed_with url (requests.url_exn e url))))
            /\ (forall prepared,
                  prepare_url url = inr prepared ->
                  http_prefixed prepared = false ->
                  run = Some (net,
                              inl (failed_with url (InvalidSchema prepared)))))).
Proof.
  intros url run Hsetup. subst run url.
  rewrite (http_request_try _ _ _ _ _ _ _ _ _ _ Hsetup).
  unfold try_except. split; [intros ->; by eexists|].
  intros -> Hb. unfold _get_http_response_with_retries.
  apply retry_bounds_checked in Hb as [-> ->]. simpl. split.
  - by intros ->.
  - intros method -> Hclean. unfold requests.request. simpl.
    rewrite Hclean. simpl. split.
    + by intros e ->.
    + intros prepared -> Hscheme.
      by rewrite get_adapter_session_with, Hscheme.
Qed.

Lemma http_request_stops_before_the_wire_witness :
  raised_before_try (H:=plain_collaborators) (creds_of_host "localhost") = None
  /\ retry_bounds 3 5
  /\ prepare_url (UrlHandling:=plain_urls)
       (url_of (creds_of_host "localhost") "/api/2.0/mlflow/runs/get")
     = inl NoSchemeSupplied
  /\ http_request (H:=plain_collaborators) 4 (always 200)
       (creds_of_host "localhost") "/api/2.0/mlflow/runs/get"
       3 5 [429; 500; 503] 10 (call_kwargs "GET" None None) net0
     = Some (net0,
             inl (failed_with (H:=plain_collaborators)
                    (url_of (creds_of_host "localhost")
                       "/api/2.0/mlflow/runs/get")
                    (MissingSchema
                       (url_of (creds_of_host "localhost")
                          "/api/2.0/mlflow/runs/get")))).
Proof.
  assert (Hin : retry_bounds 3 5).
  { unfold retry_bounds. repeat split; try lia; reflexivity || discriminate. }
  split; [reflexivity|]. split; [exact Hin|]. split; [reflexivity|].
  exact (proj1 (proj2 (proj2 (http_request_stops_before_the_wire
                                (H:=plain_collaborators) 4
                                (always 200) (creds_of_host "localhost")
                                "/api/2.0/mlflow/runs/get" 3 5 [429; 500; 503]
                                10 (call_kwargs "GET" None None) net0 eq_refl)
                               eq_refl Hin)
                        "GET" eq_refl eq_refl)
           NoSchemeSupplied eq_refl).
Defined.

(** X9. Whatever the server does, one call of [http_request] puts at most
    [max_retries + 1] requests on the wire for itself and for each of the
    thirty redirects its session may follow, and pauses no more often
    than it sends. When the server answers with no redirect that the
    session follows, the requests are at most [max_retries + 1] and all
    the same, there is exactly one pause between two attempts, and every
    pause is either one of the policy's own, between 0 and 120 seconds,
    or the [Retry-After] of a response of the server. *)
Theorem http_request_footprint
    {Message : Type} `{Collaborators Message}
    (fuel : nat) (srv : Server) (host_creds : MlflowHostCreds)
    (endpoint : string) (max_retries : Z) (backoff_factor : Q)
    (retry_codes : list Z) (timeout : Q) (kwargs : Kwargs) (method : string)
    (net net' : Net) (x : exn + Response) :
  let rq := wire_request host_creds endpoint timeout kwargs method in
  kw_method kwargs = Some method ->
  http_request fuel srv host_creds endpoint max_retries backoff_factor
    retry_codes timeout kwargs net = Some (net', x) ->
  (exists new pauses,
     sent net' = (sent net ++ new)%list
     /\ slept net' = (slept net ++ pauses)%list
     /\ (length new <= 31 * (Z.to_nat max_retries + 1))%nat
     /\ (length pauses <= length new)%nat)
  /\ (never_redirects srv kwargs rq ->
      exists attempts pauses,
        sent net' = (sent net ++ replicate attempts rq)%list
        /\ (attempts <= Z.to_nat max_retries + 1)%nat
        /\ slept net' = (slept net ++ pauses)%list
        /\ length pauses = pred attempts
        /\ Forall (own_or_server_pause srv rq) pauses).
Proof.
  intros rq Hm Hrun. split.
  - apply (http_request_requests _ _ _ _ _ _ _ _ _ method) in Hrun
      as (new & pauses & Hsent & Hsl & Hnew & Hp & _).
    by exists new, pauses.
  - intros Hnever.
    apply (http_request_cases _ _ _ _ _ _ _ _ _ method Hm _ _ _ Hnever)
      in Hrun as [->|(Hmr & y & Hrun)].
    + exists 0%nat, []. simpl. rewrite !app_nil_r.
      repeat split; (done || lia || constructor).
    + apply (urlopen_footprint srv rq _ fuel (Z.to_nat max_retries)) in Hrun
        as (j & pauses & Hj & Hsent & Hsl & Hlen & Hall).
      * exists (S j), pauses. repeat split; (done || lia).
      * rewrite Z2Nat.id by done. apply default_retry_budget.
Qed.

Lemma http_request_footprint_witness :
  (exists new pauses,
     replicate 4 runs_get_request = (sent net0 ++ new)%list
     /\ [0; 10; 20]%Q = (slept net0 ++ pauses)%list
     /\ (length new <= 31 * (Z.to_nat 3 + 1))%nat
     /\ (length pauses <= length new)%nat)
  /\ (never_redirects (always 500) (call_kwargs "GET" None None)
        runs_get_request ->
      exists attempts pauses,
        replicate 4 runs_get_request
        = (sent net0 ++ replicate attempts runs_get_request)%list
        /\ (attempts <= Z.to_nat 3 + 1)%nat
        /\ [0; 10; 20]%Q = (slept net0 ++ pauses)%list
        /\ length pauses = pred attempts
        /\ Forall (own_or_server_pause (always 500) runs_get_request) pauses).
Proof.
  apply (http_request_footprint (H:=plain_collaborators) 4 (always 500)
           (creds_of_host "http://localhost:5000") "/api/2.0/mlflow/runs/get"
           3 5 [429; 500; 503] 10 (call_kwargs "GET" None None) "GET" net0
           {| sent := replicate 4 runs_get_request; slept := [0; 10; 20]%Q |}
           (inl (MlflowException
                   ("API request to http://localhost:5000/api/2.0/mlflow/runs/get"
                    ++ " failed with exception error")
                   None)));
    vm_compute; reflexivity.
Defined.



(** ** More on the cloud-storage transport *)

Lemma cloud_verb_lower (method method' : string) :
  Py.lower method = Py.lower method' -> cloud_verb method = cloud_verb method'.
Proof. unfold cloud_verb. by intros ->. Qed.

(** X11. [cloud_storage_http_request] goes by the lower-cased verb alone:
    anything but [put] and [get] is a [ValueError] with nothing sent, and
    two spellings of [put] or [get] that differ in case only give the same
    transfer. *)
Theorem cloud_storage_verb_handling
    {U : UrlHandling} (fuel : nat) (srv : Server) (method method' url : string)
    (kwargs : Kwargs) (net : Net) :
  (cloud_verb method = None ->
   cloud_storage_http_request fuel srv method url kwargs net
   = Some (net, inl (ValueError ("Illegal http method: " ++ method))))
  /\ (cloud_verb method <> None ->
      Py.lower method = Py.lower method' ->
      cloud_storage_http_request fuel srv method url kwargs net
      = cloud_storage_http_request fuel srv method' url kwargs net).
Proof.
  unfold cloud_verb, cloud_storage_http_request. split.
  - destruct (String.eqb (Py.lower method) "put"); [discriminate|].
    destruct (String.eqb (Py.lower method) "get"); [discriminate|]. done.
  - intros Hlegal <-.
    destruct (String.eqb (Py.lower method) "put"); [done|].
    destruct (String.eqb (Py.lower method) "get"); done.
Qed.

Lemma cloud_storage_verb_handling_witness :
  cloud_verb "Put" <> None
  /\ Py.lower "Put" = Py.lower "PUT"
  /\ cloud_verb "post" = None
  /\ cloud_storage_http_request (U:=plain_urls) 7 (always 200) "Put"
       "https://bucket.example/blob" no_kwargs net0
     = cloud_storage_http_request (U:=plain_urls) 7 (always 200) "PUT"
         "https://bucket.example/blob" no_kwargs net0
  /\ cloud_storage_http_request (U:=plain_urls) 7 (always 200) "post"
       "https://bucket.example/blob" no_kwargs net0
     = Some (net0, inl (ValueError "Illegal http method: post")).
Proof.
  assert (Hlegal : cloud_verb "Put" <> None) by discriminate.
  split; [exact Hlegal|]. split; [reflexivity|]. split; [reflexivity|].
  split.
  - exact (proj2 (cloud_storage_verb_handling (U:=plain_urls) 7 (always 200)
                    "Put" "PUT"
                    "https://bucket.example/blob" no_kwargs net0)
             Hlegal eq_refl).
  - exact (proj1 (cloud_storage_verb_handling (U:=plain_urls) 7 (always 200)
                    "post" "post"
                    "https://bucket.example/blob" no_kwargs net0)
             eq_refl).
Defined.

(** X12. A caller who sets [retry_attempts] gets no transfer at all: the
    keyword is read with [kwargs.get], stays among the keywords handed to
    [Session.put] or [Session.get], and the call ends in a [TypeError]
    with nothing sent. *)
Theorem cloud_storage_retry_attempts_is_rejected
    {U : UrlHandling} (fuel : nat) (srv : Server) (method url : string)
    (kwargs : Kwargs)
    (net : Net) (retry_attempts : Z) :
  cloud_verb method <> None ->
  kw_retry_attempts kwargs = Some retry_attempts ->
  exists message,
    cloud_storage_http_request fuel srv method url kwargs net
    = Some (net, inl (TypeError message)).
Proof.
  unfold cloud_verb, cloud_storage_http_request, requests.put, requests.get,
    requests.request.
  intros Hlegal ->. simpl.
  destruct (String.eqb (Py.lower method) "put");
    [|destruct (String.eqb (Py.lower method) "get"); [|done]];
    destruct (Py.is_not_None (kw_method kwargs) || Py.is_not_None (kw_url kwargs));
    by eexists.
Qed.

Lemma cloud_storage_retry_attempts_is_rejected_witness :
  cloud_verb "get" <> None
  /\ exists message,
       cloud_storage_http_request (U:=plain_urls) 7 (always 200) "get"
         "https://bucket.example/blob"
         {| kw_method := None; kw_url := None; kw_headers := None;
            kw_params := None; kw_data := None; kw_json := None;
            kw_verify := None; kw_cert := None; kw_timeout := None;
            kw_allow_redirects := None; kw_retry_attempts := Some 2 |} net0
       = Some (net0, inl (TypeError message)).
Proof.
  assert (Hlegal : cloud_verb "get" <> None) by discriminate.
  split; [exact Hlegal|].
  exact (cloud_storage_retry_attempts_is_rejected (U:=plain_urls) 7
           (always 200) "get"
           "https://bucket.example/blob"
           {| kw_method := None; kw_url := None; kw_headers := None;
              kw_params := None; kw_data := None; kw_json := None;
              kw_verify := None; kw_cert := None; kw_timeout := None;
              kw_allow_redirects := None; kw_retry_attempts := Some 2 |}
           net0 2 Hlegal eq_refl).
Defined.


(** X13. A transfer with [retry_attempts] left at its default ends as
    long as no exchange fails for a reason that is neither a connection
    nor a read failure. When the server answers with no redirect that the
    session follows, it puts between one and seven requests on the wire,
    all of them the same [cloud_request]: the one read retry and the five
    status retries are all there is to spend. With redirects, each of the
    thirty the session may follow has these seven again. *)
Theorem cloud_storage_transfer_is_bounded
    {U : UrlHandling} (fuel : nat) (srv : Server) (method verb url : string)
    (kwargs : Kwargs) (net : Net) :
  let rq := cloud_request verb url kwargs in
  let run := cloud_storage_http_request fuel srv method url kwargs net in
  cloud_verb method = Some verb ->
  kw_method kwargs = None ->
  kw_url kwargs = None ->
  kw_retry_attempts kwargs = None ->
  has_http_scheme url = true ->
  (7 <= fuel)%nat ->
  ((forall i, srv rq i <> Fails SSLError) ->
   never_redirects srv kwargs rq ->
   exists net' x k,
     run = Some (net', x)
     /\ (1 <= k <= 7)%nat
     /\ sent net' = (sent net ++ replicate k rq)%list)
  /\ ((forall rq' i, srv rq' i <> Fails SSLError) ->
      exists net' x k tail,
        run = Some (net', x)
        /\ (1 <= k <= 7)%nat
        /\ sent net' = (sent net ++ replicate k rq ++ tail)%list
        /\ (length tail <= 30 * 7)%nat).
Proof.
  intros rq run Hverb Hm Hu Hd Hs Hfuel. subst run. split.
  - intros Hssl Hnever.
    rewrite (cloud_storage_runs_loop_only fuel srv method verb url kwargs
               Hverb Hm Hu Hd Hs net Hnever).
    fold rq.
    destruct (urlopen_cloud_total srv rq (request_url rq) fuel 1 5
                (retry_strategy 5) net cloud_budget_initial Hssl
                ltac:(simpl; lia)) as (n' & y & Hrun).
    rewrite Hrun.
    destruct (urlopen_cloud_bound srv rq (request_url rq) fuel 1 5
                (retry_strategy 5) net n' y cloud_budget_initial Hssl Hrun)
      as (j & Hj & Hsent).
    destruct y as [y|resp]; eexists n', _, (S j);
      (split; [reflexivity|]); (split; [simpl in Hj; lia | exact Hsent]).
  - intros Hssl.
    assert (Hloop : forall (rq' : Request) (n : Net),
               exists n' y,
                 urllib3.urlopen fuel srv rq' (request_url rq')
                   (retry_strategy 5) n = Some (n', y)).
    { intros rq' n.
      exact (urlopen_cloud_total srv rq' (request_url rq') fuel 1 5
               (retry_strategy 5) n cloud_budget_initial (Hssl rq')
               ltac:(simpl; lia)). }
    assert (Hsend :
      forall (rq' : Request) (n n' : Net) (y : pool_exn + Response),
        urllib3.urlopen fuel srv rq' (request_url rq') (retry_strategy 5) n
        = Some (n', y) ->
        exists j pauses,
          (j <= 6)%nat
          /\ sent n' = (sent n ++ replicate (S j) rq')%list
          /\ slept n' = (slept n ++ pauses)%list
          /\ length pauses = j).
    { intros rq' n n' y Hrun.
      destruct (urlopen_pauses srv rq' _ fuel _ n n' y Hrun)
        as (j & pauses & Hsent & Hsl & Hlen).
      destruct (urlopen_cloud_bound srv rq' (request_url rq') fuel 1 5
                  (retry_strategy 5) n n' y cloud_budget_initial (Hssl rq')
                  Hrun) as (j' & Hj' & Hsent').
      exists j, pauses. repeat split; try done.
      rewrite Hsent in Hsent'. apply app_inv_head in Hsent'.
      apply (f_equal length) in Hsent'. rewrite !length_replicate in Hsent'.
      simpl in Hj'. lia. }
    rewrite (cloud_storage_runs_loop fuel srv method verb url kwargs
               Hverb Hm Hu Hd Hs net).
    fold rq.
    destruct (Hloop rq net) as (n1 & y & Hrun). rewrite Hrun.
    destruct (Hsend rq net n1 y Hrun) as (j & pauses & Hj & Hsent & _).
    destruct y as [y|resp].
    + exists n1, (inl (requests.translate y)), (S j), [].
      split; [reflexivity|]. split; [lia|].
      rewrite app_nil_r. split; [exact Hsent | simpl; lia].
    + unfold requests.follow.
      destruct (default true (kw_allow_redirects kwargs)).
      * destruct (resolve_redirects_total fuel srv (retry_strategy 5) Hloop
                    requests.DEFAULT_REDIRECT_LIMIT rq resp n1)
          as (n2 & x & Hrest).
        destruct (resolve_redirects_footprint fuel srv (retry_strategy 5) 6
                    Hsend _ rq resp n1 n2 x Hrest)
          as (tail & pauses' & Hsent' & _ & Hlen & _).
        exists n2, x, (S j), tail. split; [exact Hrest|]. split; [lia|].
        split; [by rewrite Hsent', Hsent, <- app_assoc|].
        unfold requests.DEFAULT_REDIRECT_LIMIT in Hlen. lia.
      * exists n1, (inr resp), (S j), [].
        split; [reflexivity|]. split; [lia|].
        rewrite app_nil_r. split; [exact Hsent | simpl; lia].
Qed.

Lemma cloud_storage_transfer_is_bounded_witness :
  (7 <= 7)%nat
  /\ exists net' x k,
       cloud_storage_http_request (U:=plain_urls) 7 (always 503) "get"
         "https://bucket.example/blob" no_kwargs net0 = Some (net', x)
       /\ (1 <= k <= 7)%nat
       /\ sent net'
          = (sent net0
             ++ replicate k (cloud_request "GET" "https://bucket.example/blob"
                               no_kwargs))%list.
Proof.
  assert (Hfuel : (7 <= 7)%nat) by lia.
  split; [exact Hfuel|].
  apply (proj1 (cloud_storage_transfer_is_bounded (U:=plain_urls) 7
                  (always 503) "get" "GET" "https://bucket.example/blob"
                  no_kwargs net0 eq_refl eq_refl eq_refl eq_refl eq_refl
                  Hfuel)).
  - intros i. discriminate.
  - intros i resp [= <-]. reflexivity.
Defined.

(** X14. The same transfer has no end when every exchange fails for a
    reason that is neither a connection nor a read failure (a TLS
    handshake that is refused, say): the policy has no total and no budget
    for such failures, so whatever number of exchanges is allowed, the
    call has produced neither a response nor an exception within it. *)
Theorem cloud_storage_never_gives_up_on_other_failures
    {U : UrlHandling} (fuel : nat) (srv : Server) (method verb url : string)
    (kwargs : Kwargs) (net : Net) :
  let rq := cloud_request verb url kwargs in
  cloud_verb method = Some verb ->
  kw_method kwargs = None ->
  kw_url kwargs = None ->
  kw_retry_attempts kwargs = None ->
  has_http_scheme url = true ->
  (forall i, srv rq i = Fails SSLError) ->
  cloud_storage_http_request fuel srv method url kwargs net = None.
Proof.
  intros rq Hverb Hm Hu Hd Hs Hssl.
  rewrite (cloud_storage_runs_loop fuel srv method verb url kwargs
             Hverb Hm Hu Hd Hs net).
  fold rq.
  by rewrite (urlopen_cloud_other srv rq (request_url rq) fuel 1 5
                (retry_strategy 5) net cloud_budget_initial Hssl).
Qed.

Lemma cloud_storage_never_gives_up_on_other_failures_witness :
  cloud_storage_http_request (U:=plain_urls) 1000 (always_fails SSLError)
    "PUT" "https://bucket.example/blob" no_kwargs net0 = None.
Proof.
  apply (cloud_storage_never_gives_up_on_other_failures (U:=plain_urls) 1000
           (always_fails SSLError) "PUT" "PUT"
           "https://bucket.example/blob" no_kwargs net0);
    reflexivity.
Defined.

(** ** The table of endpoints *)

Lemma find_app {A} (f : A -> bool) (l1 l2 : list A) :
  List.find f (l1 ++ l2)%list
  = match List.find f l1 with
    | Some x => Some x
    | None => List.find f l2
    end.
Proof.
  induction l1 as [|x l1 IH]; simpl; [done|]. by destruct (f x).
Qed.

Lemma extract_api_info_loop_fails (service_methods : list MethodDescriptor)
    (path_prefix : string) :
  forall res,
    extract_api_info_loop service_methods path_prefix res = None
    <-> Exists (fun m => endpoints m = []) service_methods.
Proof.
  induction service_methods as [|m rest IH]; intros res; simpl.
  - split; [discriminate|]. intros Hex. inversion Hex.
  - destruct (endpoints m) as [|endpoint others] eqn:Hm.
    + split; [|done]. intros _. by constructor.
    + rewrite IH. split.
      * intros Hex. by constructor 2.
      * intros Hex. inversion Hex as [? ? Hhd|? ? Htl]; subst; [congruence|done].
Qed.

Lemma extract_api_info_loop_bindings (service_methods : list MethodDescriptor)
    (path_prefix : string) :
  forall res res',
    extract_api_info_loop service_methods path_prefix res = Some res' ->
    forall k,
      res' !! k
      = match declared_binding service_methods path_prefix k with
        | Some binding => Some binding
        | None => res !! k
        end.
Proof.
  induction service_methods as [|m rest IH]; intros res res'; simpl.
  - intros [= <-] k. reflexivity.
  - destruct (endpoints m) as [|endpoint others] eqn:Hm; [discriminate|].
    intros Hloop k.
    assert (Hrest : ~ Exists (fun m => endpoints m = []) rest).
    { intros Hex.
      apply (extract_api_info_loop_fails rest path_prefix
               (<[request_class m :=
                    (_get_path path_prefix (ep_path endpoint),
                     ep_method endpoint)]> res)) in Hex.
      congruence. }
    rewrite (IH _ _ Hloop k).
    unfold declared_binding. simpl rev. rewrite find_app.
    destruct (List.find _ (rev rest)) as [m'|] eqn:Hfind.
    + destruct (endpoints m') as [|endpoint' others'] eqn:Hm'; [|done].
      exfalso. apply Hrest. apply List.Exists_exists. exists m'.
      split; [|done].
      apply find_some in Hfind as [Hin _]. by apply in_rev in Hin.
    + simpl. destruct (String.eqb_spec (request_class m) k) as [->|Hne].
      * rewrite Hm. by rewrite lookup_insert_eq.
      * by rewrite lookup_insert_ne.
Qed.

(** X15. [extract_api_info_for_service] raises exactly when some method
    of the service declares no endpoint (the [IndexError] of
    [endpoints[0]]); otherwise the dictionary binds each request class to
    the first endpoint of the last method declared with it, its path put
    under the prefix, and binds nothing else. *)
Theorem extract_api_info_for_service_bindings
    (service_methods : list MethodDescriptor) (path_prefix : string) :
  (extract_api_info_for_service service_methods path_prefix = None
   <-> Exists (fun m => endpoints m = []) service_methods)
  /\ (forall res,
        extract_api_info_for_service service_methods path_prefix = Some res ->
        forall k, res !! k = declared_binding service_methods path_prefix k).
Proof.
  unfold extract_api_info_for_service. split.
  - apply extract_api_info_loop_fails.
  - intros res Hres k.
    rewrite (extract_api_info_loop_bindings _ _ _ _ Hres k).
    by destruct (declared_binding service_methods path_prefix k).
Qed.

Lemma prefix_app (p a b : string) :
  String.prefix p a = true -> String.prefix p (a ++ b) = true.
Proof.
  revert a. induction p as [|c p IH]; intros a;
    [intros _; by destruct (a ++ b)|].
  destruct a as [|c' a]; simpl; [discriminate|].
  destruct (Ascii.ascii_dec c c'); [apply IH | discriminate].
Qed.

Lemma declared_binding_path (service_methods : list MethodDescriptor)
    (path_prefix k path verb : string) :
  declared_binding service_methods path_prefix k = Some (path, verb) ->
  exists m endpoint others,
    In m service_methods
    /\ request_class m = k
    /\ endpoints m = endpoint :: others
    /\ path = _get_path path_prefix (ep_path endpoint)
    /\ verb = ep_method endpoint.
Proof.
  unfold declared_binding.
  destruct (List.find _ _) as [m|] eqn:Hfind; [|discriminate].
  destruct (endpoints m) as [|endpoint others] eqn:Hm; [discriminate|].
  intros [= <- <-]. apply find_some in Hfind as [Hin Hk].
  apply in_rev in Hin. apply String.eqb_eq in Hk.
  by exists m, endpoint, others.
Qed.

(** X16. With a path prefix under [/api/2.0], every entry in the table of
    [extract_api_info_for_service] comes from a method of the service
    with that request class: its path is the prefix followed by the path
    of the method's first endpoint, its verb is that endpoint's, and
    [verify_rest_response] holds every response from such a path to the
    JSON check: what it lets through has status 200 and a body that
    parses. *)
Theorem service_endpoints_are_json_checked
    (service_methods : list MethodDescriptor) (path_prefix : string)
    (res : gmap string (string * string)) (k path verb : string) :
  Py.startswith path_prefix _REST_API_PATH_PREFIX = true ->
  extract_api_info_for_service service_methods path_prefix = Some res ->
  res !! k = Some (path, verb) ->
  (exists m endpoint others,
      In m service_methods
      /\ request_class m = k
      /\ endpoints m = endpoint :: others
      /\ path = path_prefix ++ ep_path endpoint
      /\ verb = ep_method endpoint)
  /\ forall response accepted,
       verify_rest_response response path = inr accepted ->
       status_code response = 200
       /\ is_Some (json.loads (text response)).
Proof.
  intros Hprefix Hres Hk.
  unfold extract_api_info_for_service in Hres.
  rewrite (extract_api_info_loop_bindings _ _ _ _ Hres k) in Hk.
  destruct (declared_binding service_methods path_prefix k)
    as [binding|] eqn:Hdecl; [|by rewrite lookup_empty in Hk].
  injection Hk as ->.
  destruct (declared_binding_path _ _ _ _ _ Hdecl)
    as (m & endpoint & others & Hin & Hclass & Hm & -> & ->).
  split; [by exists m, endpoint, others|].
  intros response accepted.
  unfold verify_rest_response, _can_parse_as_json, _get_path, Py.startswith.
  unfold Py.startswith in Hprefix.
  rewrite (prefix_app _ _ (ep_path endpoint) Hprefix).
  destruct (Z.eqb_spec (status_code response) 200) as [Hs|Hs]; simpl.
  - destruct (json.loads (text response)) as [j|]; simpl; [|discriminate].
    intros _. split; [done | by eexists].
  - destruct (json.loads (text response)) as [j|]; discriminate.
Qed.

Lemma service_endpoints_are_json_checked_witness :
  (exists m endpoint others,
      In m [ {| request_class := "GetRun";
                endpoints := [ {| ep_method := "GET";
                                  ep_path := "/mlflow/runs/get" |} ] |} ]
      /\ request_class m = "GetRun"
      /\ endpoints m = endpoint :: others
      /\ "/api/2.0/mlflow/runs/get" = "/api/2.0" ++ ep_path endpoint
      /\ "GET" = ep_method endpoint)
  /\ forall response accepted,
       verify_rest_response response "/api/2.0/mlflow/runs/get" = inr accepted ->
       status_code response = 200
       /\ is_Some (json.loads (text response)).
Proof.
  apply (service_endpoints_are_json_checked
           [ {| request_class := "GetRun";
                endpoints := [ {| ep_method := "GET";
                                  ep_path := "/mlflow/runs/get" |} ] |} ]
           "/api/2.0"
           (<["GetRun" := ("/api/2.0/mlflow/runs/get", "GET")]> ∅)
           "GetRun" "/api/2.0/mlflow/runs/get" "GET");
    reflexivity.
Defined.

(** ** The conversion scripts *)

Section Paths.

Import convert_to_docker.

Local Arguments String.app !_ _ / : simpl nomatch.

Lemma string_app_assoc (a b c : string) : (a ++ b) ++ c = a ++ b ++ c.
Proof. induction a as [|x a IH]; simpl; [done | by f_equal]. Qed.

Lemma occurs_app (c : ascii) (a b : string) :
  occurs c (a ++ b) = occurs c a || occurs c b.
Proof.
  induction a as [|x a IH]; simpl; [done|]. by rewrite IH, orb_assoc.
Qed.

Lemma split_not_nil (c : ascii) (s : string) : split c s <> [].
Proof.
  destruct s as [|a r]; simpl; [done|].
  destruct (Ascii.eqb a c); [done|]. by destruct (split c r).
Qed.

Lemma split_without (c : ascii) (s : string) :
  occurs c s = false -> split c s = [s].
Proof.
  induction s as [|a r IH]; simpl; [done|].
  destruct (Ascii.eqb a c); simpl; [discriminate|].
  intros Hr. by rewrite (IH Hr).
Qed.

Lemma split_at_first_cons (c : ascii) (a b : string) :
  occurs c a = false ->
  split c (a ++ String c b) = a :: split c b.
Proof.
  induction a as [|x a IH]; simpl.
  - intros _. by rewrite Ascii.eqb_refl.
  - destruct (Ascii.eqb x c); simpl; [discriminate|].
    intros Ha. by rewrite (IH Ha).
Qed.

Lemma split_at_first (c : ascii) (a b : string) :
  occurs c a = false ->
  split c (a ++ String c "" ++ b) = a :: split c b.
Proof. exact (split_at_first_cons c a b). Qed.

Lemma split_pieces_clean (c : ascii) (s : string) :
  Forall (fun piece => occurs c piece = false) (split c s).
Proof.
  induction s as [|a r IH]; simpl; [by repeat constructor|].
  destruct (Ascii.eqb a c) eqn:Hac; [by constructor|].
  destruct (split c r) as [|piece pieces]; [by repeat constructor; simpl; rewrite Hac|].
  inversion IH as [|? ? Hpiece Hpieces]; subst.
  constructor; [|done]. simpl. by rewrite Hac.
Qed.

Lemma join_split (c : ascii) (s : string) :
  join (String c "") (split c s) = s.
Proof.
  induction s as [|a r IH]; [done|]. simpl split.
  destruct (Ascii.eqb_spec a c) as [->|Hac].
  - pose proof (split_not_nil c r) as Hne.
    destruct (split c r) as [|piece pieces]; [done|].
    change (join (String c "") ("" :: piece :: pieces))
      with (String c (join (String c "") (piece :: pieces))).
    by rewrite IH.
  - destruct (split c r) as [|piece pieces] eqn:Hsplit;
      [by destruct (split_not_nil c r)|].
    destruct pieces as [|piece' pieces].
    + simpl in *. by rewrite IH.
    + change (join (String c "") (String a piece :: piece' :: pieces))
        with (String a (join (String c "") (piece :: piece' :: pieces))).
      by rewrite IH.
Qed.

Lemma last_item_snoc (l : list string) :
  l <> [] -> exists x, last_item l = Some x /\ l = (but_last l ++ [x])%list.
Proof.
  induction l as [|y l IH]; [done|]. intros _.
  destruct l as [|z l]; [by exists y|].
  destruct IH as (x & Hlast & Hl); [done|].
  exists x. split; [exact Hlast|].
  unfold but_last in *. simpl removelast in *. simpl. by rewrite <- Hl.
Qed.

Lemma join_snoc (sep x : string) (l : list string) :
  l <> [] -> join sep (l ++ [x]) = join sep l ++ sep ++ x.
Proof.
  induction l as [|y l IH]; [done|]. intros _.
  destruct l as [|z l]; [done|].
  change (join sep ((y :: z :: l) ++ [x]))
    with (y ++ sep ++ join sep ((z :: l) ++ [x])).
  rewrite IH by done.
  change (join sep (y :: z :: l)) with (y ++ sep ++ join sep (z :: l)).
  by rewrite !string_app_assoc.
Qed.

(** X17. [convert_to_docker.py] gets a file name and a directory out of
    [--file] whenever it is given: the name holds no backslash; if the
    argument holds one, directory, backslash and name put together are the
    argument again; if it holds none, the name is the whole argument, the
    directory is empty, and the [MLmodel] file is written to
    [\MLmodel]. Without [--file] the script stops at the first of these
    lines. [convert_to_docker_new.py] does the same only when [--type] is
    given, whatever its value; without [--type] it exits with a message
    before it looks at [--file]. *)
Theorem plan_splits_the_path (file : string) :
  convert_to_docker.plan None = None
  /\ (exists p,
        convert_to_docker.plan (Some file) = Some p
        /\ occurs convert_to_docker.separator_char (convert_to_docker.file_name p)
           = false
        /\ (occurs convert_to_docker.separator_char file = true ->
            file = convert_to_docker.file_path p
                   ++ convert_to_docker.separator
                   ++ convert_to_docker.file_name p)
        /\ (occurs convert_to_docker.separator_char file = false ->
            convert_to_docker.file_name p = file
            /\ convert_to_docker.file_path p = ""
            /\ convert_to_docker.mlmodel_file p
               = convert_to_docker.separator ++ "MLmodel"))
  /\ (forall arguments_file,
        convert_to_docker.plan_new None arguments_file
        = inl "Enter the type of model. 1: Tensorflow 2: PyTorch 3: Sklearn")
  /\ (forall arguments_type arguments_file,
        convert_to_docker.plan_new (Some arguments_type) arguments_file
        = inr (convert_to_docker.plan arguments_file)).
Proof.
  split; [done|]. split; [|split; [done|by intros t f]].
  unfold convert_to_docker.plan.
  set (c := convert_to_docker.separator_char).
  destruct (last_item_snoc (convert_to_docker.split c file)
              (split_not_nil c file)) as (name & Hlast & Hsplit).
  rewrite Hlast. eexists. split; [reflexivity|]. simpl.
  pose proof (split_pieces_clean c file) as Hclean.
  pose proof (join_split c file) as Hjoin.
  split; [|split].
  - rewrite Hsplit in Hclean. apply Forall_app in Hclean as [_ Hname].
    by inversion Hname.
  - intros Hocc.
    destruct (convert_to_docker.but_last (convert_to_docker.split c file))
      as [|d ds] eqn:Hdir.
    + rewrite Hsplit in Hclean, Hjoin. simpl in Hclean, Hjoin.
      inversion Hclean as [|? ? Hname _]; subst. congruence.
    + rewrite Hsplit in Hjoin at 1.
      rewrite join_snoc in Hjoin by done. by rewrite <- Hjoin.
  - intros Hocc. rewrite (split_without c file Hocc) in Hlast, Hsplit |- *.
    injection Hlast as <-. by simpl.
Qed.

(** X18. The [MLmodel] text of [get_file_contents] has exactly ten lines
    when neither the file name nor the two version strings hold a line
    feed; the fourth names the model file as given and the last carries
    the Python version, with no line feed after it. *)
Theorem get_file_contents_lines
    (onnx_version python_version file_name : string) :
  occurs newline onnx_version = false ->
  occurs newline python_version = false ->
  occurs newline file_name = false ->
  lines (convert_to_docker.get_file_contents onnx_version python_version
           file_name)
  = [ "artifact_path: model";
      "flavors:";
      "  onnx:";
      "    data: " ++ file_name;
      "    onnx_version: " ++ onnx_version;
      "  python_function:";
      "    data: model.onnx";
      "    env: conda.yaml";
      "    loader_module: mlflow.onnx";
      "    python_version: " ++ python_version ].
Proof.
  intros Hov Hpv Hfn.
  assert (Hshape :
    convert_to_docker.get_file_contents onnx_version python_version file_name
    = "artifact_path: model" ++ String newline "" ++
      "flavors:" ++ String newline "" ++
      "  onnx:" ++ String newline "" ++
      ("    data: " ++ file_name) ++ String newline "" ++
      ("    onnx_version: " ++ onnx_version) ++ String newline "" ++
      "  python_function:" ++ String newline "" ++
      "    data: model.onnx" ++ String newline "" ++
      "    env: conda.yaml" ++ String newline "" ++
      "    loader_module: mlflow.onnx" ++ String newline "" ++
      ("    python_version: " ++ python_version)).
  { unfold convert_to_docker.get_file_contents, convert_to_docker.nl, newline.
    cbv zeta. rewrite !string_app_assoc. reflexivity. }
  rewrite Hshape. unfold lines.
  assert (Hlit : forall (literal s : string),
             occurs newline literal = false -> occurs newline s = false ->
             occurs newline (literal ++ s) = false).
  { intros literal s Hl Hs. by rewrite occurs_app, Hl, Hs. }
  rewrite !split_at_first by (reflexivity || (apply Hlit; [reflexivity | assumption])).
  rewrite split_without by (apply Hlit; [reflexivity | assumption]).
  reflexivity.
Qed.

Lemma get_file_contents_lines_witness :
  lines (convert_to_docker.get_file_contents "1.8.0" "3.8.5" "model.onnx")
  = [ "artifact_path: model";
      "flavors:";
      "  onnx:";
      "    data: " ++ "model.onnx";
      "    onnx_version: " ++ "1.8.0";
      "  python_function:";
      "    data: model.onnx";
      "    env: conda.yaml";
      "    loader_module: mlflow.onnx";
      "    python_version: " ++ "3.8.5" ].
Proof.
  apply (get_file_contents_lines "1.8.0" "3.8.5" "model.onnx"); reflexivity.
Defined.

(** X19. In [convert_to_docker_new.py] no value of [--type] selects a
    conversion: the option is read as text and compared with the integers
    1, 2 and 3, so a given type falls through every branch, and a missing
    one ends the script. *)
Theorem convert_model_never_converts (arguments_type : option string) :
  convert_to_docker.convert_model arguments_type
  = match arguments_type with
    | None =>
        convert_to_docker.SysExit
          "Enter the type of model. 1: Tensorflow 2: PyTorch 3: Sklearn"
    | Some _ => convert_to_docker.NoConversion
    end.
Proof. by destruct arguments_type. Qed.

End Paths.
